(** * ZenFS zone manager: a shallow embedding of fs/zbd_zenfs.cc

    The development follows the source file top to bottom: the per-zone
    operations ([Zone::Reset], [Zone::Finish], [Zone::Append]), the token
    counters, the lifetime buckets ([InitialLevelZones], [EmitLevelZone]),
    the maintenance passes ([ApplyFinishThreshold], [ResetUnusedIOZones]),
    the allocators ([AllocateMetaZone], [AllocateEmptyZone],
    [AllocateIOZone]) and the deferred status latch.

    Conventions.
    - [uint64_t] and [uint32_t] values are integers in [Z]; every arithmetic
      result is reduced with [u64] or [u32] where the source computes in that
      width.
    - The token counters are [std::atomic<long>] and move by one per call;
      they are integers. The caps hold [unsigned int] values ([Open]
      computes them in that width): a difference of a cap is reduced with
      [u32] before it is compared with a counter.
    - A [Zone *] that points into [io_zones] (or [meta_zones]) is the index
      of the zone in that vector; the vectors never change length after
      [Open].
    - The device behind [zbd_be_] is a value of a backend type [B] that the
      operations thread through; [ZonedBlockDeviceBackend] is the interface.
    - A call that waits on [level_zone_resources_] or that keeps retrying
      [AllocateEmptyZone] does not return in a sequential run; the embedding
      makes this an explicit [Outcome]. *)

From Stdlib Require Import ZArith Lia Bool List.
From stdpp Require Import base option list gmap.
Import ListNotations.
Local Open Scope Z_scope.

Ltac Zify.zify_post_hook ::= Z.div_mod_to_equations.

(** ** Machine integers *)

Definition u64 (x : Z) : Z := x mod 2 ^ 64.
Definition u32 (x : Z) : Z := x mod 2 ^ 32.

(** ** IOStatus (code only; the message string is dropped) *)

Inductive IOStatus : Type :=
  | OK | NoSpace | IOError | Corruption | NotSupported | InvalidArgument.

Definition ok (s : IOStatus) : bool :=
  match s with OK => true | _ => false end.

(** ** Env::WriteLifeTimeHint
    The enumerators of RocksDB; the source also stores other integers in a
    [lifetime_] field (class 8, [i + lifetime_begin_]), so the field is an
    integer. *)

Definition WLTH_NOT_SET : Z := 0.
Definition WLTH_NONE : Z := 1.
Definition WLTH_SHORT : Z := 2.
Definition WLTH_MEDIUM : Z := 3.
Definition WLTH_LONG : Z := 4.
Definition WLTH_EXTREME : Z := 5.

(** [IOType]: the source only tells [kWAL] from the rest. *)
Inductive IOType : Type := kWAL | kFlush | kCompaction | kUnknown.

Definition is_kWAL (t : IOType) : bool :=
  match t with kWAL => true | _ => false end.

(** ** Zone
    The class is declared in zbd_zenfs.h, which is not among the sources;
    the fields are the ones the member functions use. *)

Record Zone : Type := mkZone {
  busy_ : bool;
  start_ : Z;
  max_capacity_ : Z;
  wp_ : Z;
  lifetime_ : Z;
  used_capacity_ : Z;
  capacity_ : Z;
  useinlevelzone_ : bool;
}.

Definition set_busy (z : Zone) (v : bool) : Zone :=
  mkZone v (start_ z) (max_capacity_ z) (wp_ z) (lifetime_ z)
         (used_capacity_ z) (capacity_ z) (useinlevelzone_ z).
Definition set_max_capacity (z : Zone) (v : Z) : Zone :=
  mkZone (busy_ z) (start_ z) v (wp_ z) (lifetime_ z)
         (used_capacity_ z) (capacity_ z) (useinlevelzone_ z).
Definition set_wp (z : Zone) (v : Z) : Zone :=
  mkZone (busy_ z) (start_ z) (max_capacity_ z) v (lifetime_ z)
         (used_capacity_ z) (capacity_ z) (useinlevelzone_ z).
Definition set_lifetime (z : Zone) (v : Z) : Zone :=
  mkZone (busy_ z) (start_ z) (max_capacity_ z) (wp_ z) v
         (used_capacity_ z) (capacity_ z) (useinlevelzone_ z).
Definition set_capacity (z : Zone) (v : Z) : Zone :=
  mkZone (busy_ z) (start_ z) (max_capacity_ z) (wp_ z) (lifetime_ z)
         (used_capacity_ z) v (useinlevelzone_ z).
Definition set_useinlevelzone (z : Zone) (v : bool) : Zone :=
  mkZone (busy_ z) (start_ z) (max_capacity_ z) (wp_ z) (lifetime_ z)
         (used_capacity_ z) (capacity_ z) v.

Definition IsUsed (z : Zone) : bool := 0 <? used_capacity_ z.
Definition GetCapacityLeft (z : Zone) : Z := capacity_ z.
Definition IsFull (z : Zone) : bool := capacity_ z =? 0.
Definition IsEmpty (z : Zone) : bool := wp_ z =? start_ z.

(** Modelled from the spec: [Zone::IsBusy] is defined in zbd_zenfs.h, which
    is not among the sources; it reads the [busy] flag. *)
Definition IsBusy (z : Zone) : bool := busy_ z.

(** Modelled from the spec: [Zone::Acquire] is defined in zbd_zenfs.h, which
    is not among the sources. "Atomically set/clear busy. Acquire returns
    false if already busy". *)
Definition Acquire (z : Zone) : bool * Zone :=
  if busy_ z then (false, z) else (true, set_busy z true).

(** Modelled from the spec: [Zone::Release] is defined in zbd_zenfs.h, which
    is not among the sources. "Atomically set/clear busy. [...] Release
    returns false if not busy." *)
Definition Release (z : Zone) : bool * Zone :=
  if busy_ z then (true, set_busy z false) else (false, z).

Definition CheckRelease (z : Zone) : IOStatus * Zone :=
  let (released, z') := Release z in
  if negb released then (Corruption, z') else (OK, z').

(** ** The backend interface ([ZonedBlockDeviceBackend])
    Only the calls the modelled functions make. [be_Write] takes the byte
    count and the device offset; the bytes themselves play no role in the
    zone accounting and are left out. Its result is the [int] the source
    stores in [ret]. *)

Class ZonedBlockDeviceBackend (B : Type) : Type := {
  be_Reset : B -> Z -> B * (IOStatus * bool * Z);
  be_Finish : B -> Z -> B * IOStatus;
  be_Write : B -> Z -> Z -> B * Z;
  be_GetZoneSize : B -> Z;
  be_GetBlockSize : B -> Z;
}.

Section ZoneOps.
Context {B : Type} `{!ZonedBlockDeviceBackend B}.

(** [Zone::Reset]. The two [assert]s are the preconditions [Reset_pre]. *)
Definition Reset_pre (z : Zone) : Prop :=
  IsUsed z = false /\ IsBusy z = true.

Definition Zone_Reset (b : B) (z : Zone) : B * Zone * IOStatus :=
  let '(b', (ios, offline, max_capacity)) := be_Reset b (start_ z) in
  if negb (ok ios) then (b', z, ios)
  else
    let z1 :=
      if (offline : bool) then set_capacity z 0
      else set_max_capacity (set_capacity z max_capacity) max_capacity in
    let z2 := set_wp z1 (start_ z1) in
    (b', set_lifetime z2 WLTH_NOT_SET, OK).

(** [Zone::Finish]. *)
Definition Zone_Finish (b : B) (z : Zone) : B * Zone * IOStatus :=
  let (b', ios) := be_Finish b (start_ z) in
  if negb (ok ios) then (b', z, ios)
  else
    let z1 := set_capacity z 0 in
    (b', set_wp z1 (u64 (start_ z1 + be_GetZoneSize b')), OK).

(** [Zone::Append]. [fuel] bounds the number of backend [Write] calls the
    loop may issue; [None] means the bound was reached with bytes still
    left. The last component lists what each [Write] call returned, in
    order. *)
Fixpoint Append_loop (fuel : nat) (b : B) (z : Zone) (left : Z)
  : option (B * Zone * IOStatus * list Z) :=
  if left =? 0 then Some (b, z, OK, [])
  else
    match fuel with
    | O => None
    | S fuel' =>
        let (b', ret) := be_Write b left (wp_ z) in
        if ret <? 0 then Some (b', z, IOError, [ret])
        else
          let z1 := set_wp z (u64 (wp_ z + ret)) in
          let z2 := set_capacity z1 (u64 (capacity_ z1 - ret)) in
          match Append_loop fuel' b' z2 (u32 (left - ret)) with
          | Some (b'', z'', s, rets) => Some (b'', z'', s, ret :: rets)
          | None => None
          end
    end.

Definition Zone_Append (fuel : nat) (b : B) (z : Zone) (size : Z)
  : option (B * Zone * IOStatus * list Z) :=
  if capacity_ z <? size then Some (b, z, NoSpace, [])
  else Append_loop fuel b z size.

End ZoneOps.

(** ** ZonedBlockDevice
    The fields the modelled functions use. A bucket of [level_zones] is a
    set of [Zone *]; [diff_level_num_] is the length of [level_zones] and
    of [level_active_io_zones_]. *)

Record ZonedBlockDevice (B : Type) : Type := mkZBD {
  zbd_be_ : B;
  io_zones : list Zone;
  meta_zones : list Zone;
  level_zones : list (gset nat);
  level_active_io_zones_ : list Z;
  active_io_zones_ : Z;
  open_io_zones_ : Z;
  max_nr_active_io_zones_ : Z;
  max_nr_open_io_zones_ : Z;
  finish_threshold_ : Z;
  lifetime_begin_ : Z;
  diff_level_num_ : nat;
  zone_deferred_status_ : IOStatus;
}.

Arguments mkZBD {B}.
Arguments zbd_be_ {B}.
Arguments io_zones {B}.
Arguments meta_zones {B}.
Arguments level_zones {B}.
Arguments level_active_io_zones_ {B}.
Arguments active_io_zones_ {B}.
Arguments open_io_zones_ {B}.
Arguments max_nr_active_io_zones_ {B}.
Arguments max_nr_open_io_zones_ {B}.
Arguments finish_threshold_ {B}.
Arguments lifetime_begin_ {B}.
Arguments diff_level_num_ {B}.
Arguments zone_deferred_status_ {B}.

(** What a call can come to. [Blocked]: the predicate of a wait on
    [level_zone_resources_] is false and nobody is left to wake the caller.
    [Retrying]: the caller is in its [usleep] loop because
    [AllocateEmptyZone] found no zone. [Exited]: [exit(1)]. [Undefined]: an
    out-of-range vector index or a null [Zone *] was used. *)
Inductive Outcome (S A : Type) : Type :=
  | Returned (a : A) (s : S)
  | Blocked (s : S)
  | Retrying (s : S)
  | Exited (s : S)
  | Undefined.

Arguments Returned {S A}.
Arguments Blocked {S A}.
Arguments Retrying {S A}.
Arguments Exited {S A}.
Arguments Undefined {S A}.

Section Device.
Context {B : Type} `{!ZonedBlockDeviceBackend B}.

Local Abbreviation ZBD := (ZonedBlockDevice B).

Definition set_be (d : ZBD) (v : B) : ZBD :=
  mkZBD v (io_zones d) (meta_zones d) (level_zones d)
    (level_active_io_zones_ d) (active_io_zones_ d) (open_io_zones_ d)
    (max_nr_active_io_zones_ d) (max_nr_open_io_zones_ d)
    (finish_threshold_ d) (lifetime_begin_ d) (diff_level_num_ d)
    (zone_deferred_status_ d).
Definition set_io_zones (d : ZBD) (v : list Zone) : ZBD :=
  mkZBD (zbd_be_ d) v (meta_zones d) (level_zones d)
    (level_active_io_zones_ d) (active_io_zones_ d) (open_io_zones_ d)
    (max_nr_active_io_zones_ d) (max_nr_open_io_zones_ d)
    (finish_threshold_ d) (lifetime_begin_ d) (diff_level_num_ d)
    (zone_deferred_status_ d).
Definition set_meta_zones (d : ZBD) (v : list Zone) : ZBD :=
  mkZBD (zbd_be_ d) (io_zones d) v (level_zones d)
    (level_active_io_zones_ d) (active_io_zones_ d) (open_io_zones_ d)
    (max_nr_active_io_zones_ d) (max_nr_open_io_zones_ d)
    (finish_threshold_ d) (lifetime_begin_ d) (diff_level_num_ d)
    (zone_deferred_status_ d).
Definition set_level_zones (d : ZBD) (v : list (gset nat)) : ZBD :=
  mkZBD (zbd_be_ d) (io_zones d) (meta_zones d) v
    (level_active_io_zones_ d) (active_io_zones_ d) (open_io_zones_ d)
    (max_nr_active_io_zones_ d) (max_nr_open_io_zones_ d)
    (finish_threshold_ d) (lifetime_begin_ d) (diff_level_num_ d)
    (zone_deferred_status_ d).
Definition set_level_active (d : ZBD) (v : list Z) : ZBD :=
  mkZBD (zbd_be_ d) (io_zones d) (meta_zones d) (level_zones d)
    v (active_io_zones_ d) (open_io_zones_ d)
    (max_nr_active_io_zones_ d) (max_nr_open_io_zones_ d)
    (finish_threshold_ d) (lifetime_begin_ d) (diff_level_num_ d)
    (zone_deferred_status_ d).
Definition set_active (d : ZBD) (v : Z) : ZBD :=
  mkZBD (zbd_be_ d) (io_zones d) (meta_zones d) (level_zones d)
    (level_active_io_zones_ d) v (open_io_zones_ d)
    (max_nr_active_io_zones_ d) (max_nr_open_io_zones_ d)
    (finish_threshold_ d) (lifetime_begin_ d) (diff_level_num_ d)
    (zone_deferred_status_ d).
Definition set_open (d : ZBD) (v : Z) : ZBD :=
  mkZBD (zbd_be_ d) (io_zones d) (meta_zones d) (level_zones d)
    (level_active_io_zones_ d) (active_io_zones_ d) v
    (max_nr_active_io_zones_ d) (max_nr_open_io_zones_ d)
    (finish_threshold_ d) (lifetime_begin_ d) (diff_level_num_ d)
    (zone_deferred_status_ d).
Definition set_deferred (d : ZBD) (v : IOStatus) : ZBD :=
  mkZBD (zbd_be_ d) (io_zones d) (meta_zones d) (level_zones d)
    (level_active_io_zones_ d) (active_io_zones_ d) (open_io_zones_ d)
    (max_nr_active_io_zones_ d) (max_nr_open_io_zones_ d)
    (finish_threshold_ d) (lifetime_begin_ d) (diff_level_num_ d) v.

(** Store through a [Zone *] into [io_zones]. *)
Definition store_io_zone (d : ZBD) (i : nat) (z : Zone) : ZBD :=
  set_io_zones d (<[i := z]> (io_zones d)).

(** The bucket index [lifetime - lifetime_begin_] as an index into the
    two vectors of [diff_level_num_] elements, when it is one. *)
Definition level_index (d : ZBD) (lifetime : Z) : option nat :=
  let level := lifetime - lifetime_begin_ d in
  if (0 <=? level) && (level <? Z.of_nat (diff_level_num_ d))
  then Some (Z.to_nat level) else None.

(** *** Token accounting *)

(** [std::condition_variable::wait(lk, pred)]: the predicate runs under
    the mutex; while it is false the caller sleeps, and each element of
    [wakeups] is what the other threads did to the device before the next
    evaluation. *)
Fixpoint cv_wait (pred : ZBD -> bool * ZBD) (d : ZBD)
         (wakeups : list (ZBD -> ZBD)) : Outcome ZBD unit :=
  let (go, d') := pred d in
  if go then Returned tt d'
  else
    match wakeups with
    | [] => Blocked d'
    | env :: rest => cv_wait pred (env d') rest
    end.

(** The [long allocator_open_limit] of [WaitForOpenIOZoneToken]:
    [max_nr_open_io_zones_ - 1] is an [unsigned int] difference, widened
    after the subtraction. *)
Definition allocator_open_limit (d : ZBD) (prioritized : bool) : Z :=
  if prioritized then max_nr_open_io_zones_ d
  else u32 (max_nr_open_io_zones_ d - 1).

Definition WaitForOpenIOZoneToken_pred (limit : Z) (d : ZBD) : bool * ZBD :=
  if open_io_zones_ d <? limit
  then (true, set_open d (open_io_zones_ d + 1))
  else (false, d).

Definition WaitForOpenIOZoneToken (prioritized : bool) (d : ZBD)
           (wakeups : list (ZBD -> ZBD)) : Outcome ZBD unit :=
  cv_wait (WaitForOpenIOZoneToken_pred (allocator_open_limit d prioritized))
          d wakeups.

Definition GetActiveIOZoneTokenIfAvailable (d : ZBD) : bool * ZBD :=
  if active_io_zones_ d <? max_nr_active_io_zones_ d
  then (true, set_active d (active_io_zones_ d + 1))
  else (false, d).

Definition PutOpenIOZoneToken (d : ZBD) : ZBD :=
  set_open d (open_io_zones_ d - 1).

Definition PutActiveIOZoneToken (d : ZBD) : ZBD :=
  set_active d (active_io_zones_ d - 1).

(** *** AllocateEmptyZone *)

Fixpoint AllocateEmptyZone_scan (zs : list Zone) (idx : nat)
  : IOStatus * option nat * list Zone :=
  match zs with
  | [] => (OK, None, [])
  | z :: rest =>
      let (acquired, z1) := Acquire z in
      if acquired then
        if IsEmpty z1 then (OK, Some idx, z1 :: rest)
        else
          let (s, z2) := CheckRelease z1 in
          if negb (ok s) then (s, None, z2 :: rest)
          else
            let '(s', r, rest') := AllocateEmptyZone_scan rest (S idx) in
            (s', r, z2 :: rest')
      else
        let '(s', r, rest') := AllocateEmptyZone_scan rest (S idx) in
        (s', r, z :: rest')
  end.

Definition AllocateEmptyZone (d : ZBD) : IOStatus * option nat * ZBD :=
  let '(s, r, zs) := AllocateEmptyZone_scan (io_zones d) 0 in
  (s, r, set_io_zones d zs).

(** *** Lifetime buckets *)

(** [InitialLevelZones]; [n] iterations remain and [i] is the loop
    variable. *)
Fixpoint InitialLevelZones_loop (n i : nat) (d : ZBD) : Outcome ZBD unit :=
  match n with
  | O => Returned tt d
  | S n' =>
      let d1 := set_open d (open_io_zones_ d + 1) in
      let d2 := set_active d1 (active_io_zones_ d1 + 1) in
      let '(s, allocated, d3) := AllocateEmptyZone d2 in
      if negb (ok s) then Exited d3
      else
        match allocated with
        | None => Undefined
        | Some a =>
            match io_zones d3 !! a, level_zones d3 !! i,
                  level_active_io_zones_ d3 !! i with
            | Some z, Some bucket, Some idle =>
                let z' := set_lifetime z (Z.of_nat i + lifetime_begin_ d3) in
                let d4 := store_io_zone d3 a z' in
                let d5 :=
                  set_level_zones d4 (<[i := {[a]} ∪ bucket]> (level_zones d4)) in
                let d6 :=
                  set_level_active d5
                    (<[i := idle + 1]> (level_active_io_zones_ d5)) in
                InitialLevelZones_loop n' (S i) d6
            | _, _, _ => Undefined
            end
        end
  end.

Definition InitialLevelZones (d : ZBD) : Outcome ZBD unit :=
  InitialLevelZones_loop (diff_level_num_ d) 0 d.

(** [EmitLevelZone]. The [while (!allocated)] loop repeats the same scan
    of an unchanged registry, so a scan that finds nothing is
    [Retrying]. *)
Definition EmitLevelZone (emit_zone : nat) (d : ZBD) : Outcome ZBD bool :=
  match io_zones d !! emit_zone with
  | None => Undefined
  | Some z =>
      match level_index d (lifetime_ z) with
      | None => Undefined
      | Some lvl =>
          match level_zones d !! lvl with
          | None => Undefined
          | Some bucket =>
              let bucket1 := bucket ∖ {[emit_zone]} in
              let d1 := set_level_zones d (<[lvl := bucket1]> (level_zones d)) in
              let z1 := set_useinlevelzone z false in
              let z2 := (Release z1).2 in
              let d2 := store_io_zone d1 emit_zone z2 in
              if bool_decide (bucket1 = ∅) then
                let '(s, allocated, d3) := AllocateEmptyZone d2 in
                if negb (ok s) then Exited d3
                else
                  match allocated with
                  | None => Retrying d3
                  | Some a =>
                      match io_zones d3 !! a, io_zones d3 !! emit_zone,
                            level_zones d3 !! lvl with
                      | Some za, Some ze, Some bucket3 =>
                          let d4 :=
                            store_io_zone d3 a (set_lifetime za (lifetime_ ze)) in
                          Returned true
                            (set_level_zones d4
                               (<[lvl := {[a]} ∪ bucket3]> (level_zones d4)))
                      | _, _, _ => Undefined
                      end
                  end
              else
                let d3 := set_active d2 (active_io_zones_ d2 - 1) in
                Returned false (set_open d3 (open_io_zones_ d3 - 1))
          end
      end
  end.

(** [ReleaseLevelZone]. *)
Definition ReleaseLevelZone (release_zone : nat) (d : ZBD) : Outcome ZBD unit :=
  match io_zones d !! release_zone with
  | None => Undefined
  | Some z =>
      match level_index d (lifetime_ z) with
      | None => Undefined
      | Some lvl =>
          match level_active_io_zones_ d !! lvl with
          | None => Undefined
          | Some idle =>
              let d1 :=
                set_level_active d
                  (<[lvl := idle + 1]> (level_active_io_zones_ d)) in
              Returned tt
                (store_io_zone d1 release_zone (set_useinlevelzone z false))
          end
      end
  end.

(** *** AllocateMetaZone
    The loop runs over [meta_zones]; [idx] is the position of the head of
    [zs] in the vector. *)
Fixpoint AllocateMetaZone_loop (b : B) (zs : list Zone) (idx : nat)
  : IOStatus * option nat * B * list Zone :=
  match zs with
  | [] => (NoSpace, None, b, [])
  | z :: rest =>
      let (acquired, z1) := Acquire z in
      if acquired then
        if negb (IsUsed z1) then
          if negb (IsEmpty z1) then
            let '(b', z2, reset_status) := Zone_Reset b z1 in
            if negb (ok reset_status) then
              let (status, z3) := CheckRelease z2 in
              if negb (ok status) then (status, None, b', z3 :: rest)
              else
                let '(s', r, b'', rest') :=
                  AllocateMetaZone_loop b' rest (S idx) in
                (s', r, b'', z3 :: rest')
            else (OK, Some idx, b', z2 :: rest)
          else (OK, Some idx, b, z1 :: rest)
        else
          let '(s', r, b', rest') := AllocateMetaZone_loop b rest (S idx) in
          (s', r, b', z1 :: rest')
      else
        let '(s', r, b', rest') := AllocateMetaZone_loop b rest (S idx) in
        (s', r, b', z :: rest')
  end.

Definition AllocateMetaZone (d : ZBD) : IOStatus * option nat * ZBD :=
  let '(s, r, b, zs) := AllocateMetaZone_loop (zbd_be_ d) (meta_zones d) 0 in
  (s, r, set_meta_zones (set_be d b) zs).

(** *** ApplyFinishThreshold
    The loop body touches the zone at hand, the backend and the active
    counter, so the loop runs over the zone list and threads the device
    for the other two; [ApplyFinishThreshold] stores the zones back. *)
Definition within_finish_threshold (d : ZBD) (z : Zone) : bool :=
  capacity_ z <? u64 (max_capacity_ z * finish_threshold_ d) / 100.

Fixpoint ApplyFinishThreshold_loop (d : ZBD) (zs : list Zone)
  : IOStatus * ZBD * list Zone :=
  match zs with
  | [] => (OK, d, [])
  | z :: rest =>
      let (acquired, z1) := Acquire z in
      if acquired then
        if negb (IsEmpty z1 || IsFull z1) && within_finish_threshold d z1 then
          let '(b', z2, s) := Zone_Finish (zbd_be_ d) z1 in
          if negb (ok s) then (s, set_be d b', (Release z2).2 :: rest)
          else
            let (s', z3) := CheckRelease z2 in
            if negb (ok s') then (s', set_be d b', z3 :: rest)
            else
              let '(s'', d', rest') :=
                ApplyFinishThreshold_loop
                  (PutActiveIOZoneToken (set_be d b')) rest in
              (s'', d', z3 :: rest')
        else
          let (s', z2) := CheckRelease z1 in
          if negb (ok s') then (s', d, z2 :: rest)
          else
            let '(s'', d', rest') := ApplyFinishThreshold_loop d rest in
            (s'', d', z2 :: rest')
      else
        let '(s'', d', rest') := ApplyFinishThreshold_loop d rest in
        (s'', d', z :: rest')
  end.

Definition ApplyFinishThreshold (d : ZBD) : IOStatus * ZBD :=
  if finish_threshold_ d =? 0 then (OK, d)
  else
    let '(s, d', zs) := ApplyFinishThreshold_loop d (io_zones d) in
    (s, set_io_zones d' zs).

(** *** The deferred status latch *)
Definition GetZoneDeferredStatus (d : ZBD) : IOStatus :=
  zone_deferred_status_ d.

Definition SetZoneDeferredStatus (status : IOStatus) (d : ZBD) : ZBD :=
  if negb (ok (zone_deferred_status_ d)) then set_deferred d status else d.

End Device.

(** ** ResetUnusedIOZones and AllocateIOZone
    [IsLevelZone] is declared in zbd_zenfs.h, which is not among the
    sources; the two functions that call it take it as a parameter. *)

Section Allocator.
Context {B : Type} `{!ZonedBlockDeviceBackend B}.
Variable IsLevelZone : ZonedBlockDevice B -> nat -> bool.

Local Abbreviation ZBD := (ZonedBlockDevice B).

(** The body of the loop for the zone at index [i]: [Returned (Some s)]
    is a [return s] out of the loop, [Returned None] falls through to the
    next zone. *)
Definition ResetUnusedIOZones_visit (i : nat) (d : ZBD)
  : Outcome ZBD (option IOStatus) :=
  match io_zones d !! i with
  | None => Undefined
  | Some z =>
      let (acquired, z1) := Acquire z in
      if acquired then
        if negb (IsEmpty z1) && negb (IsUsed z1) then
          let full := IsFull z1 in
          let '(b', z2, reset_status) := Zone_Reset (zbd_be_ d) z1 in
          let (release_status, z3) := CheckRelease z2 in
          let d1 := store_io_zone (set_be d b') i z3 in
          if negb (ok reset_status) then Returned (Some reset_status) d1
          else if negb (ok release_status) then Returned (Some release_status) d1
          else if negb full then
            if IsLevelZone d1 i then
              match EmitLevelZone i d1 with
              | Returned _ d2 => Returned None d2
              | Blocked d2 => Blocked d2
              | Retrying d2 => Retrying d2
              | Exited d2 => Exited d2
              | Undefined => Undefined
              end
            else Returned None (PutActiveIOZoneToken d1)
          else Returned None d1
        else
          let (release_status, z2) := CheckRelease z1 in
          let d1 := store_io_zone d i z2 in
          if negb (ok release_status) then Returned (Some release_status) d1
          else Returned None d1
      else Returned None d
  end.

Fixpoint ResetUnusedIOZones_loop (idxs : list nat) (d : ZBD)
  : Outcome ZBD IOStatus :=
  match idxs with
  | [] => Returned OK d
  | i :: rest =>
      match ResetUnusedIOZones_visit i d with
      | Returned None d' => ResetUnusedIOZones_loop rest d'
      | Returned (Some s) d' => Returned s d'
      | Blocked d' => Blocked d'
      | Retrying d' => Retrying d'
      | Exited d' => Exited d'
      | Undefined => Undefined
      end
  end.

Definition ResetUnusedIOZones (d : ZBD) : Outcome ZBD IOStatus :=
  ResetUnusedIOZones_loop (seq 0 (length (io_zones d))) d.

(** The lifetime the allocator works with (lines 920-926). *)
Definition effective_lifetime (d : ZBD) (file_lifetime file_id : Z) : Z :=
  if file_lifetime <? WLTH_SHORT then
    if file_id =? 5 then lifetime_begin_ d else 8
  else file_lifetime.

(** The predicate of the allocator's wait; it reads only. *)
Definition AllocateIOZone_pred (level : nat) (limit : Z) (d : ZBD)
  : bool * ZBD :=
  match level_active_io_zones_ d !! level with
  | Some idle => ((0 <? idle) || (open_io_zones_ d <? limit), d)
  | None => (false, d)
  end.

(** The first zone of the bucket that is not handed out. The source walks
    the bucket in the order of its container; here that is the order of
    [elements], and no statement below depends on it. *)
Definition find_idle_zone (d : ZBD) (bucket : gset nat) : option nat :=
  List.find
    (fun i =>
       match io_zones d !! i with
       | Some z => negb (useinlevelzone_ z)
       | None => false
       end)
    (elements bucket).

(** From the wait on (lines 930-1065): [level] is a valid index and the
    mutex is held. *)
Definition AllocateIOZone_take (file_lifetime : Z) (level : nat) (d : ZBD)
  : Outcome ZBD (IOStatus * option nat) :=
  match level_active_io_zones_ d !! level, level_zones d !! level with
  | Some idle, Some bucket =>
      if 0 <? idle then
        let d1 :=
          set_level_active d (<[level := idle - 1]> (level_active_io_zones_ d)) in
        match find_idle_zone d1 bucket with
        | None => Undefined
        | Some a =>
            match io_zones d1 !! a with
            | None => Undefined
            | Some z =>
                Returned (OK, Some a)
                  (store_io_zone d1 a (set_useinlevelzone z true))
            end
        end
      else
        let d1 := set_open d (open_io_zones_ d + 1) in
        let d2 := set_active d1 (active_io_zones_ d1 + 1) in
        let '(s, allocated, d3) := AllocateEmptyZone d2 in
        if negb (ok s) then
          let d4 := set_active d3 (active_io_zones_ d3 - 1) in
          Returned (s, None) (set_open d4 (open_io_zones_ d4 - 1))
        else
          match allocated with
          | None => Retrying d3
          | Some a =>
              match io_zones d3 !! a, level_zones d3 !! level with
              | Some z, Some bucket3 =>
                  let d4 := store_io_zone d3 a (set_lifetime z file_lifetime) in
                  let d5 :=
                    set_level_zones d4
                      (<[level := {[a]} ∪ bucket3]> (level_zones d4)) in
                  match io_zones d5 !! a with
                  | Some z5 =>
                      Returned (OK, Some a)
                        (store_io_zone d5 a (set_useinlevelzone z5 true))
                  | None => Undefined
                  end
              | _, _ => Undefined
              end
          end
  | _, _ => Undefined
  end.

(** Lines 919-1065: the lifetime rewrite, the wait and the allocation.
    The caller is alone: nobody changes the device while it waits, so a
    false predicate leaves it [Blocked]. *)
Definition AllocateIOZone_level (file_lifetime file_id : Z) (d : ZBD)
  : Outcome ZBD (IOStatus * option nat) :=
  let limit := max_nr_open_io_zones_ d in
  let lifetime := effective_lifetime d file_lifetime file_id in
  match level_index d lifetime with
  | None => Undefined
  | Some level =>
      match level_active_io_zones_ d !! level with
      | None => Undefined
      | Some _ =>
          match cv_wait (AllocateIOZone_pred level limit) d [] with
          | Returned _ d1 => AllocateIOZone_take lifetime level d1
          | Blocked d1 => Blocked d1
          | Retrying d1 => Retrying d1
          | Exited d1 => Exited d1
          | Undefined => Undefined
          end
      end
  end.

(** Lines 910-1065: what follows the call of [ApplyFinishThreshold],
    given its result. *)
Definition AllocateIOZone_after_threshold (file_lifetime file_id : Z)
           (r : IOStatus * ZBD)
  : Outcome ZBD (IOStatus * option nat) :=
  let (s, d1) := r in
  if negb (ok s) then Returned (s, None) d1
  else
    match ResetUnusedIOZones d1 with
    | Returned s2 d2 =>
        if negb (ok s2) then Returned (s2, None) d2
        else AllocateIOZone_level file_lifetime file_id d2
    | Blocked d2 => Blocked d2
    | Retrying d2 => Retrying d2
    | Exited d2 => Exited d2
    | Undefined => Undefined
    end.

(** Lines 908-1065: what follows the deferred status check. *)
Definition AllocateIOZone_body (file_lifetime : Z) (io_type : IOType)
           (file_id : Z) (d : ZBD)
  : Outcome ZBD (IOStatus * option nat) :=
  if negb (is_kWAL io_type) then
    AllocateIOZone_after_threshold file_lifetime file_id
      (ApplyFinishThreshold d)
  else AllocateIOZone_level file_lifetime file_id d.

Definition AllocateIOZone (file_lifetime : Z) (io_type : IOType)
           (file_id : Z) (d : ZBD)
  : Outcome ZBD (IOStatus * option nat) :=
  let s := GetZoneDeferredStatus d in
  if negb (ok s) then Returned (s, None) d
  else AllocateIOZone_body file_lifetime io_type file_id d.

End Allocator.

(** ** Sequences of token operations *)

Inductive TokenOp : Type :=
  | OpAllocateIOZone (file_lifetime : Z) (io_type : IOType) (file_id : Z)
  | OpInitialLevelZones
  | OpEmitLevelZone (emit_zone : nat)
  | OpWaitForOpenIOZoneToken (prioritized : bool)
  | OpGetActiveIOZoneTokenIfAvailable
  | OpPutOpenIOZoneToken
  | OpPutActiveIOZoneToken.

Section Runs.
Context {B : Type} `{!ZonedBlockDeviceBackend B}.
Variable IsLevelZone : ZonedBlockDevice B -> nat -> bool.

Local Abbreviation ZBD := (ZonedBlockDevice B).

(** The device as a call leaves it, whether the call returned or not. *)
Definition device_after {A : Type} (o : Outcome ZBD A) : option ZBD :=
  match o with
  | Returned _ d | Blocked d | Retrying d | Exited d => Some d
  | Undefined => None
  end.

Definition run_op (op : TokenOp) (d : ZBD) : option ZBD :=
  match op with
  | OpAllocateIOZone fl io fid =>
      device_after (AllocateIOZone IsLevelZone fl io fid d)
  | OpInitialLevelZones => device_after (InitialLevelZones d)
  | OpEmitLevelZone z => device_after (EmitLevelZone z d)
  | OpWaitForOpenIOZoneToken p => device_after (WaitForOpenIOZoneToken p d [])
  | OpGetActiveIOZoneTokenIfAvailable =>
      Some (GetActiveIOZoneTokenIfAvailable d).2
  | OpPutOpenIOZoneToken => Some (PutOpenIOZoneToken d)
  | OpPutActiveIOZoneToken => Some (PutActiveIOZoneToken d)
  end.

Fixpoint run_ops (ops : list TokenOp) (d : ZBD) : option ZBD :=
  match ops with
  | [] => Some d
  | op :: rest =>
      match run_op op d with
      | Some d' => run_ops rest d'
      | None => None
      end
  end.

End Runs.

(** ** Properties the statements below are about *)

(** I5 of the specification. *)
Definition counters_within_caps {B : Type} (d : ZonedBlockDevice B) : Prop :=
  open_io_zones_ d <= max_nr_open_io_zones_ d /\
  active_io_zones_ d <= max_nr_active_io_zones_ d.

(** The bytes the device accepted: the sum of the returns that are not
    errors. *)
Fixpoint accepted (rets : list Z) : Z :=
  match rets with
  | [] => 0
  | r :: rest => (if r <? 0 then 0 else r) + accepted rest
  end.

(** [z'] is [z] but for the write pointer and the capacity. *)
Definition only_wp_capacity_differ (z z' : Zone) : Prop :=
  z' = set_capacity (set_wp z (wp_ z')) (capacity_ z').

(** No [Write] call reported more bytes than it was asked for ([left] bytes
    were outstanding at the first call). *)
Fixpoint short_writes (left : Z) (rets : list Z) : Prop :=
  match rets with
  | [] => True
  | r :: rest => r <= left /\ short_writes (left - r) rest
  end.

(** I1 of the specification. *)
Definition wp_in_bounds (z : Zone) : Prop :=
  start_ z <= wp_ z <= start_ z + max_capacity_ z.

(** The fields are [uint64_t] values, the written part and the rest fit in
    the zone (I2, as an inequality so that it also covers an offline zone)
    and the zone ends inside the address space. *)
Definition zone_wf (z : Zone) : Prop :=
  0 <= start_ z /\ start_ z <= wp_ z /\ 0 <= capacity_ z /\
  (wp_ z - start_ z) + capacity_ z <= max_capacity_ z /\
  start_ z + max_capacity_ z < 2 ^ 64.

(** A zone nobody holds and nothing was written to, and the first such zone
    of a registry: what [AllocateEmptyZone] looks for. *)
Definition free_empty (z : Zone) : bool := negb (busy_ z) && IsEmpty z.

Definition first_free_empty (zs : list Zone) : option (nat * Zone) :=
  list_find (fun z => free_empty z = true) zs.

(** [z'] is [z] finished: no capacity left, the write pointer moved. *)
Definition finished (z z' : Zone) : Prop :=
  capacity_ z' = 0 /\ only_wp_capacity_differ z z'.


(** The zones [ApplyFinishThreshold] finishes. *)
Definition finish_eligible {B : Type} `{!ZonedBlockDeviceBackend B}
           (d : ZonedBlockDevice B) (z : Zone) : bool :=
  negb (busy_ z) && negb (IsEmpty z || IsFull z) && within_finish_threshold d z.


(** Every meta zone is busy, used, or non-empty with a reset that fails (the
    backend is the one left by the earlier failed resets). *)
Fixpoint no_meta_zone_usable {B : Type} `{!ZonedBlockDeviceBackend B}
         (b : B) (zs : list Zone) : bool :=
  match zs with
  | [] => true
  | z :: rest =>
      if busy_ z || IsUsed z then no_meta_zone_usable b rest
      else if IsEmpty z then false
      else
        let '(b', (ios, _, _)) := be_Reset b (start_ z) in
        negb (ok ios) && no_meta_zone_usable b' rest
  end.

Definition all_buckets_nonempty {B : Type} (d : ZonedBlockDevice B) : Prop :=
  forall (lvl : nat) (bucket : gset nat),
    level_zones d !! lvl = Some bucket -> bucket <> ∅.

(** Every zone indexed in bucket [lvl] is held (busy) and carries the
    lifetime class of the bucket. *)
Definition buckets_bound {B : Type} (d : ZonedBlockDevice B) : Prop :=
  forall (lvl : nat) (bucket : gset nat) (i : nat),
    level_zones d !! lvl = Some bucket -> i ∈ bucket ->
    exists z, io_zones d !! i = Some z /\ busy_ z = true /\
              lifetime_ z = Z.of_nat lvl + lifetime_begin_ d.

(** What the maintenance passes keep: the lifetime classes and, if it
    held, the binding of bucket members to their class. *)
Definition kept {B : Type} (d d' : ZonedBlockDevice B) : Prop :=
  lifetime_begin_ d' = lifetime_begin_ d /\
  diff_level_num_ d' = diff_level_num_ d /\
  (buckets_bound d -> buckets_bound d').

(** ** A scripted backend and small devices, for the examples *)

(** The device answers from three scripts; past the end of a script every
    call succeeds in full. An entry of the write script is [None] for a
    failed write (return -1) or [Some p] for a device that takes at most [p]
    bytes in that call. *)
Record ScriptedBackend : Type := mkScripted {
  sb_zone_size : Z;
  sb_block_size : Z;
  sb_writes : list (option positive);
  sb_resets : list (IOStatus * bool * Z);
  sb_finishes : list IOStatus;
}.

Definition scripted_Reset (b : ScriptedBackend) (start : Z)
  : ScriptedBackend * (IOStatus * bool * Z) :=
  match sb_resets b with
  | [] => (b, (OK, false, sb_zone_size b))
  | r :: rest =>
      (mkScripted (sb_zone_size b) (sb_block_size b) (sb_writes b) rest
                  (sb_finishes b), r)
  end.

Definition scripted_Finish (b : ScriptedBackend) (start : Z)
  : ScriptedBackend * IOStatus :=
  match sb_finishes b with
  | [] => (b, OK)
  | r :: rest =>
      (mkScripted (sb_zone_size b) (sb_block_size b) (sb_writes b)
                  (sb_resets b) rest, r)
  end.

Definition scripted_Write (b : ScriptedBackend) (size pos : Z)
  : ScriptedBackend * Z :=
  match sb_writes b with
  | [] => (b, size)
  | r :: rest =>
      (mkScripted (sb_zone_size b) (sb_block_size b) rest (sb_resets b)
                  (sb_finishes b),
       match r with
       | None => -1
       | Some p => Z.min (Z.pos p) size
       end)
  end.

Global Instance ScriptedBackend_backend : ZonedBlockDeviceBackend ScriptedBackend :=
  {| be_Reset := scripted_Reset;
     be_Finish := scripted_Finish;
     be_Write := scripted_Write;
     be_GetZoneSize := sb_zone_size;
     be_GetBlockSize := sb_block_size |}.

(** Modelled from the spec: [IsLevelZone] is declared in zbd_zenfs.h, which
    is not among the sources. "if it was also in a lifetime bucket". *)
Definition IsLevelZone_bucket {B : Type} (d : ZonedBlockDevice B) (i : nat) : bool :=
  existsb (fun bucket : gset nat => bool_decide (i ∈ bucket)) (level_zones d).

(** A backend with zones of 4096 bytes and blocks of 512 bytes that accepts
    everything. *)
Definition plain_backend : ScriptedBackend := mkScripted 4096 512 [] [] [].

(** An idle zone with [written] bytes behind the write pointer. *)
Definition zone_at (start written : Z) : Zone :=
  mkZone false start 4096 (start + written) WLTH_NOT_SET 0 (4096 - written) false.

(** Ten empty I/O zones after three meta zones, six lifetime classes
    3 .. 8, and caps of [cap] open and [cap] active I/O zones, as [Open]
    leaves the manager. *)
Definition fresh_device (cap : Z) : ZonedBlockDevice ScriptedBackend :=
  mkZBD plain_backend
    (map (fun k => zone_at (4096 * Z.of_nat k) 0) (seq 3 10))
    (map (fun k => zone_at (4096 * Z.of_nat k) 0) (seq 0 3))
    (replicate 6 ∅) (replicate 6 0)
    0 0 cap cap 0 3 6 OK.

(** A device that takes 512 bytes in its first write. *)
Definition short_write_backend : ScriptedBackend :=
  mkScripted 4096 512 [Some 512%positive] [] [].

(** A device whose second write fails. *)
Definition failing_write_backend : ScriptedBackend :=
  mkScripted 4096 512 [Some 512%positive; None] [] [].

(** A device whose zones span 8192 bytes of address space, of which 4096
    are writable (zone capacity below zone size). *)
Definition zns_backend : ScriptedBackend := mkScripted 8192 512 [] [] [].

(** A zone held by its caller. *)
Definition held (z : Zone) : Zone := set_busy z true.

(** [fresh_device 8] once [InitialLevelZones] has seeded the six buckets. *)
Definition seeded_device : ZonedBlockDevice ScriptedBackend :=
  match InitialLevelZones (fresh_device 8) with
  | Returned _ d => d
  | _ => fresh_device 8
  end.

(** The seeded device with a finish threshold of 20 percent; its seventh
    zone is idle, written to 87.5 percent (512 bytes left) and holds live
    data, so it counts as a seventh active zone. *)
Definition threshold_device : ZonedBlockDevice ScriptedBackend :=
  mkZBD plain_backend
    (<[6%nat := mkZone false 36864 4096 (36864 + 3584) WLTH_MEDIUM 2048 512 false]>
       (io_zones seeded_device))
    (meta_zones seeded_device) (level_zones seeded_device)
    (level_active_io_zones_ seeded_device)
    7 6 8 8 20 3 6 OK.

(** [fresh_device 8] after three calls of [AllocateMetaZone]: each of the
    three meta zones is held by a caller and none holds data yet. *)
Definition meta_held_device : ZonedBlockDevice ScriptedBackend :=
  let d1 := (AllocateMetaZone (fresh_device 8)).2 in
  let d2 := (AllocateMetaZone d1).2 in
  (AllocateMetaZone d2).2.

(** ** The rest of the file
    The functions the allocator proper does not call: the scoring and the
    scans of the open zones ([GetLifeTimeDiff], [GetBestOpenZoneMatch],
    [FinishCheapestIOZone]), the lookups and the statistics ([GetIOZone],
    [GetFreeSpace], [GetUsedSpace], [GetReclaimableSpace]), the zones of
    the garbage collector ([AllocateEmptyZoneForGC], [TakeMigrateZone],
    [ReleaseMigrateZone]), [Read], and the start-up ([Zone::Zone],
    [Zone::Close], [Open]). *)

(** *** GetLifeTimeDiff
    The result is an [unsigned int]. *)

Definition LIFETIME_DIFF_NOT_GOOD : Z := 100.

Definition GetLifeTimeDiff (zone_lifetime file_lifetime : Z) : Z :=
  if (file_lifetime =? WLTH_NOT_SET) || (file_lifetime =? WLTH_NONE) then
    if file_lifetime =? zone_lifetime then 0 else LIFETIME_DIFF_NOT_GOOD
  else if file_lifetime <? zone_lifetime then u32 (zone_lifetime - file_lifetime)
  else if zone_lifetime =? file_lifetime then 0
  else LIFETIME_DIFF_NOT_GOOD.

Section Scans.
Context {B : Type} `{!ZonedBlockDeviceBackend B}.

Local Abbreviation ZBD := (ZonedBlockDevice B).

(** *** GetIOZone *)

Fixpoint GetIOZone_scan (zone_size offset : Z) (zs : list Zone) (idx : nat)
  : option nat :=
  match zs with
  | [] => None
  | z :: rest =>
      if (start_ z <=? offset) && (offset <? u64 (start_ z + zone_size))
      then Some idx
      else GetIOZone_scan zone_size offset rest (S idx)
  end.

Definition GetIOZone (offset : Z) (d : ZBD) : option nat :=
  GetIOZone_scan (be_GetZoneSize (zbd_be_ d)) offset (io_zones d) 0.

(** *** The space statistics
    Each sum is accumulated in a [uint64_t]. *)

Definition GetFreeSpace (d : ZBD) : Z :=
  fold_left (fun free z => u64 (free + capacity_ z)) (io_zones d) 0.

Definition GetUsedSpace (d : ZBD) : Z :=
  fold_left (fun used z => u64 (used + used_capacity_ z)) (io_zones d) 0.

Definition GetReclaimableSpace (d : ZBD) : Z :=
  fold_left
    (fun reclaimable z =>
       if IsFull z
       then u64 (reclaimable + u64 (max_capacity_ z - used_capacity_ z))
       else reclaimable)
    (io_zones d) 0.

(** *** FinishCheapestIOZone
    The loop keeps the victim acquired while it looks at the zones after
    it, so it works on two zones of the vector at once: [done] holds the
    zones already visited, [todo] the zones to come, and [finish_victim]
    points into [done]. The zone at hand has index [length done]. [None]
    stands for a [finish_victim] that points nowhere. *)
Fixpoint FinishCheapestIOZone_scan (todo done : list Zone)
         (finish_victim : option nat)
  : option (IOStatus * list Zone * option nat) :=
  match todo with
  | [] => Some (OK, done, finish_victim)
  | z :: rest =>
      let (acquired, z1) := Acquire z in
      if acquired then
        if IsEmpty z1 || IsFull z1 then
          let (s, z2) := CheckRelease z1 in
          if negb (ok s) then Some (s, done ++ z2 :: rest, finish_victim)
          else FinishCheapestIOZone_scan rest (done ++ [z2]) finish_victim
        else
          match finish_victim with
          | None =>
              FinishCheapestIOZone_scan rest (done ++ [z1])
                (Some (length done))
          | Some v =>
              match done !! v with
              | None => None
              | Some zv =>
                  if capacity_ z1 <? capacity_ zv then
                    let (s, zv') := CheckRelease zv in
                    if negb (ok s)
                    then Some (s, <[v := zv']> done ++ z1 :: rest, finish_victim)
                    else
                      FinishCheapestIOZone_scan rest
                        (<[v := zv']> done ++ [z1]) (Some (length done))
                  else
                    let (s, z2) := CheckRelease z1 in
                    if negb (ok s)
                    then Some (s, done ++ z2 :: rest, finish_victim)
                    else
                      FinishCheapestIOZone_scan rest (done ++ [z2])
                        finish_victim
              end
          end
      else FinishCheapestIOZone_scan rest (done ++ [z]) finish_victim
  end.

Definition FinishCheapestIOZone (d : ZBD) : Outcome ZBD IOStatus :=
  match FinishCheapestIOZone_scan (io_zones d) [] None with
  | None => Undefined
  | Some (s, zs, finish_victim) =>
      let d1 := set_io_zones d zs in
      if negb (ok s) then Returned s d1
      else
        match finish_victim with
        | None => Returned OK d1
        | Some v =>
            match io_zones d1 !! v with
            | None => Undefined
            | Some zv =>
                let '(b', z1, s) := Zone_Finish (zbd_be_ d1) zv in
                let (release_status, z2) := CheckRelease z1 in
                let d2 := store_io_zone (set_be d1 b') v z2 in
                if ok s then
                  let d3 := PutActiveIOZoneToken d2 in
                  if negb (ok release_status) then Returned release_status d3
                  else Returned s d3
                else Exited d2
            end
        end
  end.

(** *** GetBestOpenZoneMatch
    As in [FinishCheapestIOZone_scan], with [allocated_zone] the zone kept
    acquired. The two outputs are written only on the way to the final
    [return]: the result carries them then, and [None] otherwise. *)
Fixpoint GetBestOpenZoneMatch_scan (file_lifetime min_capacity : Z)
         (todo done : list Zone) (best_diff : Z) (allocated_zone : option nat)
  : option (IOStatus * list Zone * Z * option nat) :=
  match todo with
  | [] => Some (OK, done, best_diff, allocated_zone)
  | z :: rest =>
      let (acquired, z1) := Acquire z in
      if acquired then
        if (0 <? used_capacity_ z1) && negb (IsFull z1)
           && (min_capacity <=? capacity_ z1) then
          let diff := GetLifeTimeDiff (lifetime_ z1) file_lifetime in
          if diff <=? best_diff then
            match allocated_zone with
            | Some a =>
                match done !! a with
                | None => None
                | Some za =>
                    let (s, za') := CheckRelease za in
                    if negb (ok s) then
                      let (s_, z2) := CheckRelease z1 in
                      Some (if negb (ok s_) then s_ else s,
                            <[a := za']> done ++ z2 :: rest,
                            best_diff, allocated_zone)
                    else
                      GetBestOpenZoneMatch_scan file_lifetime min_capacity
                        rest (<[a := za']> done ++ [z1]) diff
                        (Some (length done))
                end
            | None =>
                GetBestOpenZoneMatch_scan file_lifetime min_capacity
                  rest (done ++ [z1]) diff (Some (length done))
            end
          else
            let (s, z2) := CheckRelease z1 in
            if negb (ok s)
            then Some (s, done ++ z2 :: rest, best_diff, allocated_zone)
            else
              GetBestOpenZoneMatch_scan file_lifetime min_capacity
                rest (done ++ [z2]) best_diff allocated_zone
        else
          let (s, z2) := CheckRelease z1 in
          if negb (ok s)
          then Some (s, done ++ z2 :: rest, best_diff, allocated_zone)
          else
            GetBestOpenZoneMatch_scan file_lifetime min_capacity
              rest (done ++ [z2]) best_diff allocated_zone
      else
        GetBestOpenZoneMatch_scan file_lifetime min_capacity
          rest (done ++ [z]) best_diff allocated_zone
  end.

Definition GetBestOpenZoneMatch (file_lifetime min_capacity : Z) (d : ZBD)
  : Outcome ZBD (IOStatus * option (Z * option nat)) :=
  match GetBestOpenZoneMatch_scan file_lifetime min_capacity
          (io_zones d) [] LIFETIME_DIFF_NOT_GOOD None with
  | None => Undefined
  | Some (s, zs, best_diff, allocated_zone) =>
      if negb (ok s) then Returned (s, None) (set_io_zones d zs)
      else Returned (OK, Some (best_diff, allocated_zone)) (set_io_zones d zs)
  end.

End Scans.

(** *** The zones of the garbage collector
    Modelled from the spec: [GetGCZone], [SetGCZone], [GetGCAuxZone] and
    [SetGCAuxZone] are defined in zbd_zenfs.h, which is not among the
    sources. "stores it in the GC or aux slot": each pair reads and writes
    one [Zone *] of the manager, here [gc_zone] and [gc_aux_zone]. *)

Record GCZones (B : Type) : Type := mkGC {
  gc_zbd : ZonedBlockDevice B;
  gc_zone : option nat;
  gc_aux_zone : option nat;
}.

Arguments mkGC {B}.
Arguments gc_zbd {B}.
Arguments gc_zone {B}.
Arguments gc_aux_zone {B}.

Section Migration.
Context {B : Type} `{!ZonedBlockDeviceBackend B}.

Local Abbreviation ZBD := (ZonedBlockDevice B).

Definition GetGCZone (g : GCZones B) : option nat := gc_zone g.
Definition GetGCAuxZone (g : GCZones B) : option nat := gc_aux_zone g.
Definition SetGCZone (g : GCZones B) (z : option nat) : GCZones B :=
  mkGC (gc_zbd g) z (gc_aux_zone g).
Definition SetGCAuxZone (g : GCZones B) (z : option nat) : GCZones B :=
  mkGC (gc_zbd g) (gc_zone g) z.
Definition set_gc_zbd (g : GCZones B) (d : ZBD) : GCZones B :=
  mkGC d (gc_zone g) (gc_aux_zone g).

(** The two token calls at the head of [AllocateEmptyZoneForGC]. The
    second is a loop that polls [GetActiveIOZoneTokenIfAvailable]: a
    caller that is alone and finds no token keeps polling, which is
    [Retrying]. *)
Definition AllocateEmptyZoneForGC_tokens (is_aux : bool) (d : ZBD)
           (wakeups : list (ZBD -> ZBD)) : Outcome ZBD unit :=
  if negb is_aux then
    match WaitForOpenIOZoneToken false d wakeups with
    | Returned _ d1 =>
        let (get_token, d2) := GetActiveIOZoneTokenIfAvailable d1 in
        if get_token then Returned tt d2 else Retrying d2
    | other => other
    end
  else Returned tt d.

Definition AllocateEmptyZoneForGC (is_aux : bool) (g : GCZones B)
           (wakeups : list (ZBD -> ZBD)) : Outcome (GCZones B) IOStatus :=
  match AllocateEmptyZoneForGC_tokens is_aux (gc_zbd g) wakeups with
  | Returned _ d2 =>
      let '(s, allocated, d3) := AllocateEmptyZone d2 in
      if negb is_aux && negb (ok s) then
        Returned s (set_gc_zbd g (PutActiveIOZoneToken (PutOpenIOZoneToken d3)))
      else
        match allocated with
        | None => Undefined
        | Some a =>
            match io_zones d3 !! a with
            | None => Undefined
            | Some z =>
                let d4 := store_io_zone d3 a (set_lifetime z (3 + 2)) in
                let g4 := set_gc_zbd g d4 in
                Returned s
                  (if negb is_aux then SetGCZone g4 (Some a)
                   else SetGCAuxZone g4 (Some a))
            end
        end
  | Blocked d1 => Blocked (set_gc_zbd g d1)
  | Retrying d1 => Retrying (set_gc_zbd g d1)
  | Exited d1 => Exited (set_gc_zbd g d1)
  | Undefined => Undefined
  end.

(** [ReleaseMigrateZone]. *)
Definition ReleaseMigrateZone (zone : option nat) (g : GCZones B)
  : Outcome (GCZones B) IOStatus :=
  match zone with
  | Some i =>
      if bool_decide (Some i <> GetGCZone g) then
        match io_zones (gc_zbd g) !! i with
        | None => Undefined
        | Some z =>
            let (s, z') := CheckRelease z in
            Returned s (set_gc_zbd g (store_io_zone (gc_zbd g) i z'))
        end
      else Returned OK g
  | None => Returned OK g
  end.

(** [TakeMigrateZone]. [out_zone] is the caller's [Zone *] the function
    writes through its first parameter; the result carries its value at the
    return. The lifetime hint is not used. *)
Definition TakeMigrateZone (out_zone : option nat) (min_capacity : Z)
           (g : GCZones B) : Outcome (GCZones B) (IOStatus * option nat) :=
  match GetGCZone g with
  | None => Undefined
  | Some gz =>
      match io_zones (gc_zbd g) !! gz with
      | None => Undefined
      | Some gczone =>
          if GetCapacityLeft gczone <? min_capacity then
            let '(b', z1, s) := Zone_Finish (zbd_be_ (gc_zbd g)) gczone in
            let g1 :=
              set_gc_zbd g (store_io_zone (set_be (gc_zbd g) b') gz z1) in
            if negb (ok s) then Returned (s, out_zone) g1
            else
              let (s', z2) := CheckRelease z1 in
              let g2 :=
                set_gc_zbd g1 (store_io_zone (gc_zbd g1) gz z2) in
              if negb (ok s') then Returned (s', out_zone) g2
              else
                let g3 := SetGCZone g2 (GetGCAuxZone g2) in
                let g4 := SetGCAuxZone g3 None in
                Returned (s', GetGCZone g4) g4
          else Returned (OK, GetGCZone g) g
      end
  end.

End Migration.

(** ** The backend calls of the start-up and of [Read]
    A [ZoneList] is the list of the zone descriptors the device reported;
    [ZoneStart], [ZoneIsSwr] and the like read one descriptor.
    [be_Open] returns its status and the two limits it stores through its
    pointer arguments; [be_ListZones] returns no list for a null pointer;
    [be_Read] takes the byte count, the offset and the [direct] flag and
    returns the [int] of the source together with whether it left
    [errno == EINTR]. *)

Record ZoneDescriptor : Type := mkZoneDescriptor {
  ZoneStart : Z;
  ZoneMaxCapacity : Z;
  ZoneWp : Z;
  ZoneIsSwr : bool;
  ZoneIsOffline : bool;
  ZoneIsWritable : bool;
  ZoneIsActive : bool;
  ZoneIsOpen : bool;
}.

Class ZonedBlockDeviceBackendIO (B : Type) : Type := {
  be_Open : B -> bool -> bool -> B * (IOStatus * Z * Z);
  be_GetNrZones : B -> Z;
  be_ListZones : B -> B * option (list ZoneDescriptor);
  be_Close : B -> Z -> B * IOStatus;
  be_Read : B -> Z -> Z -> bool -> B * (Z * bool);
}.

Definition ZENFS_META_ZONES : nat := 3.
Definition ZENFS_MIN_ZONES : Z := 32.

Section StartUp.
Context {B : Type} `{!ZonedBlockDeviceBackendIO B}.

(** The initial value of [useinlevelzone_] is given with the member in
    zbd_zenfs.h, which is not among the sources; the constructor does not
    set it. *)
Variable useinlevelzone_init : bool.

Local Abbreviation ZBD := (ZonedBlockDevice B).

Definition set_max_active (d : ZBD) (v : Z) : ZBD :=
  mkZBD (zbd_be_ d) (io_zones d) (meta_zones d) (level_zones d)
    (level_active_io_zones_ d) (active_io_zones_ d) (open_io_zones_ d)
    v (max_nr_open_io_zones_ d)
    (finish_threshold_ d) (lifetime_begin_ d) (diff_level_num_ d)
    (zone_deferred_status_ d).
Definition set_max_open (d : ZBD) (v : Z) : ZBD :=
  mkZBD (zbd_be_ d) (io_zones d) (meta_zones d) (level_zones d)
    (level_active_io_zones_ d) (active_io_zones_ d) (open_io_zones_ d)
    (max_nr_active_io_zones_ d) v
    (finish_threshold_ d) (lifetime_begin_ d) (diff_level_num_ d)
    (zone_deferred_status_ d).

(** [Zone::Zone]. *)
Definition Zone_new (zd : ZoneDescriptor) : Zone :=
  let start := ZoneStart zd in
  let max_capacity := ZoneMaxCapacity zd in
  let wp := ZoneWp zd in
  mkZone false start max_capacity wp WLTH_NOT_SET 0
    (if ZoneIsWritable zd then u64 (max_capacity - u64 (wp - start)) else 0)
    useinlevelzone_init.

(** [Zone::Close]; it changes no field of the zone. *)
Definition Zone_Close (b : B) (z : Zone) : B * IOStatus :=
  if negb (IsEmpty z || IsFull z) then
    let (b', ios) := be_Close b (start_ z) in
    if negb (ok ios) then (b', ios) else (b', OK)
  else (b, OK).

(** The first loop of [Open]: [left] is [ZENFS_META_ZONES - m] and
    [zone_rep] the descriptors from index [i] on; the result carries the
    descriptors the second loop starts from. *)
Fixpoint Open_meta_zones (zone_rep : list ZoneDescriptor) (left : nat)
         (metas : list Zone) : list Zone * list ZoneDescriptor :=
  match zone_rep with
  | [] => (metas, [])
  | zd :: rest =>
      match left with
      | O => (metas, zone_rep)
      | S left' =>
          if ZoneIsSwr zd then
            Open_meta_zones rest left'
              (if negb (ZoneIsOffline zd) then metas ++ [Zone_new zd]
               else metas)
          else Open_meta_zones rest left metas
      end
  end.

(** The second loop of [Open]; the result of [newZone->Close()] is
    dropped. *)
Fixpoint Open_io_zones (readonly : bool) (zone_rep : list ZoneDescriptor)
         (b : B) (zs : list Zone) (active : Z) : IOStatus * B * list Zone * Z :=
  match zone_rep with
  | [] => (OK, b, zs, active)
  | zd :: rest =>
      if ZoneIsSwr zd && negb (ZoneIsOffline zd) then
        let (acquired, z1) := Acquire (Zone_new zd) in
        if negb acquired then (Corruption, b, zs, active)
        else
          let active1 := if ZoneIsActive zd then active + 1 else active in
          let b1 :=
            if ZoneIsActive zd && ZoneIsOpen zd && negb readonly
            then (Zone_Close b z1).1 else b in
          let (status, z2) := CheckRelease z1 in
          if negb (ok status) then (status, b1, zs ++ [z2], active1)
          else Open_io_zones readonly rest b1 (zs ++ [z2]) active1
      else Open_io_zones readonly rest b zs active
  end.

(** The limit the manager keeps out of one the device reported:
    [max_nr_active_zones - reserved_zones] is computed in [unsigned int]. *)
Definition reserved_zones : Z := 2.

Definition io_zone_limit (nr_zones reported : Z) : Z :=
  if reported =? 0 then nr_zones else u32 (reported - reserved_zones).

Definition Open (readonly exclusive : bool) (d : ZBD) : IOStatus * ZBD :=
  if negb readonly && negb exclusive then (InvalidArgument, d)
  else
    let '(b1, (ios, max_nr_active_zones, max_nr_open_zones)) :=
      be_Open (zbd_be_ d) readonly exclusive in
    let d1 := set_be d b1 in
    if negb (ok ios) then (ios, d1)
    else if be_GetNrZones b1 <? ZENFS_MIN_ZONES then (NotSupported, d1)
    else
      let d2 :=
        set_max_active d1 (io_zone_limit (be_GetNrZones b1) max_nr_active_zones) in
      let d3 :=
        set_max_open d2 (io_zone_limit (be_GetNrZones b1) max_nr_open_zones) in
      let (b2, zone_rep) := be_ListZones b1 in
      let d4 := set_be d3 b2 in
      match zone_rep with
      | None => (IOError, d4)
      | Some zones =>
          if negb (Z.of_nat (length zones) =? be_GetNrZones b2)
          then (IOError, d4)
          else
            let (metas, rest) :=
              Open_meta_zones zones ZENFS_META_ZONES (meta_zones d4) in
            let d5 := set_open (set_active (set_meta_zones d4 metas) 0) 0 in
            let '(s, b3, zs, active) :=
              Open_io_zones readonly rest b2 (io_zones d5) 0 in
            (s, set_io_zones (set_active (set_be d5 b3) active) zs)
      end.

(** [ZonedBlockDevice::Read]. [fuel] bounds the number of backend [Read]
    calls; [None] means the bound was reached with bytes still to read. The
    last component lists what each backend call returned, in order. [ret],
    [left] and [r] are [int]s; they stay in range as long as no call
    returns more than it was asked for. *)
Fixpoint Read_loop (fuel : nat) (direct : bool) (b : B)
         (offset left ret r : Z) : option (B * Z * Z * list (Z * bool)) :=
  if left =? 0 then Some (b, ret, r, [])
  else
    match fuel with
    | O => None
    | S fuel' =>
        let '(b', (r', eintr)) := be_Read b left offset direct in
        let rest :=
          if r' <=? 0 then
            if (r' =? -1) && (eintr : bool)
            then Read_loop fuel' direct b' offset left ret r'
            else Some (b', ret, r', [])
          else
            Read_loop fuel' direct b' (u64 (offset + r')) (left - r')
                      (ret + r') r' in
        match rest with
        | Some (b'', ret', r'', rets) => Some (b'', ret', r'', (r', eintr) :: rets)
        | None => None
        end
    end.

Definition Read (fuel : nat) (d : ZBD) (offset n : Z) (direct : bool)
  : option (ZBD * Z * list (Z * bool)) :=
  match Read_loop fuel direct (zbd_be_ d) offset n 0 (-1) with
  | Some (b', ret, r, rets) =>
      Some (set_be d b', if r <? 0 then r else ret, rets)
  | None => None
  end.

End StartUp.

(** ** Properties the further statements are about *)

(** [offset] lies in the address range of [z], as [GetIOZone] tests it. *)
Definition zone_contains (zone_size : Z) (z : Zone) (offset : Z) : Prop :=
  start_ z <= offset < u64 (start_ z + zone_size).

(** No two zones of the registry share an address. *)
Definition zones_disjoint (zone_size : Z) (zs : list Zone) : Prop :=
  forall (i j : nat) (zi zj : Zone) (offset : Z),
    zs !! i = Some zi -> zs !! j = Some zj ->
    zone_contains zone_size zi offset -> zone_contains zone_size zj offset ->
    i = j.

(** A zone [FinishCheapestIOZone] may finish: nobody holds it and it is
    neither empty nor full. *)
Definition finish_candidate (z : Zone) : bool :=
  negb (busy_ z) && negb (IsEmpty z || IsFull z).

(** Zone [v] is the first of the candidates with the least capacity
    left. *)
Definition cheapest (zs : list Zone) (v : nat) (zv : Zone) : Prop :=
  zs !! v = Some zv /\ finish_candidate zv = true /\
  forall (j : nat) (zj : Zone),
    zs !! j = Some zj -> finish_candidate zj = true ->
    capacity_ zv <= capacity_ zj /\
    ((j < v)%nat -> capacity_ zv < capacity_ zj).

(** What [FinishCheapestIOZone_scan] has after the zones [orig]: the
    victim among them, held, and every other zone as it was. *)
Definition victim_so_far (orig done : list Zone) (victim : option nat) : Prop :=
  match victim with
  | None =>
      done = orig /\
      forall (j : nat) (zj : Zone),
        orig !! j = Some zj -> finish_candidate zj = false
  | Some v =>
      exists zv, cheapest orig v zv /\ done = <[v := set_busy zv true]> orig
  end.

(** A zone [GetBestOpenZoneMatch] may return: nobody holds it, it holds
    live data, it is not full, it has the capacity asked for and its score
    is no worse than [LIFETIME_DIFF_NOT_GOOD]. *)
Definition match_candidate (file_lifetime min_capacity : Z) (z : Zone) : bool :=
  negb (busy_ z) && (0 <? used_capacity_ z) && negb (IsFull z)
  && (min_capacity <=? capacity_ z)
  && (GetLifeTimeDiff (lifetime_ z) file_lifetime <=? LIFETIME_DIFF_NOT_GOOD).

(** Zone [a] is the last of the candidates with the least score. *)
Definition best_match (file_lifetime min_capacity : Z) (zs : list Zone)
           (a : nat) (za : Zone) : Prop :=
  zs !! a = Some za /\ match_candidate file_lifetime min_capacity za = true /\
  forall (j : nat) (zj : Zone),
    zs !! j = Some zj -> match_candidate file_lifetime min_capacity zj = true ->
    GetLifeTimeDiff (lifetime_ za) file_lifetime
      <= GetLifeTimeDiff (lifetime_ zj) file_lifetime /\
    ((a < j)%nat ->
       GetLifeTimeDiff (lifetime_ za) file_lifetime
         < GetLifeTimeDiff (lifetime_ zj) file_lifetime).

Definition match_so_far (file_lifetime min_capacity : Z)
           (orig done : list Zone) (best_diff : Z) (allocated : option nat)
  : Prop :=
  match allocated with
  | None =>
      done = orig /\ best_diff = LIFETIME_DIFF_NOT_GOOD /\
      forall (j : nat) (zj : Zone),
        orig !! j = Some zj ->
        match_candidate file_lifetime min_capacity zj = false
  | Some a =>
      exists za,
        best_match file_lifetime min_capacity orig a za /\
        best_diff = GetLifeTimeDiff (lifetime_ za) file_lifetime /\
        done = <[a := set_busy za true]> orig
  end.

(** The bytes [Read] counted: the sum of the positive returns. *)
Fixpoint bytes_read (rets : list (Z * bool)) : Z :=
  match rets with
  | [] => 0
  | (r, _) :: rest => (if 0 <? r then r else 0) + bytes_read rest
  end.

(** A backend call that [Read] answers with another call: it returned a
    positive count, or -1 with [errno == EINTR]. *)
Definition read_goes_on (re : Z * bool) : Prop :=
  0 < re.1 \/ re = (-1, true).

(** No backend [Read] returned more bytes than it was asked for. *)
Fixpoint short_reads (left : Z) (rets : list (Z * bool)) : Prop :=
  match rets with
  | [] => True
  | (r, _) :: rest =>
      r <= left /\ short_reads (if 0 <? r then left - r else left) rest
  end.

(** ** Further devices for the examples *)

(** [fresh_device 8] with I/O zone 0 in the GC slot, held and with 512
    bytes left, and I/O zone 1 staged as the auxiliary zone; one open and
    one active token are charged for the GC zone. *)
Definition gc_device : GCZones ScriptedBackend :=
  mkGC
    (set_active
       (set_open
          (set_io_zones (fresh_device 8)
             (<[0%nat := mkZone true 12288 4096 (12288 + 3584) (3 + 2) 0 512 false]>
                (<[1%nat := set_lifetime (held (zone_at 16384 0)) (3 + 2)]>
                   (io_zones (fresh_device 8)))))
          1)
       1)
    (Some 0%nat) (Some 1%nat).

(** A device described by what it reports at the start-up and by a script
    of the returns of its [Read] calls ([(r, true)] stands for a return with
    [errno == EINTR]); past the end of the script a read returns 0. It
    remembers the zones it was asked to close. *)
Record ListedBackend : Type := mkListed {
  lb_open_status : IOStatus;
  lb_max_active : Z;
  lb_max_open : Z;
  lb_zones : option (list ZoneDescriptor);
  lb_nr_zones : Z;
  lb_closed : list Z;
  lb_reads : list (Z * bool);
}.

Definition listed_Close (b : ListedBackend) (start : Z)
  : ListedBackend * IOStatus :=
  (mkListed (lb_open_status b) (lb_max_active b) (lb_max_open b) (lb_zones b)
            (lb_nr_zones b) (start :: lb_closed b) (lb_reads b), OK).

Definition listed_Read (b : ListedBackend) (size offset : Z) (direct : bool)
  : ListedBackend * (Z * bool) :=
  match lb_reads b with
  | [] => (b, (0, false))
  | (r, eintr) :: rest =>
      (mkListed (lb_open_status b) (lb_max_active b) (lb_max_open b)
                (lb_zones b) (lb_nr_zones b) (lb_closed b) rest,
       (Z.min r size, eintr))
  end.

Global Instance ListedBackend_backend : ZonedBlockDeviceBackendIO ListedBackend :=
  {| be_Open := fun b _ _ =>
       (b, (lb_open_status b, lb_max_active b, lb_max_open b));
     be_GetNrZones := lb_nr_zones;
     be_ListZones := fun b => (b, lb_zones b);
     be_Close := listed_Close;
     be_Read := listed_Read |}.

(** A manager as the constructor leaves it, over a listed backend. *)
Definition unopened (b : ListedBackend) : ZonedBlockDevice ListedBackend :=
  mkZBD b [] [] (replicate 6 ∅) (replicate 6 0) 0 0 0 0 0 3 6 OK.

(** A device that is interrupted once, then delivers 512 and 1024 bytes,
    then fails. *)
Definition reading_backend : ListedBackend :=
  mkListed OK 0 0 None 0 [] [(-1, true); (512, false); (1024, false); (-5, false)].

(** A device of 40 zones of 4096 bytes that allows 14 active and 14 open
    zones: zone 0 is conventional, zone 2 is offline, zone 5 is open with
    1024 bytes written, the others are empty. *)
Definition listed_zone (k : nat) : ZoneDescriptor :=
  mkZoneDescriptor
    (4096 * Z.of_nat k) 4096
    (4096 * Z.of_nat k + (if (k =? 5)%nat then 1024 else 0))
    (negb (k =? 0)%nat) (k =? 2)%nat (negb (k =? 2)%nat)
    (k =? 5)%nat (k =? 5)%nat.

Definition listed_backend : ListedBackend :=
  mkListed OK 14 14 (Some (map listed_zone (seq 0 40))) 40 [] [].

(** What [n] rounds of [InitialLevelZones] from class [i] on make of a
    manager [d]: [d'] has [n] more tokens of each kind charged, one more
    idle zone counted for each class visited, and in the bucket of each
    such class one more zone, which was free and empty and is now held
    with the lifetime of the class; the zones that were held are as they
    were and no zone was released. *)
Definition seeded_from {B : Type} (i n : nat) (d d' : ZonedBlockDevice B) : Prop :=
  open_io_zones_ d' = open_io_zones_ d + Z.of_nat n /\
  active_io_zones_ d' = active_io_zones_ d + Z.of_nat n /\
  lifetime_begin_ d' = lifetime_begin_ d /\
  diff_level_num_ d' = diff_level_num_ d /\
  max_nr_open_io_zones_ d' = max_nr_open_io_zones_ d /\
  max_nr_active_io_zones_ d' = max_nr_active_io_zones_ d /\
  (forall lvl : nat,
     (i <= lvl < i + n)%nat ->
     exists (a : nat) (bucket : gset nat) (idle : Z) (z : Zone),
       level_zones d !! lvl = Some bucket /\
       level_zones d' !! lvl = Some ({[a]} ∪ bucket) /\
       level_active_io_zones_ d !! lvl = Some idle /\
       level_active_io_zones_ d' !! lvl = Some (idle + 1) /\
       io_zones d !! a = Some z /\ free_empty z = true /\
       io_zones d' !! a =
         Some (set_lifetime (set_busy z true)
                            (Z.of_nat lvl + lifetime_begin_ d))) /\
  (forall lvl : nat,
     ~ (i <= lvl < i + n)%nat ->
     level_zones d' !! lvl = level_zones d !! lvl /\
     level_active_io_zones_ d' !! lvl = level_active_io_zones_ d !! lvl) /\
  (forall (j : nat) (z : Zone),
     io_zones d !! j = Some z -> busy_ z = true -> io_zones d' !! j = Some z) /\
  (forall (j : nat) (z' : Zone),
     io_zones d' !! j = Some z' -> busy_ z' = false ->
     io_zones d !! j = Some z').

(** What a maintenance pass spares: a zone somebody holds is untouched,
    and a zone with live data keeps its write pointer, its capacity and
    its count of live bytes. *)
Definition spared {B : Type} (d d' : ZonedBlockDevice B) : Prop :=
  forall (j : nat) (z : Zone),
    io_zones d !! j = Some z ->
    exists z',
      io_zones d' !! j = Some z' /\
      (busy_ z = true -> z' = z) /\
      (IsUsed z = true ->
         wp_ z' = wp_ z /\ capacity_ z' = capacity_ z /\
         used_capacity_ z' = used_capacity_ z).

(** [threshold_device] with its eighth zone idle, written to a quarter and
    without live data: a zone for [ResetUnusedIOZones]. *)
Definition stale_device : ZonedBlockDevice ScriptedBackend :=
  set_io_zones threshold_device
    (<[7%nat := zone_at 40960 1024]> (io_zones threshold_device)).

(** The sum of a quantity over the zones of a registry. *)
Fixpoint total (f : Zone -> Z) (zs : list Zone) : Z :=
  match zs with
  | [] => 0
  | z :: rest => f z + total f rest
  end.

(** What a zone adds to [GetReclaimableSpace]. *)
Definition reclaimable (z : Zone) : Z :=
  if IsFull z then u64 (max_capacity_ z - used_capacity_ z) else 0.

(** [fresh_device 8] whose first meta zone is free and holds 512 live
    bytes of the 1024 written. *)
Definition meta_used_device : ZonedBlockDevice ScriptedBackend :=
  set_meta_zones (fresh_device 8)
    (<[0%nat := mkZone false 0 4096 1024 WLTH_NOT_SET 512 3072 false]>
       (meta_zones (fresh_device 8))).

(** [threshold_device] with two more idle zones that hold live data: zone
    7 of lifetime [WLTH_LONG] with 2048 bytes left and zone 8 of lifetime
    [WLTH_LONG] with 1024 bytes left. *)
Definition open_device : ZonedBlockDevice ScriptedBackend :=
  set_io_zones threshold_device
    (<[7%nat := mkZone false 40960 4096 (40960 + 2048) WLTH_LONG 1024 2048 false]>
       (<[8%nat := mkZone false 45056 4096 (45056 + 3072) WLTH_LONG 512 1024 false]>
          (io_zones threshold_device))).

(** The write pointer the device reports lies inside the zone, and the
    zone inside the address space. *)
Definition descriptor_wf (zd : ZoneDescriptor) : Prop :=
  0 <= ZoneStart zd /\
  ZoneStart zd <= ZoneWp zd <= ZoneStart zd + ZoneMaxCapacity zd /\
  ZoneStart zd + ZoneMaxCapacity zd < 2 ^ 64.

(** The zones [Open] asks the device to close: the I/O zones the device
    reports active and open that are neither empty nor full, in a write
    open. *)
Definition closed_at_open (useinlevelzone_init readonly : bool)
           (zd : ZoneDescriptor) : bool :=
  ZoneIsActive zd && ZoneIsOpen zd && negb readonly
  && negb (IsEmpty (Zone_new useinlevelzone_init zd)
           || IsFull (Zone_new useinlevelzone_init zd)).


(** [seeded_device] after 512 bytes went to the zone of the lowest class:
    the zone is leased and no longer empty. *)
Definition written_device : ZonedBlockDevice ScriptedBackend :=
  store_io_zone seeded_device 0
    (mkZone true 12288 4096 (12288 + 512) 3 0 3584 true).

(** [seeded_device] with a second zone opened in the lowest class: the
    seventh zone is held, of lifetime 3 and in the first bucket, and a
    seventh token of each kind is charged. *)
Definition crowded_device : ZonedBlockDevice ScriptedBackend :=
  let d :=
    store_io_zone seeded_device 6
      (set_lifetime (held (zone_at 36864 0)) 3) in
  set_open
    (set_active
       (set_level_zones d (<[0%nat := {[0%nat; 6%nat]}]> (level_zones d)))
       7)
    7.

(** [seeded_device] once the zone of the lowest class took 512 bytes that
    have all been invalidated, and its writer let go of it: the zone is
    in its bucket, free, not full and without live data. *)
Definition invalidated_device : ZonedBlockDevice ScriptedBackend :=
  store_io_zone seeded_device 0
    (mkZone false 12288 4096 (12288 + 512) 3 0 3584 false).
(** * Properties *)

(** ** Machine integers *)

Lemma u64_small x : 0 <= x < 2 ^ 64 -> u64 x = x.
Proof. unfold u64. lia. Qed.

Lemma u32_small x : 0 <= x < 2 ^ 32 -> u32 x = x.
Proof. unfold u32. lia. Qed.

Lemma u64_add_l x y : u64 (u64 x + y) = u64 (x + y).
Proof. unfold u64. lia. Qed.

Lemma u64_sub_l x y : u64 (u64 x - y) = u64 (x - y).
Proof. unfold u64. lia. Qed.

Lemma u32_sub_l x y : u32 (u32 x - y) = u32 (x - y).
Proof. unfold u32. lia. Qed.

(** ** Acquire and Release *)

Lemma Acquire_free z : busy_ z = false -> Acquire z = (true, set_busy z true).
Proof. unfold Acquire. intros ->. reflexivity. Qed.

Lemma Acquire_busy z : busy_ z = true -> Acquire z = (false, z).
Proof. unfold Acquire. intros ->. reflexivity. Qed.

Lemma CheckRelease_busy z : busy_ z = true -> CheckRelease z = (OK, set_busy z false).
Proof. unfold CheckRelease, Release. intros ->. reflexivity. Qed.

Lemma set_busy_id z : set_busy z (busy_ z) = z.
Proof. destruct z; reflexivity. Qed.

Lemma release_after_acquire z :
  busy_ z = false -> set_busy (set_busy z true) false = z.
Proof. destruct z; simpl; intros ->; reflexivity. Qed.

(** ** Zone::Reset *)

Section ResetFacts.
Context {B : Type} `{!ZonedBlockDeviceBackend B}.

Lemma Zone_Reset_error (b b' : B) z ios offline max_capacity :
  be_Reset b (start_ z) = (b', (ios, offline, max_capacity)) ->
  ok ios = false ->
  Zone_Reset b z = (b', z, ios).
Proof. unfold Zone_Reset. intros -> ->. reflexivity. Qed.

Lemma Zone_Reset_success (b b' : B) z ios offline max_capacity :
  be_Reset b (start_ z) = (b', (ios, offline, max_capacity)) ->
  ok ios = true ->
  Zone_Reset b z =
    (b',
     mkZone (busy_ z) (start_ z)
            (if offline then max_capacity_ z else max_capacity)
            (start_ z) WLTH_NOT_SET (used_capacity_ z)
            (if offline then 0 else max_capacity) (useinlevelzone_ z),
     OK).
Proof.
  unfold Zone_Reset. intros -> ->. destruct offline; reflexivity.
Qed.

(** C4. [Zone::Reset] on an unused, held zone: when the backend succeeds
    the zone comes back with [wp = start] and [lifetime = NOT_SET]; a zone
    that is not offline takes the reported [max_capacity] as both its
    capacity and its max capacity and is empty, an offline zone has
    capacity 0; when the backend fails its status is returned and the zone
    is as before. *)
Theorem Zone_Reset_spec (b b' : B) (z : Zone) ios offline max_capacity :
  Reset_pre z ->
  be_Reset b (start_ z) = (b', (ios, offline, max_capacity)) ->
  (ok ios = true ->
     exists z',
       Zone_Reset b z = (b', z', OK) /\
       wp_ z' = start_ z /\ lifetime_ z' = WLTH_NOT_SET /\
       IsEmpty z' = true /\
       start_ z' = start_ z /\ busy_ z' = true /\
       used_capacity_ z' = used_capacity_ z /\ IsUsed z' = false /\
       useinlevelzone_ z' = useinlevelzone_ z /\
       (offline = false ->
          capacity_ z' = max_capacity /\ max_capacity_ z' = max_capacity) /\
       (offline = true ->
          capacity_ z' = 0 /\ IsFull z' = true /\
          max_capacity_ z' = max_capacity_ z)) /\
  (ok ios = false -> Zone_Reset b z = (b', z, ios)).
Proof.
  intros [Hunused Hbusy] Hbe. split.
  - intros Hok. eexists. split.
    + apply (Zone_Reset_success _ _ _ _ _ _ Hbe Hok).
    + unfold IsEmpty, IsFull, IsUsed, IsBusy in *. simpl.
      rewrite Z.eqb_refl.
      repeat (split; [solve [auto] |]).
      split; intros ->; auto.
  - intros Hko. apply (Zone_Reset_error _ _ _ _ _ _ Hbe Hko).
Qed.

End ResetFacts.

(** ** Zone::Append *)

Section AppendFacts.
Context {B : Type} `{!ZonedBlockDeviceBackend B}.

Lemma Append_loop_zero fuel (b : B) z :
  Append_loop fuel b z 0 = Some (b, z, OK, []).
Proof. destruct fuel; reflexivity. Qed.

Lemma Append_loop_step fuel (b : B) z left :
  left <> 0 ->
  Append_loop (S fuel) b z left =
    let (b', ret) := be_Write b left (wp_ z) in
    if ret <? 0 then Some (b', z, IOError, [ret])
    else
      match Append_loop fuel b'
              (set_capacity (set_wp z (u64 (wp_ z + ret)))
                            (u64 (capacity_ z - ret)))
              (u32 (left - ret)) with
      | Some (b'', z'', s, rets) => Some (b'', z'', s, ret :: rets)
      | None => None
      end.
Proof.
  intros Hleft. simpl. destruct (Z.eqb_spec left 0); [contradiction|].
  reflexivity.
Qed.

Lemma only_wp_capacity_differ_refl z : only_wp_capacity_differ z z.
Proof. destruct z; reflexivity. Qed.

Lemma only_wp_capacity_differ_step z z' wp cap :
  only_wp_capacity_differ (set_capacity (set_wp z wp) cap) z' ->
  only_wp_capacity_differ z z'.
Proof. unfold only_wp_capacity_differ. intros ->. reflexivity. Qed.

(** What a run of the loop does to the zone, whatever the backend
    returns. *)
Lemma Append_loop_spec fuel :
  forall (b : B) z left b' z' s rets,
    0 <= wp_ z < 2 ^ 64 -> 0 <= capacity_ z < 2 ^ 64 ->
    Append_loop fuel b z left = Some (b', z', s, rets) ->
    wp_ z' = u64 (wp_ z + accepted rets) /\
    capacity_ z' = u64 (capacity_ z - accepted rets) /\
    only_wp_capacity_differ z z' /\
    ((s = OK /\ Forall (fun r => 0 <= r) rets /\
      u32 (left - accepted rets) = 0) \/
     (s = IOError /\
      exists pre r, rets = pre ++ [r] /\ r < 0 /\
                    Forall (fun r => 0 <= r) pre /\
                    accepted rets = accepted pre)).
Proof.
  induction fuel as [|fuel IH]; intros b z left b' z' s rets Hwp Hcap Hrun.
  - simpl in Hrun. destruct (Z.eqb_spec left 0) as [->|]; [|discriminate].
    inversion Hrun; subst. simpl.
    rewrite Z.add_0_r, Z.sub_0_r, !u64_small by lia.
    split; [reflexivity|]. split; [reflexivity|].
    split; [apply only_wp_capacity_differ_refl|].
    left. repeat split; auto.
  - destruct (Z.eq_dec left 0) as [->|Hleft].
    + rewrite Append_loop_zero in Hrun. inversion Hrun; subst. simpl.
      rewrite Z.add_0_r, Z.sub_0_r, !u64_small by lia.
      split; [reflexivity|]. split; [reflexivity|].
      split; [apply only_wp_capacity_differ_refl|].
      left. repeat split; auto.
    + rewrite Append_loop_step in Hrun by assumption.
      destruct (be_Write b left (wp_ z)) as [b1 ret].
      destruct (Z.ltb_spec ret 0) as [Hneg|Hpos].
      * inversion Hrun; subst. simpl.
        destruct (Z.ltb_spec ret 0); [|lia].
        rewrite Z.add_0_r, Z.sub_0_r, !u64_small by lia.
        split; [reflexivity|]. split; [reflexivity|].
        split; [apply only_wp_capacity_differ_refl|].
        right. split; [reflexivity|].
        exists [], ret. repeat split; auto.
      * destruct (Append_loop fuel b1 _ _) as [[[[b2 z2] s2] rets2]|] eqn:Hrec;
          [|discriminate].
        inversion Hrun; subst. clear Hrun.
        apply IH in Hrec; simpl; try apply Z.mod_pos_bound; try lia.
        simpl in Hrec.
        destruct Hrec as (Hwp' & Hcap' & Hsame & Hstatus).
        destruct (Z.ltb_spec ret 0); [lia|].
        split; [rewrite Hwp', u64_add_l; f_equal; lia|].
        split; [rewrite Hcap', u64_sub_l; f_equal; lia|].
        split; [eapply only_wp_capacity_differ_step; eassumption|].
        destruct Hstatus as [(-> & Hall & Hdone)|(-> & pre & r & -> & Hr & Hall & Hacc)].
        -- left. repeat split; auto.
           rewrite u32_sub_l in Hdone. rewrite <- Hdone. f_equal. lia.
        -- right. split; [reflexivity|].
           exists (ret :: pre), r. repeat split; auto.
           simpl. destruct (Z.ltb_spec ret 0); lia.
Qed.

(** With short writes only, the accepted bytes never exceed the request,
    and fall short of it when the run ends in an error. *)
Lemma Append_loop_short fuel :
  forall (b : B) z left b' z' s rets,
    0 <= left < 2 ^ 32 ->
    Append_loop fuel b z left = Some (b', z', s, rets) ->
    short_writes left rets ->
    0 <= accepted rets <= left /\
    (s = OK -> accepted rets = left) /\
    (s = IOError -> accepted rets < left).
Proof.
  induction fuel as [|fuel IH]; intros b z left b' z' s rets Hleft Hrun Hshort.
  - simpl in Hrun. destruct (Z.eqb_spec left 0) as [->|]; [|discriminate].
    inversion Hrun; subst. simpl. repeat split; (lia || discriminate).
  - destruct (Z.eq_dec left 0) as [->|Hne].
    + rewrite Append_loop_zero in Hrun. inversion Hrun; subst. simpl.
      repeat split; (lia || discriminate).
    + rewrite Append_loop_step in Hrun by assumption.
      destruct (be_Write b left (wp_ z)) as [b1 ret].
      destruct (Z.ltb_spec ret 0) as [Hneg|Hpos].
      * inversion Hrun; subst. simpl.
        destruct (Z.ltb_spec ret 0); [|lia].
        repeat split; (lia || discriminate).
      * destruct (Append_loop fuel b1 _ _) as [[[[b2 z2] s2] rets2]|] eqn:Hrec;
          [|discriminate].
        inversion Hrun; subst. clear Hrun.
        destruct Hshort as [Hret Hshort].
        rewrite u32_small in Hrec by lia.
        apply IH in Hrec; [|lia|assumption].
        simpl. destruct (Z.ltb_spec ret 0); [lia|].
        destruct Hrec as (Hacc & Hok & Herr).
        repeat split; lia.
Qed.


End AppendFacts.

Section AppendClaims.
Context {B : Type} `{!ZonedBlockDeviceBackend B}.


Lemma zone_wf_wp_in_bounds z : zone_wf z -> wp_in_bounds z.
Proof. unfold zone_wf, wp_in_bounds. lia. Qed.

(** C9 (as amended). A zone whose fields satisfy [zone_wf] (so
    [start <= wp <= start + max_capacity]) keeps that through [Append]
    and [Reset]; a successful [Append] advances [wp] by exactly the bytes
    written, never past [start + max_capacity]. [Finish] puts [wp] at
    [start + zone size], which is within [start + max_capacity] exactly
    when the zone size does not exceed the max capacity. *)
Theorem zone_bounds_preserved (b : B) (z : Zone) :
  zone_wf z ->
  (forall fuel size b' z' s rets,
     0 < size < 2 ^ 32 ->
     Zone_Append fuel b z size = Some (b', z', s, rets) ->
     short_writes size rets ->
     zone_wf z' /\ wp_in_bounds z' /\
     wp_ z' = wp_ z + accepted rets /\
     (s = OK -> wp_ z' = wp_ z + size)) /\
  (forall b' ios offline max_capacity z' s,
     be_Reset b (start_ z) = (b', (ios, offline, max_capacity)) ->
     0 <= max_capacity -> start_ z + max_capacity < 2 ^ 64 ->
     Zone_Reset b z = (b', z', s) ->
     zone_wf z' /\ wp_in_bounds z') /\
  (forall b' z',
     Zone_Finish b z = (b', z', OK) ->
     0 <= be_GetZoneSize b' -> start_ z + be_GetZoneSize b' < 2 ^ 64 ->
     wp_ z' = start_ z + be_GetZoneSize b' /\
     capacity_ z' = 0 /\
     (wp_in_bounds z' <-> be_GetZoneSize b' <= max_capacity_ z)).
Proof.
  intros Hwf. pose proof Hwf as (Hstart & Hwp & Hcap & Hacct & Hend).
  split; [|split].
  - intros fuel size b' z' s rets Hsize Hrun Hshort.
    assert (0 <= size < 2 ^ 32) as Hsz by lia.
    assert (0 <= wp_ z < 2 ^ 64) as Hwpr by lia.
    assert (0 <= capacity_ z < 2 ^ 64) as Hcapr by lia.
    unfold Zone_Append in Hrun.
    destruct (Z.ltb_spec (capacity_ z) size) as [Hfull|Hroom].
    + inversion Hrun; subst. simpl.
      split; [assumption|]. split; [apply zone_wf_wp_in_bounds; assumption|].
      split; [lia|discriminate].
    + pose proof (Append_loop_spec _ _ _ _ _ _ _ _ Hwpr Hcapr Hrun)
        as (Hwp' & Hcap' & Hsame & _).
      pose proof (Append_loop_short _ _ _ _ _ _ _ _ Hsz Hrun Hshort)
        as (Hacc & Hok & _).
      rewrite u64_small in Hwp' by lia.
      rewrite u64_small in Hcap' by lia.
      assert (start_ z' = start_ z /\ max_capacity_ z' = max_capacity_ z)
        as [Hs Hm] by (rewrite Hsame; auto).
      assert (zone_wf z') as Hwf'
          by (unfold zone_wf; rewrite Hs, Hm, Hwp', Hcap'; lia).
      split; [assumption|]. split; [apply zone_wf_wp_in_bounds; assumption|].
      split; [assumption|]. intros Hs'. rewrite Hwp', (Hok Hs'). reflexivity.
  - intros b' ios offline max_capacity z' s Hbe Hmc Hfit Hrun.
    destruct (ok ios) eqn:Hios.
    + rewrite (Zone_Reset_success _ _ _ _ _ _ Hbe Hios) in Hrun.
      inversion Hrun; subst.
      assert (zone_wf
                (mkZone (busy_ z) (start_ z)
                   (if offline then max_capacity_ z else max_capacity)
                   (start_ z) WLTH_NOT_SET (used_capacity_ z)
                   (if offline then 0 else max_capacity)
                   (useinlevelzone_ z))) as Hwf'
          by (unfold zone_wf; simpl; destruct offline; lia).
      split; [assumption|apply zone_wf_wp_in_bounds; assumption].
    + rewrite (Zone_Reset_error _ _ _ _ _ _ Hbe Hios) in Hrun.
      inversion Hrun; subst.
      split; [assumption|apply zone_wf_wp_in_bounds; assumption].
  - intros b' z' Hrun Hzs Hfit. unfold Zone_Finish in Hrun.
    destruct (be_Finish b (start_ z)) as [b1 ios].
    destruct (ok ios) eqn:Hios; simpl in Hrun; inversion Hrun; subst.
    + unfold wp_in_bounds. simpl. rewrite u64_small by lia.
      split; [reflexivity|]. split; [reflexivity|]. lia.
    + discriminate Hios.
Qed.

End AppendClaims.

(** ** The zone operations on concrete devices *)

Lemma Zone_Reset_spec_witness :
  Reset_pre (held (zone_at 0 1024)) /\
  be_Reset plain_backend (start_ (held (zone_at 0 1024))) =
    (plain_backend, (OK, false, 4096)) /\
  exists z',
    Zone_Reset plain_backend (held (zone_at 0 1024)) = (plain_backend, z', OK) /\
    wp_ z' = 0 /\ capacity_ z' = 4096 /\ IsEmpty z' = true.
Proof.
  assert (Hpre : Reset_pre (held (zone_at 0 1024))) by (split; reflexivity).
  assert (Hbe : be_Reset plain_backend (start_ (held (zone_at 0 1024))) =
                (plain_backend, (OK, false, 4096))) by reflexivity.
  split; [exact Hpre|]. split; [exact Hbe|].
  destruct (Zone_Reset_spec _ _ _ _ _ _ Hpre Hbe) as [Hok _].
  destruct (Hok eq_refl)
    as (z' & Hrun & Hwp & _ & Hempty & _ & _ & _ & _ & _ & Hcap & _).
  exists z'. split; [exact Hrun|]. split; [exact Hwp|].
  split; [exact (proj1 (Hcap eq_refl))|exact Hempty].
Defined.

(** A reset that the backend refuses leaves the zone alone. *)
Example Zone_Reset_refused :
  Zone_Reset (mkScripted 4096 512 [] [(IOError, false, 0)] [])
             (held (zone_at 0 1024)) =
    (plain_backend, held (zone_at 0 1024), IOError).
Proof. reflexivity. Qed.

(** A zone that comes back offline has no capacity. *)
Example Zone_Reset_offline :
  Zone_Reset (mkScripted 4096 512 [] [(OK, true, 0)] [])
             (held (zone_at 0 1024)) =
    (plain_backend, mkZone true 0 4096 0 WLTH_NOT_SET 0 0 false, OK).
Proof. reflexivity. Qed.



(** The request does not fit: nothing is written. *)
Example Zone_Append_NoSpace :
  Zone_Append 0 plain_backend (held (zone_at 0 3584)) 1024 =
    Some (plain_backend, held (zone_at 0 3584), NoSpace, []).
Proof. reflexivity. Qed.

(** The second write fails: the first 512 bytes stay accounted for. *)
Example Zone_Append_IOError :
  Zone_Append 8 failing_write_backend (held (zone_at 0 1024)) 1024 =
    Some (plain_backend,
          mkZone true 0 4096 1536 WLTH_NOT_SET 0 2560 false,
          IOError, [512; -1]).
Proof. reflexivity. Qed.

(** C9, counterexample. On a device whose zone size exceeds the writable
    capacity of a zone, [Finish] moves [wp] past [start + max_capacity]. *)
Lemma Finish_breaks_wp_bound :
  ~ (forall (b : ScriptedBackend) (z : Zone) b' z' s,
       zone_wf z -> busy_ z = true ->
       Zone_Finish b z = (b', z', s) ->
       wp_in_bounds z').
Proof.
  intros Hall.
  assert (Hwf : zone_wf (held (zone_at 0 1024)))
    by (unfold zone_wf; simpl; lia).
  specialize (Hall zns_backend (held (zone_at 0 1024)) _ _ _ Hwf eq_refl eq_refl).
  unfold wp_in_bounds in Hall. vm_compute in Hall.
  destruct Hall as [_ Hle]. apply Hle. reflexivity.
Qed.

Lemma zone_bounds_preserved_witness :
  zone_wf (held (zone_at 0 1024)) /\
  0 < 1024 < 2 ^ 32 /\
  short_writes 1024 [512; 512] /\
  exists z',
    Zone_Append 8 short_write_backend (held (zone_at 0 1024)) 1024 =
      Some (plain_backend, z', OK, [512; 512]) /\
    wp_in_bounds z' /\ wp_ z' = wp_ (held (zone_at 0 1024)) + 1024.
Proof.
  assert (Hwf : zone_wf (held (zone_at 0 1024)))
    by (unfold zone_wf; simpl; lia).
  assert (Hsize : 0 < 1024 < 2 ^ 32) by lia.
  assert (Hshort : short_writes 1024 [512; 512]) by (simpl; lia).
  do 3 (split; [assumption|]).
  destruct (zone_bounds_preserved short_write_backend _ Hwf) as [Happend _].
  eexists. split; [reflexivity|].
  destruct (Happend 8%nat 1024 _ _ _ _ Hsize eq_refl Hshort)
    as (_ & Hbound & _ & Hok).
  split; [exact Hbound|exact (Hok eq_refl)].
Defined.

(** ** Token accounting *)

Section TokenFacts.
Context {B : Type} `{!ZonedBlockDeviceBackend B}.




(** The limit of a non-prioritized caller is the cap less one when the cap
    is a positive [unsigned int]. *)
Lemma allocator_open_limit_reserve (d : ZonedBlockDevice B) :
  1 <= max_nr_open_io_zones_ d < 2 ^ 32 ->
  allocator_open_limit d false = max_nr_open_io_zones_ d - 1.
Proof. intros Hcap. unfold allocator_open_limit. apply u32_small. lia. Qed.


(** *** The deferred status latch *)

Lemma SetZoneDeferredStatus_OK status (d : ZonedBlockDevice B) :
  ok (zone_deferred_status_ d) = true -> SetZoneDeferredStatus status d = d.
Proof. unfold SetZoneDeferredStatus. intros ->. reflexivity. Qed.

(** No sequence of [SetZoneDeferredStatus] calls arms a latch that holds
    [OK]. *)
Lemma SetZoneDeferredStatus_never_arms (statuses : list IOStatus) (d : ZonedBlockDevice B) :
  ok (zone_deferred_status_ d) = true ->
  fold_right SetZoneDeferredStatus d statuses = d.
Proof.
  intros Hok. induction statuses as [|s l IH]; [reflexivity|].
  simpl. rewrite IH. apply SetZoneDeferredStatus_OK, Hok.
Qed.

End TokenFacts.

Section LatchClaims.
Context {B : Type} `{!ZonedBlockDeviceBackend B}.
Variable IsLevelZone : ZonedBlockDevice B -> nat -> bool.

(** C10. [SetZoneDeferredStatus] stores the status only over a latched
    status that is not [OK]. Over [OK] the call changes nothing: the latch
    still reads [OK] and [AllocateIOZone] on the resulting device goes
    past the deferred status check into the rest of its body. *)
Theorem SetZoneDeferredStatus_latch (status : IOStatus)
        (d : ZonedBlockDevice B) :
  (ok (zone_deferred_status_ d) = false ->
     zone_deferred_status_ (SetZoneDeferredStatus status d) = status) /\
  (zone_deferred_status_ d = OK ->
     SetZoneDeferredStatus status d = d /\
     GetZoneDeferredStatus (SetZoneDeferredStatus status d) = OK /\
     forall file_lifetime io_type file_id,
       AllocateIOZone IsLevelZone file_lifetime io_type file_id
                      (SetZoneDeferredStatus status d) =
       AllocateIOZone_body IsLevelZone file_lifetime io_type file_id d).
Proof.
  split.
  - intros Hko. unfold SetZoneDeferredStatus. rewrite Hko. reflexivity.
  - intros Hok.
    assert (SetZoneDeferredStatus status d = d) as Hsame
        by (apply SetZoneDeferredStatus_OK; rewrite Hok; reflexivity).
    rewrite Hsame. split; [reflexivity|]. split; [exact Hok|].
    intros fl io fid. unfold AllocateIOZone, GetZoneDeferredStatus.
    rewrite Hok. reflexivity.
Qed.

End LatchClaims.

(** After [SetZoneDeferredStatus(IOError)] on a fresh manager the next
    allocation still hands out a zone. *)
Example deferred_error_not_latched :
  match AllocateIOZone IsLevelZone_bucket WLTH_MEDIUM kFlush 42
          (SetZoneDeferredStatus IOError (fresh_device 8)) with
  | Returned (s, Some _) _ => s = OK
  | _ => False
  end.
Proof. vm_compute. reflexivity. Qed.

(** A waiter that finds every token taken returns once a token is put
    back. *)
Example WaitForOpenIOZoneToken_wakes :
  WaitForOpenIOZoneToken true (set_open (fresh_device 2) 2)
                         [PutOpenIOZoneToken] =
    Returned tt (set_open (fresh_device 2) 2).
Proof. reflexivity. Qed.

Example WaitForOpenIOZoneToken_reserve :
  WaitForOpenIOZoneToken false (set_open (fresh_device 2) 1) [] =
    Blocked (set_open (fresh_device 2) 1) /\
  WaitForOpenIOZoneToken true (set_open (fresh_device 2) 1) [] =
    Returned tt (set_open (fresh_device 2) 2).
Proof. split; reflexivity. Qed.


(** With a cap of zero, as [Open] leaves it for a device that reports two
    open zones, the [unsigned int] difference wraps: the limit of a caller
    that is not prioritized is 4294967295 and the call takes a token past
    the cap. *)
Example WaitForOpenIOZoneToken_reserve_wraps :
  allocator_open_limit (fresh_device 0) false = 4294967295 /\
  WaitForOpenIOZoneToken false (fresh_device 0) [] =
    Returned tt (set_open (fresh_device 0) 1) /\
  WaitForOpenIOZoneToken true (fresh_device 0) [] = Blocked (fresh_device 0).
Proof. repeat split; reflexivity. Qed.

(** ** AllocateEmptyZone *)

Section EmptyZoneFacts.
Context {B : Type} `{!ZonedBlockDeviceBackend B}.

(** The scan takes the first zone that is free and empty and leaves every
    other zone as it was; it never fails. *)
Lemma AllocateEmptyZone_scan_spec (zs : list Zone) :
  forall idx : nat,
    AllocateEmptyZone_scan zs idx =
      match first_free_empty zs with
      | Some (k, z) => (OK, Some (idx + k)%nat, <[k := set_busy z true]> zs)
      | None => (OK, None, zs)
      end.
Proof.
  unfold first_free_empty.
  induction zs as [|z rest IH]; intros idx; [reflexivity|].
  simpl. destruct (decide (free_empty z = true)) as [Hfe|Hfe].
  - unfold free_empty in Hfe. apply andb_true_iff in Hfe as [Hb He].
    apply negb_true_iff in Hb.
    rewrite (Acquire_free z Hb).
    change (IsEmpty (set_busy z true)) with (IsEmpty z). rewrite He.
    simpl. rewrite Nat.add_0_r. reflexivity.
  - destruct (busy_ z) eqn:Hbusy.
    + rewrite (Acquire_busy z Hbusy), IH.
      destruct (list_find _ rest) as [[k z']|]; simpl; [|reflexivity].
      repeat f_equal. lia.
    + rewrite (Acquire_free z Hbusy).
      change (IsEmpty (set_busy z true)) with (IsEmpty z).
      destruct (IsEmpty z) eqn:Hempty.
      * exfalso. apply Hfe. unfold free_empty. rewrite Hbusy, Hempty.
        reflexivity.
      * rewrite (CheckRelease_busy (set_busy z true) eq_refl). simpl.
        rewrite IH, (release_after_acquire z Hbusy).
        destruct (list_find _ rest) as [[k z']|]; simpl; [|reflexivity].
        repeat f_equal. lia.
Qed.

Lemma AllocateEmptyZone_spec (d : ZonedBlockDevice B) :
  AllocateEmptyZone d =
    match first_free_empty (io_zones d) with
    | Some (a, z) => (OK, Some a, store_io_zone d a (set_busy z true))
    | None => (OK, None, d)
    end.
Proof.
  unfold AllocateEmptyZone. rewrite AllocateEmptyZone_scan_spec.
  destruct (first_free_empty (io_zones d)) as [[a z]|]; simpl.
  - reflexivity.
  - destruct d; reflexivity.
Qed.

Lemma first_free_empty_Some zs a z :
  first_free_empty zs = Some (a, z) ->
  zs !! a = Some z /\ busy_ z = false /\ IsEmpty z = true.
Proof.
  unfold first_free_empty. intros Hfind.
  apply list_find_Some in Hfind as (Hlook & Hfree & _).
  unfold free_empty in Hfree. apply andb_true_iff in Hfree as [Hb He].
  apply negb_true_iff in Hb. auto.
Qed.

End EmptyZoneFacts.

(** ** Lifetime buckets *)

Section BucketFacts.
Context {B : Type} `{!ZonedBlockDeviceBackend B}.

Lemma Release_snd z : (Release z).2 = set_busy z false.
Proof.
  unfold Release. destruct (busy_ z) eqn:Hb; simpl; [reflexivity|].
  rewrite <- Hb. symmetry. apply set_busy_id.
Qed.

(** [EmitLevelZone] after its three lookups. *)
Lemma EmitLevelZone_unfold (emit_zone : nat) (d : ZonedBlockDevice B) z lvl bucket :
  io_zones d !! emit_zone = Some z ->
  level_index d (lifetime_ z) = Some lvl ->
  level_zones d !! lvl = Some bucket ->
  let bucket1 := bucket ∖ {[emit_zone]} in
  let d2 :=
    store_io_zone
      (set_level_zones d (<[lvl := bucket1]> (level_zones d)))
      emit_zone (set_busy (set_useinlevelzone z false) false) in
  EmitLevelZone emit_zone d =
    if bool_decide (bucket1 = ∅) then
      match first_free_empty (io_zones d2) with
      | None => Retrying d2
      | Some (a, za) =>
          Returned true
            (set_level_zones
               (store_io_zone d2 a
                  (set_lifetime (set_busy za true) (lifetime_ z)))
               (<[lvl := {[a]}]> (level_zones d2)))
      end
    else
      Returned false
        (set_open (set_active d2 (active_io_zones_ d - 1))
                  (open_io_zones_ d - 1)).
Proof.
  intros Hz Hlvl Hbucket bucket1 d2.
  unfold EmitLevelZone. rewrite Hz, Hlvl, Hbucket, Release_snd.
  fold bucket1. fold d2.
  destruct (bool_decide (bucket1 = ∅)) eqn:Hempty; [|reflexivity].
  apply bool_decide_eq_true in Hempty.
  rewrite AllocateEmptyZone_spec.
  destruct (first_free_empty (io_zones d2)) as [[a za]|] eqn:Hfind;
    [|reflexivity].
  apply first_free_empty_Some in Hfind as (Hza & Hfree & Hzempty).
  assert (a < length (io_zones d2))%nat as Ha by (eapply lookup_lt_Some; eauto).
  assert (emit_zone < length (io_zones d))%nat as He
      by (eapply lookup_lt_Some; eauto).
  assert (lvl < length (level_zones d))%nat as Hl
      by (eapply lookup_lt_Some; eauto).
  simpl negb. cbv iota.
  assert (io_zones (store_io_zone d2 a (set_busy za true)) !! a =
          Some (set_busy za true)) as ->
      by (simpl; apply list_lookup_insert_eq; exact Ha).
  assert (exists ze,
             io_zones (store_io_zone d2 a (set_busy za true)) !! emit_zone =
             Some ze /\ lifetime_ ze = lifetime_ z) as (ze & -> & Hlife).
  { simpl. destruct (decide (a = emit_zone)) as [->|Hne].
    - rewrite list_lookup_insert_eq by exact Ha. eexists. split; [reflexivity|].
      unfold d2 in Hza. simpl in Hza.
      rewrite list_lookup_insert_eq in Hza by exact He.
      inversion Hza; subst. reflexivity.
    - rewrite list_lookup_insert_ne by exact Hne.
      unfold d2. simpl.
      rewrite list_lookup_insert_eq by exact He.
      eexists. split; reflexivity. }
  assert (level_zones (store_io_zone d2 a (set_busy za true)) !! lvl =
          Some bucket1) as ->
      by (simpl; apply list_lookup_insert_eq; exact Hl).
  rewrite Hlife, Hempty. f_equal.
  unfold store_io_zone, set_level_zones, set_io_zones. simpl.
  rewrite list_insert_insert_eq, union_empty_r_L, list_insert_insert_eq.
  reflexivity.
Qed.

Lemma insert_keeps_buckets_nonempty (buckets : list (gset nat)) lvl X :
  X <> ∅ ->
  (forall l b, buckets !! l = Some b -> b <> ∅) ->
  forall l b, <[lvl := X]> buckets !! l = Some b -> b <> ∅.
Proof.
  intros HX Hall l b Hl.
  apply list_lookup_insert_Some in Hl as [(-> & <- & _)|(_ & Hl)]; eauto.
Qed.

Lemma EmitLevelZone_keeps_buckets_nonempty (emit_zone : nat) (d : ZonedBlockDevice B) r d' :
  EmitLevelZone emit_zone d = Returned r d' ->
  all_buckets_nonempty d -> all_buckets_nonempty d'.
Proof.
  intros Hrun Hall.
  destruct (io_zones d !! emit_zone) as [z|] eqn:Hz;
    [|unfold EmitLevelZone in Hrun; rewrite Hz in Hrun; discriminate].
  destruct (level_index d (lifetime_ z)) as [lvl|] eqn:Hlvl;
    [|unfold EmitLevelZone in Hrun; rewrite Hz, Hlvl in Hrun; discriminate].
  destruct (level_zones d !! lvl) as [bucket|] eqn:Hbucket;
    [|unfold EmitLevelZone in Hrun; rewrite Hz, Hlvl, Hbucket in Hrun;
      discriminate].
  rewrite (EmitLevelZone_unfold _ _ _ _ _ Hz Hlvl Hbucket) in Hrun.
  destruct (bool_decide (bucket ∖ {[emit_zone]} = ∅)) eqn:Hempty.
  - destruct (first_free_empty _) as [[a za]|]; [|discriminate].
    inversion Hrun; subst. unfold all_buckets_nonempty. simpl.
    rewrite list_insert_insert_eq.
    apply insert_keeps_buckets_nonempty; [|exact Hall].
    apply non_empty_singleton_L.
  - apply bool_decide_eq_false in Hempty.
    inversion Hrun; subst. unfold all_buckets_nonempty. simpl.
    apply insert_keeps_buckets_nonempty; [exact Hempty|exact Hall].
Qed.

(** C6. [EmitLevelZone(z)], for [z] whose lifetime is one of the classes,
    takes [z] out of the bucket of its lifetime class and clears its leased
    and busy flags. If other zones remain in the bucket, both token
    counters go down by one and the call returns [false]. If the bucket is
    left empty, the first free empty zone of the registry is taken, given
    the lifetime of [z] and made the only member of the bucket, the
    counters stay as they are and the call returns [true]; with no such
    zone the call keeps retrying. The zone taken is another zone, and [z]
    stays free and out of the bucket, unless [z] is empty and no free
    empty zone comes before it: then [z] itself is taken, and it ends held
    and the only member of its bucket. A call that returns leaves every
    bucket non-empty if every bucket was non-empty before. With a
    lifetime outside the classes the bucket index is out of range. *)
Theorem EmitLevelZone_spec (emit_zone : nat) (d : ZonedBlockDevice B) z :
  io_zones d !! emit_zone = Some z ->
  (level_index d (lifetime_ z) = None ->
     EmitLevelZone emit_zone d = Undefined) /\
  (forall lvl bucket,
     level_index d (lifetime_ z) = Some lvl ->
     level_zones d !! lvl = Some bucket ->
     let bucket1 := bucket ∖ {[emit_zone]} in
     let released := set_busy (set_useinlevelzone z false) false in
     let d2 :=
       store_io_zone
         (set_level_zones d (<[lvl := bucket1]> (level_zones d)))
         emit_zone released in
     (bucket1 <> ∅ ->
        EmitLevelZone emit_zone d =
          Returned false
            (set_open (set_active d2 (active_io_zones_ d - 1))
                      (open_io_zones_ d - 1)) /\
        io_zones d2 !! emit_zone = Some released /\
        level_zones d2 !! lvl = Some bucket1 /\ emit_zone ∉ bucket1) /\
     (bucket1 = ∅ ->
        match first_free_empty (io_zones d2) with
        | None => EmitLevelZone emit_zone d = Retrying d2
        | Some (a, za) =>
            exists d',
              EmitLevelZone emit_zone d = Returned true d' /\
              busy_ za = false /\ IsEmpty za = true /\
              level_zones d' = <[lvl := {[a]}]> (level_zones d) /\
              io_zones d' =
                <[a := set_lifetime (set_busy za true) (lifetime_ z)]>
                  (io_zones d2) /\
              open_io_zones_ d' = open_io_zones_ d /\
              active_io_zones_ d' = active_io_zones_ d /\
              (a <> emit_zone ->
                 io_zones d' !! emit_zone = Some released /\
                 level_zones d' !! lvl = Some {[a]} /\
                 emit_zone ∉ ({[a]} : gset nat)) /\
              (a = emit_zone ->
                 IsEmpty z = true /\
                 io_zones d' !! emit_zone = Some (set_busy released true) /\
                 level_zones d' !! lvl = Some {[emit_zone]})
        end)) /\
  (forall r d',
     EmitLevelZone emit_zone d = Returned r d' ->
     all_buckets_nonempty d -> all_buckets_nonempty d').
Proof.
  intros Hz. split; [|split].
  - intros Hlvl. unfold EmitLevelZone. rewrite Hz, Hlvl. reflexivity.
  - intros lvl bucket Hlvl Hbucket bucket1 released d2.
    pose proof (EmitLevelZone_unfold _ _ _ _ _ Hz Hlvl Hbucket) as Hrun.
    cbv zeta in Hrun. fold bucket1 in Hrun. fold released in Hrun.
    fold d2 in Hrun.
    assert (emit_zone < length (io_zones d))%nat as He
        by (eapply lookup_lt_Some; eauto).
    assert (lvl < length (level_zones d))%nat as Hl
        by (eapply lookup_lt_Some; eauto).
    assert (io_zones d2 !! emit_zone = Some released) as Hreleased
        by (simpl; apply list_lookup_insert_eq; exact He).
    split.
    + intros Hne. rewrite Hrun.
      rewrite bool_decide_eq_false_2 by exact Hne.
      split; [reflexivity|]. split; [exact Hreleased|].
      split; [simpl; apply list_lookup_insert_eq; exact Hl|].
      unfold bucket1. intros [_ Hnot]%elem_of_difference.
      apply Hnot, elem_of_singleton. reflexivity.
    + intros Hempty. rewrite Hrun.
      rewrite bool_decide_eq_true_2 by exact Hempty.
      destruct (first_free_empty (io_zones d2)) as [[a za]|] eqn:Hfind;
        [|reflexivity].
      apply first_free_empty_Some in Hfind as (Hza & Hfree & Hzempty).
      eexists. split; [reflexivity|].
      split; [exact Hfree|]. split; [exact Hzempty|]. simpl.
      rewrite list_insert_insert_eq.
      split; [reflexivity|]. split; [reflexivity|].
      split; [reflexivity|]. split; [reflexivity|]. split.
      * intros Hne. rewrite list_lookup_insert_ne by exact Hne.
        rewrite list_lookup_insert_eq by exact He.
        split; [reflexivity|].
        split; [apply list_lookup_insert_eq; exact Hl|].
        intros Hin%elem_of_singleton. congruence.
      * intros ->. rewrite Hreleased in Hza. injection Hza as <-.
        split; [exact Hzempty|].
        rewrite list_lookup_insert_eq
          by (rewrite length_insert; exact He).
        split; [reflexivity|apply list_lookup_insert_eq; exact Hl].
  - intros r d'. apply EmitLevelZone_keeps_buckets_nonempty.
Qed.

End BucketFacts.

(** ** ApplyFinishThreshold *)

Section FinishThresholdFacts.
Context {B : Type} `{!ZonedBlockDeviceBackend B}.

Lemma finish_eligible_ext (d d' : ZonedBlockDevice B) z :
  finish_threshold_ d' = finish_threshold_ d ->
  finish_eligible d' z = finish_eligible d z.
Proof.
  unfold finish_eligible, within_finish_threshold. intros ->. reflexivity.
Qed.

Lemma finished_after_release z w :
  busy_ z = false ->
  finished z (set_busy (set_wp (set_capacity (set_busy z true) 0) w) false).
Proof.
  intros Hb. unfold finished, only_wp_capacity_differ.
  destruct z; simpl in *; subst. split; reflexivity.
Qed.

(** One pass of the loop over [zs], from the device [d]. *)
Lemma ApplyFinishThreshold_loop_spec (zs : list Zone) :
  forall (d : ZonedBlockDevice B) s d' zs',
    ApplyFinishThreshold_loop d zs = (s, d', zs') ->
    d' = set_active (set_be d (zbd_be_ d')) (active_io_zones_ d') /\
    Forall2 (fun z z' => z' = z \/
                         (finish_eligible d z = true /\ finished z z'))
            zs zs' /\
    (s = OK ->
       Forall2 (fun z z' => if finish_eligible d z then finished z z'
                            else z' = z) zs zs' /\
       active_io_zones_ d' =
         active_io_zones_ d -
         Z.of_nat (length (List.filter (finish_eligible d) zs))).
Proof.
  induction zs as [|z rest IH]; intros d s d' zs' Hrun.
  - simpl in Hrun. inversion Hrun; subst.
    split; [destruct d'; reflexivity|]. split; [constructor|].
    intros _. split; [constructor|simpl; lia].
  - simpl in Hrun. simpl List.filter.
    destruct (busy_ z) eqn:Hbusy.
    + (* the zone cannot be acquired *)
      rewrite (Acquire_busy z Hbusy) in Hrun.
      destruct (ApplyFinishThreshold_loop d rest) as [[s1 d1] rest1] eqn:Hrec.
      inversion Hrun; subst. apply IH in Hrec as (Hd & Hany & Hok).
      assert (finish_eligible d z = false) as Hne
          by (unfold finish_eligible; rewrite Hbusy; reflexivity).
      rewrite Hne.
      split; [exact Hd|]. split; [constructor; auto|].
      intros Hs. specialize (Hok Hs) as [Hall Hcount].
      split; [constructor; [rewrite Hne; reflexivity|exact Hall]|exact Hcount].
    + rewrite (Acquire_free z Hbusy) in Hrun.
      assert (finish_eligible d z =
              negb (IsEmpty (set_busy z true) || IsFull (set_busy z true))
              && within_finish_threshold d (set_busy z true)) as Helig
          by (unfold finish_eligible; rewrite Hbusy; reflexivity).
      rewrite <- Helig in Hrun.
      destruct (finish_eligible d z) eqn:He.
      * (* the zone is finished *)
        unfold Zone_Finish in Hrun.
        destruct (be_Finish (zbd_be_ d) (start_ (set_busy z true)))
          as [b1 ios] eqn:Hbe.
        simpl in Hrun.
        destruct (ok ios) eqn:Hios; simpl in Hrun; rewrite ?Hios in Hrun;
          simpl in Hrun.
        -- destruct (ApplyFinishThreshold_loop
                       (PutActiveIOZoneToken (set_be d b1)) rest)
             as [[s1 d1] rest1] eqn:Hrec.
           inversion Hrun; subst. apply IH in Hrec as (Hd & Hany & Hok).
           split; [rewrite Hd; reflexivity|].
           split.
           { constructor.
             - right. split; [exact He|].
               apply (finished_after_release z _ Hbusy).
             - eapply Forall2_impl; [exact Hany|].
               intros x y [->|[Hx Hf]]; [left; reflexivity|right].
               split; [|exact Hf]. rewrite <- Hx.
               symmetry. apply finish_eligible_ext. reflexivity. }
           intros Hs. specialize (Hok Hs) as [Hall Hcount].
           split.
           { constructor.
             - rewrite He. apply (finished_after_release z _ Hbusy).
             - eapply Forall2_impl; [exact Hall|].
               intros x y Hxy. simpl in *.
               rewrite (finish_eligible_ext
                          (PutActiveIOZoneToken (set_be d b1)) d x eq_refl).
               exact Hxy. }
           rewrite Hcount.
           rewrite (List.filter_ext
                      (finish_eligible (PutActiveIOZoneToken (set_be d b1)))
                      (finish_eligible d))
             by (intros x; apply finish_eligible_ext; reflexivity).
           simpl. lia.
        -- inversion Hrun; subst.
           change (set_busy (set_busy z true) true)
             with (set_busy z true).
           rewrite ?(release_after_acquire z Hbusy).
           split; [destruct d; reflexivity|].
           split; [constructor; [left; reflexivity|]|].
           { apply Forall2_same_length_lookup_2; [reflexivity|].
             intros i x y Hx Hy. left. congruence. }
           intros Hs. rewrite Hs in Hios. discriminate.
      * (* the zone is left alone *)
        rewrite (CheckRelease_busy (set_busy z true) eq_refl) in Hrun.
        simpl in Hrun. rewrite (release_after_acquire z Hbusy) in Hrun.
        destruct (ApplyFinishThreshold_loop d rest) as [[s1 d1] rest1] eqn:Hrec.
        inversion Hrun; subst. apply IH in Hrec as (Hd & Hany & Hok).
        split; [exact Hd|]. split; [constructor; auto|].
        intros Hs. specialize (Hok Hs) as [Hall Hcount].
        split; [constructor; [rewrite He; reflexivity|exact Hall]|exact Hcount].
Qed.



End FinishThresholdFacts.

Section FinishThresholdClaims.
Context {B : Type} `{!ZonedBlockDeviceBackend B}.
Variable IsLevelZone : ZonedBlockDevice B -> nat -> bool.


End FinishThresholdClaims.

(** Scenario 5 of the specification: with a threshold of 20 percent, the
    next allocation for a flush finishes the idle zone that has 512 of its
    4096 bytes left and gives back its active token; the flush gets the
    seeded zone of its class. *)
Example finish_threshold_harvest :
  finish_eligible threshold_device
    (mkZone false 36864 4096 (36864 + 3584) WLTH_MEDIUM 2048 512 false) = true /\
  active_io_zones_ threshold_device = 7 /\
  match AllocateIOZone IsLevelZone_bucket WLTH_MEDIUM kFlush 42 threshold_device with
  | Returned (s, r) d' =>
      s = OK /\ r = Some 0%nat /\
      io_zones d' !! 6%nat =
        Some (mkZone false 36864 4096 (36864 + 4096) WLTH_MEDIUM 2048 0 false) /\
      active_io_zones_ d' = 6
  | _ => False
  end.
Proof. vm_compute. repeat split; reflexivity. Qed.

(** ** AllocateMetaZone *)

Section MetaZoneFacts.
Context {B : Type} `{!ZonedBlockDeviceBackend B}.

Lemma all_used_no_meta_zone_usable (zs : list Zone) (b : B) :
  Forall (fun z => IsUsed z = true) zs -> no_meta_zone_usable b zs = true.
Proof.
  induction 1 as [|z rest Hz _ IH]; [reflexivity|].
  simpl. rewrite Hz, orb_true_r. exact IH.
Qed.

(** The loop returns [NoSpace] exactly when no meta zone is usable, and
    otherwise the first usable one, held and empty. *)
Lemma AllocateMetaZone_loop_spec (zs : list Zone) :
  forall (b : B) (idx : nat) s r b' zs',
    AllocateMetaZone_loop b zs idx = (s, r, b', zs') ->
    if no_meta_zone_usable b zs then s = NoSpace /\ r = None
    else
      s = OK /\
      exists k z z',
        r = Some (idx + k)%nat /\
        zs !! k = Some z /\ busy_ z = false /\ IsUsed z = false /\
        zs' !! k = Some z' /\ busy_ z' = true /\ IsUsed z' = false /\
        IsEmpty z' = true /\
        (IsEmpty z = true -> z' = set_busy z true) /\
        (IsEmpty z = false ->
           lifetime_ z' = WLTH_NOT_SET /\ wp_ z' = start_ z).
Proof.
  induction zs as [|z rest IH]; intros b idx s r b' zs' Hrun.
  - simpl in *. inversion Hrun; subst. auto.
  - simpl in Hrun. simpl no_meta_zone_usable.
    destruct (busy_ z) eqn:Hbusy.
    + rewrite (Acquire_busy z Hbusy) in Hrun. simpl orb.
      destruct (AllocateMetaZone_loop b rest (S idx))
        as [[[s1 r1] b1] rest1] eqn:Hrec.
      inversion Hrun; subst. apply IH in Hrec.
      destruct (no_meta_zone_usable b rest); [exact Hrec|].
      destruct Hrec as (Hs & k & zk & zk' & -> & Hrest).
      split; [exact Hs|]. exists (S k), zk, zk'.
      split; [f_equal; lia|exact Hrest].
    + rewrite (Acquire_free z Hbusy) in Hrun. simpl orb.
      change (IsUsed (set_busy z true)) with (IsUsed z) in Hrun.
      change (IsEmpty (set_busy z true)) with (IsEmpty z) in Hrun.
      destruct (IsUsed z) eqn:Hused; simpl in Hrun.
      * destruct (AllocateMetaZone_loop b rest (S idx))
          as [[[s1 r1] b1] rest1] eqn:Hrec.
        inversion Hrun; subst. apply IH in Hrec.
        destruct (no_meta_zone_usable b rest); [exact Hrec|].
        destruct Hrec as (Hs & k & zk & zk' & -> & Hrest).
        split; [exact Hs|]. exists (S k), zk, zk'.
        split; [f_equal; lia|exact Hrest].
      * destruct (IsEmpty z) eqn:Hempty; simpl in Hrun.
        -- inversion Hrun; subst. split; [reflexivity|].
           exists 0%nat, z, (set_busy z true).
           rewrite Nat.add_0_r. simpl. repeat split; auto; intros; congruence.
        -- unfold Zone_Reset in Hrun.
           change (start_ (set_busy z true)) with (start_ z) in Hrun.
           destruct (be_Reset b (start_ z)) as [b1 [[ios offline] mc]].
           destruct (ok ios) eqn:Hios; simpl in Hrun;
             rewrite ?Hios in Hrun; simpl in Hrun.
           ++ inversion Hrun; subst. simpl. split; [reflexivity|].
              eexists 0%nat, z, _.
              rewrite Nat.add_0_r. simpl.
              split; [reflexivity|]. split; [reflexivity|].
              split; [exact Hbusy|]. split; [exact Hused|].
              split; [reflexivity|].
              unfold IsUsed, IsEmpty in *.
              destruct offline; simpl; rewrite Z.eqb_refl;
                repeat split; auto; intros; congruence.
           ++ destruct (AllocateMetaZone_loop b1 rest (S idx))
                as [[[s1 r1] b2] rest1] eqn:Hrec.
              inversion Hrun; subst. apply IH in Hrec. simpl.
              destruct (no_meta_zone_usable b1 rest); [exact Hrec|].
              destruct Hrec as (Hs & k & zk & zk' & -> & Hrest).
              split; [exact Hs|]. exists (S k), zk, zk'.
              split; [f_equal; lia|exact Hrest].
Qed.

(** C8 (as amended). [AllocateMetaZone] returns [NoSpace] exactly when
    every meta zone is busy, used, or non-empty with a backend reset that
    fails; so it does when every meta zone is used. Otherwise it returns
    [OK] with a meta zone that was free and unused, now held and empty:
    taken as it was when it was empty, reset when it was not. *)
Theorem AllocateMetaZone_spec (d : ZonedBlockDevice B) s r d' :
  AllocateMetaZone d = (s, r, d') ->
  (s = NoSpace <-> no_meta_zone_usable (zbd_be_ d) (meta_zones d) = true) /\
  (Forall (fun z => IsUsed z = true) (meta_zones d) -> s = NoSpace) /\
  (s = NoSpace -> r = None) /\
  (s <> NoSpace ->
     s = OK /\
     exists i z z',
       r = Some i /\
       meta_zones d !! i = Some z /\ busy_ z = false /\ IsUsed z = false /\
       meta_zones d' !! i = Some z' /\ busy_ z' = true /\
       IsUsed z' = false /\ IsEmpty z' = true /\
       (IsEmpty z = true -> z' = set_busy z true) /\
       (IsEmpty z = false ->
          lifetime_ z' = WLTH_NOT_SET /\ wp_ z' = start_ z)).
Proof.
  intros Hrun. unfold AllocateMetaZone in Hrun.
  destruct (AllocateMetaZone_loop (zbd_be_ d) (meta_zones d) 0)
    as [[[s1 r1] b1] zs1] eqn:Hloop.
  inversion Hrun; subst. clear Hrun.
  pose proof (AllocateMetaZone_loop_spec _ _ _ _ _ _ _ Hloop) as Hspec.
  pose proof (all_used_no_meta_zone_usable (meta_zones d) (zbd_be_ d)) as Hused.
  destruct (no_meta_zone_usable (zbd_be_ d) (meta_zones d)).
  - destruct Hspec as [-> ->].
    repeat split; auto; try congruence.
  - destruct Hspec as (-> & k & z & z' & -> & Hrest).
    split; [split; discriminate|].
    split; [intros Hall; specialize (Hused Hall); discriminate|].
    split; [discriminate|].
    intros _. split; [reflexivity|]. exists k, z, z'. simpl.
    split; [reflexivity|exact Hrest].
Qed.

End MetaZoneFacts.

(** C8, counterexample. With its three meta zones handed out and still
    without data, the manager answers [NoSpace] although no meta zone is
    used. *)
Lemma AllocateMetaZone_NoSpace_with_unused_zones :
  ~ (forall (d : ZonedBlockDevice ScriptedBackend) s r d',
       AllocateMetaZone d = (s, r, d') ->
       (s = NoSpace <-> Forall (fun z => IsUsed z = true) (meta_zones d))).
Proof.
  intros Hall.
  destruct (Hall meta_held_device NoSpace None meta_held_device eq_refl)
    as [Hused _].
  specialize (Hused eq_refl). inversion Hused as [|z rest Hz _]; subst.
  discriminate Hz.
Qed.

Lemma AllocateMetaZone_spec_witness :
  exists d',
    AllocateMetaZone (fresh_device 8) = (OK, Some 0%nat, d') /\
    exists z', meta_zones d' !! 0%nat = Some z' /\ busy_ z' = true /\
               IsEmpty z' = true.
Proof.
  eexists. split; [reflexivity|].
  destruct (AllocateMetaZone_spec (fresh_device 8) _ _ _ eq_refl)
    as (_ & _ & _ & Hok).
  destruct (Hok ltac:(discriminate))
    as (_ & i & z & z' & Hi & _ & _ & _ & Hz' & Hb & _ & He & _).
  inversion Hi; subst i.
  exists z'. split; [exact Hz'|]. split; [exact Hb|exact He].
Defined.

(** ** The lifetime classes through maintenance *)

Section ClassFacts.
Context {B : Type} `{!ZonedBlockDeviceBackend B}.

Lemma level_index_Some (d : ZonedBlockDevice B) lifetime lvl :
  level_index d lifetime = Some lvl ->
  lifetime = Z.of_nat lvl + lifetime_begin_ d /\
  (lvl < diff_level_num_ d)%nat.
Proof.
  unfold level_index. intros Hl.
  destruct (Z.leb_spec 0 (lifetime - lifetime_begin_ d)); [|discriminate].
  destruct (Z.ltb_spec (lifetime - lifetime_begin_ d)
                       (Z.of_nat (diff_level_num_ d))); [|discriminate].
  inversion Hl; subst. lia.
Qed.

(** [buckets_bound] reads the buckets, the first lifetime class and the
    zones that are held. *)
Lemma buckets_bound_ext (d d' : ZonedBlockDevice B) :
  level_zones d' = level_zones d ->
  lifetime_begin_ d' = lifetime_begin_ d ->
  (forall i z, io_zones d !! i = Some z -> busy_ z = true ->
               io_zones d' !! i = Some z) ->
  buckets_bound d -> buckets_bound d'.
Proof.
  intros Hlz Hlb Hz Hbound lvl bucket i Hbucket Hi.
  rewrite Hlz in Hbucket.
  destruct (Hbound lvl bucket i Hbucket Hi) as (z & Hzi & Hbusy & Hlife).
  exists z. rewrite Hlb. auto.
Qed.

Lemma buckets_bound_store_free (d : ZonedBlockDevice B) b' i z z' :
  io_zones d !! i = Some z -> busy_ z = false ->
  buckets_bound d ->
  buckets_bound (store_io_zone (set_be d b') i z').
Proof.
  intros Hz Hfree. apply buckets_bound_ext; [reflexivity|reflexivity|].
  intros j zj Hj Hbusy. simpl.
  destruct (decide (i = j)) as [->|Hne]; [congruence|].
  rewrite list_lookup_insert_ne by exact Hne. exact Hj.
Qed.

Lemma EmitLevelZone_classes (emit_zone : nat) (d : ZonedBlockDevice B) r d' :
  EmitLevelZone emit_zone d = Returned r d' ->
  lifetime_begin_ d' = lifetime_begin_ d /\
  diff_level_num_ d' = diff_level_num_ d.
Proof.
  intros Hrun.
  destruct (io_zones d !! emit_zone) as [z|] eqn:Hz;
    [|unfold EmitLevelZone in Hrun; rewrite Hz in Hrun; discriminate].
  destruct (level_index d (lifetime_ z)) as [lvl|] eqn:Hlvl;
    [|unfold EmitLevelZone in Hrun; rewrite Hz, Hlvl in Hrun; discriminate].
  destruct (level_zones d !! lvl) as [bucket|] eqn:Hbucket;
    [|unfold EmitLevelZone in Hrun; rewrite Hz, Hlvl, Hbucket in Hrun;
      discriminate].
  rewrite (EmitLevelZone_unfold _ _ _ _ _ Hz Hlvl Hbucket) in Hrun.
  destruct (bool_decide _).
  - destruct (first_free_empty _) as [[a za]|]; [|discriminate].
    inversion Hrun; subst. auto.
  - inversion Hrun; subst. auto.
Qed.

Lemma EmitLevelZone_keeps_buckets_bound (emit_zone : nat) (d : ZonedBlockDevice B) r d' :
  EmitLevelZone emit_zone d = Returned r d' ->
  buckets_bound d -> buckets_bound d'.
Proof.
  intros Hrun Hbound.
  destruct (io_zones d !! emit_zone) as [z|] eqn:Hz;
    [|unfold EmitLevelZone in Hrun; rewrite Hz in Hrun; discriminate].
  destruct (level_index d (lifetime_ z)) as [lvl|] eqn:Hlvl;
    [|unfold EmitLevelZone in Hrun; rewrite Hz, Hlvl in Hrun; discriminate].
  destruct (level_zones d !! lvl) as [bucket|] eqn:Hbucket;
    [|unfold EmitLevelZone in Hrun; rewrite Hz, Hlvl, Hbucket in Hrun;
      discriminate].
  rewrite (EmitLevelZone_unfold _ _ _ _ _ Hz Hlvl Hbucket) in Hrun.
  apply level_index_Some in Hlvl as [Hlife Hlt].
  assert (lvl < length (level_zones d))%nat as Hlen
      by (eapply lookup_lt_Some; eauto).
  (* the zones indexed after the removal are held, of the right class, and
     none of them is the emitted zone *)
  assert (forall l b i,
            <[lvl := bucket ∖ {[emit_zone]}]> (level_zones d) !! l = Some b ->
            i ∈ b ->
            i <> emit_zone /\
            exists zi, io_zones d !! i = Some zi /\ busy_ zi = true /\
                       lifetime_ zi = Z.of_nat l + lifetime_begin_ d)
    as Hrest.
  { intros l b i Hl Hi.
    apply list_lookup_insert_Some in Hl as [(<- & <- & _)|(Hne & Hl)].
    - apply elem_of_difference in Hi as [Hi Hnot].
      split; [set_solver|]. exact (Hbound _ _ _ Hbucket Hi).
    - destruct (Hbound _ _ _ Hl Hi) as (zi & Hzi & Hbusy & Hli).
      split; [|eauto]. intros ->.
      rewrite Hz in Hzi. inversion Hzi; subst zi. lia. }
  destruct (bool_decide _) eqn:Hempty.
  - destruct (first_free_empty _) as [[a za]|] eqn:Hfind; [|discriminate].
    apply first_free_empty_Some in Hfind as (Hza & Hfree & _).
    simpl in Hza.
    inversion Hrun; subst. clear Hrun.
    intros l b i Hl Hi. simpl in Hl. simpl.
    rewrite list_insert_insert_eq in Hl.
    apply list_lookup_insert_Some in Hl as [(<- & <- & _)|(Hne & Hl)].
    + apply elem_of_singleton in Hi as ->.
      eexists. split.
      * apply list_lookup_insert_eq. eapply lookup_lt_Some; eauto.
      * simpl. split; [reflexivity|lia].
    + assert (<[lvl := bucket ∖ {[emit_zone]}]> (level_zones d) !! l = Some b)
        as Hl' by (rewrite list_lookup_insert_ne by exact Hne; exact Hl).
      destruct (Hrest l b i Hl' Hi) as (Hie & zi & Hzi & Hbusy & Hli).
      exists zi. split; [|auto].
      assert (i <> a) as Hia.
      { intros ->. rewrite list_lookup_insert_ne in Hza by auto.
        congruence. }
      rewrite !list_lookup_insert_ne by auto. exact Hzi.
  - inversion Hrun; subst. clear Hrun.
    intros l b i Hl Hi. simpl in Hl. simpl.
    destruct (Hrest l b i Hl Hi) as (Hie & zi & Hzi & Hbusy & Hli).
    exists zi. split; [|auto].
    rewrite list_lookup_insert_ne by auto. exact Hzi.
Qed.

End ClassFacts.

Section AllocatorFacts.
Context {B : Type} `{!ZonedBlockDeviceBackend B}.
Variable IsLevelZone : ZonedBlockDevice B -> nat -> bool.

Lemma kept_refl (d : ZonedBlockDevice B) : kept d d.
Proof. unfold kept. auto. Qed.

Lemma kept_trans (d1 d2 d3 : ZonedBlockDevice B) :
  kept d1 d2 -> kept d2 d3 -> kept d1 d3.
Proof. unfold kept. intros (-> & -> & H12) (-> & -> & H23). auto. Qed.

Lemma kept_store_free (d : ZonedBlockDevice B) b' i z z' :
  io_zones d !! i = Some z -> busy_ z = false ->
  kept d (store_io_zone (set_be d b') i z').
Proof.
  intros Hz Hfree. unfold kept. simpl.
  split; [reflexivity|]. split; [reflexivity|].
  apply (buckets_bound_store_free d b' i z z' Hz Hfree).
Qed.

Lemma kept_EmitLevelZone e (d : ZonedBlockDevice B) r d' :
  EmitLevelZone e d = Returned r d' -> kept d d'.
Proof.
  intros Hrun. destruct (EmitLevelZone_classes _ _ _ _ Hrun) as [Hb Hn].
  unfold kept. split; [exact Hb|]. split; [exact Hn|].
  apply (EmitLevelZone_keeps_buckets_bound _ _ _ _ Hrun).
Qed.

Lemma kept_PutActiveIOZoneToken (d : ZonedBlockDevice B) : kept d (PutActiveIOZoneToken d).
Proof.
  unfold kept. simpl. split; [reflexivity|]. split; [reflexivity|].
  apply buckets_bound_ext; auto.
Qed.

Lemma ResetUnusedIOZones_visit_kept i (d : ZonedBlockDevice B) r d' :
  ResetUnusedIOZones_visit IsLevelZone i d = Returned r d' -> kept d d'.
Proof.
  unfold ResetUnusedIOZones_visit. intros Hrun.
  destruct (io_zones d !! i) as [z|] eqn:Hz; [|discriminate].
  destruct (busy_ z) eqn:Hbusy.
  - rewrite (Acquire_busy z Hbusy) in Hrun.
    inversion Hrun; subst. apply kept_refl.
  - rewrite (Acquire_free z Hbusy) in Hrun.
    destruct (negb (IsEmpty (set_busy z true)) && negb (IsUsed (set_busy z true))).
    + destruct (Zone_Reset (zbd_be_ d) (set_busy z true)) as [[b1 z2] rs].
      destruct (CheckRelease z2) as [cs z3].
      pose proof (kept_store_free d b1 i z z3 Hz Hbusy) as Hk.
      destruct (negb (ok rs)); [inversion Hrun; subst; exact Hk|].
      destruct (negb (ok cs)); [inversion Hrun; subst; exact Hk|].
      destruct (negb (IsFull (set_busy z true)));
        [|inversion Hrun; subst; exact Hk].
      destruct (IsLevelZone _ i).
      * destruct (EmitLevelZone i _) as [r2 d2| | | |] eqn:Hemit;
          try discriminate.
        inversion Hrun; subst.
        eapply kept_trans; [exact Hk|].
        eapply kept_EmitLevelZone; exact Hemit.
      * inversion Hrun; subst.
        eapply kept_trans; [exact Hk|apply kept_PutActiveIOZoneToken].
    + destruct (CheckRelease (set_busy z true)) as [cs z2].
      assert (kept d (store_io_zone d i z2)) as Hk.
      { pose proof (kept_store_free d (zbd_be_ d) i z z2 Hz Hbusy) as Hk.
        destruct d; exact Hk. }
      destruct (negb (ok cs)); inversion Hrun; subst; exact Hk.
Qed.

Lemma ResetUnusedIOZones_loop_kept idxs :
  forall (d : ZonedBlockDevice B) s d',
    ResetUnusedIOZones_loop IsLevelZone idxs d = Returned s d' -> kept d d'.
Proof.
  induction idxs as [|i rest IH]; intros d s d' Hrun; simpl in Hrun.
  - inversion Hrun; subst. apply kept_refl.
  - destruct (ResetUnusedIOZones_visit IsLevelZone i d)
      as [[s1|] d1| | | |] eqn:Hvisit; try discriminate.
    + inversion Hrun; subst.
      eapply ResetUnusedIOZones_visit_kept; exact Hvisit.
    + eapply kept_trans.
      * eapply ResetUnusedIOZones_visit_kept; exact Hvisit.
      * eapply IH; exact Hrun.
Qed.

Lemma ApplyFinishThreshold_kept (d : ZonedBlockDevice B) s d' :
  ApplyFinishThreshold d = (s, d') -> kept d d'.
Proof.
  intros Hrun. unfold ApplyFinishThreshold in Hrun.
  destruct (finish_threshold_ d =? 0);
    [inversion Hrun; subst; apply kept_refl|].
  destruct (ApplyFinishThreshold_loop d (io_zones d)) as [[s1 d1] zs1] eqn:Hloop.
  inversion Hrun; subst. clear Hrun.
  apply ApplyFinishThreshold_loop_spec in Hloop as (Hd & Hany & _).
  unfold kept. rewrite Hd. simpl.
  split; [reflexivity|]. split; [reflexivity|].
  apply buckets_bound_ext; [reflexivity|reflexivity|].
  intros i z Hz Hbusy. simpl.
  destruct (Forall2_lookup_l _ _ _ _ _ Hany Hz) as (z' & Hz' & [->|[He _]]);
    [exact Hz'|].
  unfold finish_eligible in He. rewrite Hbusy in He. discriminate.
Qed.

Lemma find_idle_zone_Some (d : ZonedBlockDevice B) bucket a :
  find_idle_zone d bucket = Some a ->
  a ∈ bucket /\
  exists z, io_zones d !! a = Some z /\ useinlevelzone_ z = false.
Proof.
  unfold find_idle_zone. intros Hfind.
  apply List.find_some in Hfind as [Hin Hidle].
  split; [apply elem_of_elements, list_elem_of_In; exact Hin|].
  destruct (io_zones d !! a) as [z|]; [|discriminate].
  exists z. split; [reflexivity|]. apply negb_true_iff. exact Hidle.
Qed.




Lemma effective_lifetime_ext (d d' : ZonedBlockDevice B) file_lifetime file_id :
  lifetime_begin_ d' = lifetime_begin_ d ->
  effective_lifetime d' file_lifetime file_id =
  effective_lifetime d file_lifetime file_id.
Proof. unfold effective_lifetime. intros ->. reflexivity. Qed.


End AllocatorFacts.

(** ** The allocator on the seeded device *)

Lemma seeded_device_buckets_bound : buckets_bound seeded_device.
Proof.
  assert (level_zones seeded_device =
          [{[0%nat]}; {[1%nat]}; {[2%nat]}; {[3%nat]}; {[4%nat]}; {[5%nat]}])
    as Hlz by (vm_compute; reflexivity).
  intros lvl bucket i Hbucket Hi. rewrite Hlz in Hbucket.
  do 6 (destruct lvl as [|lvl];
        [inversion Hbucket; subst bucket; apply elem_of_singleton in Hi;
         subst i; eexists;
         split; [vm_compute; reflexivity|split; vm_compute; reflexivity]|]).
  inversion Hbucket.
Qed.


(** Scenario 3 of the specification: the WAL file goes to the lowest
    class. *)
Example WAL_goes_to_lowest_class :
  match AllocateIOZone IsLevelZone_bucket WLTH_NONE kWAL 5 seeded_device with
  | Returned (s, Some a) d' =>
      s = OK /\ (lifetime_ <$> io_zones d' !! a) = Some (lifetime_begin_ d')
  | _ => False
  end.
Proof. vm_compute. split; reflexivity. Qed.

(** A hint below the first class leaves every vector: class [SHORT] on a
    manager whose classes start at [MEDIUM]. *)
Example SHORT_hint_out_of_range :
  AllocateIOZone IsLevelZone_bucket WLTH_SHORT kWAL 9 seeded_device = Undefined.
Proof. reflexivity. Qed.

(** C6, counterexample. A zone that is empty and alone in its bucket is,
    once released, itself the first free empty zone: the call takes it
    again, and it ends held and in its bucket. *)
Lemma EmitLevelZone_takes_emitted_zone :
  ~ (forall (d : ZonedBlockDevice ScriptedBackend) (emit_zone : nat)
            (z : Zone) (lvl : nat) (r : bool) d',
       io_zones d !! emit_zone = Some z ->
       level_index d (lifetime_ z) = Some lvl ->
       EmitLevelZone emit_zone d = Returned r d' ->
       exists z' bucket',
         io_zones d' !! emit_zone = Some z' /\ busy_ z' = false /\
         level_zones d' !! lvl = Some bucket' /\ emit_zone ∉ bucket').
Proof.
  intros Hall.
  assert (io_zones seeded_device !! 0%nat =
          Some (mkZone true 12288 4096 12288 3 0 4096 false)) as Hz
      by (vm_compute; reflexivity).
  assert (level_index seeded_device 3 = Some 0%nat) as Hlvl
      by (vm_compute; reflexivity).
  assert (EmitLevelZone 0 seeded_device = Returned true seeded_device) as Hrun
      by (vm_compute; reflexivity).
  destruct (Hall seeded_device 0%nat _ 0%nat true seeded_device Hz Hlvl Hrun)
    as (z' & bucket' & Hz' & Hbusy & _).
  rewrite Hz in Hz'. injection Hz' as <-. discriminate Hbusy.
Qed.

Lemma EmitLevelZone_spec_witness :
  io_zones written_device !! 0%nat =
    Some (mkZone true 12288 4096 (12288 + 512) 3 0 3584 true) /\
  io_zones crowded_device !! 6%nat =
    Some (mkZone true 36864 4096 36864 3 0 4096 false) /\
  (exists d',
     EmitLevelZone 0 written_device = Returned true d' /\
     open_io_zones_ d' = 6 /\ active_io_zones_ d' = 6 /\
     level_zones d' !! 0%nat = Some {[6%nat]} /\
     io_zones d' !! 0%nat =
       Some (mkZone false 12288 4096 (12288 + 512) 3 0 3584 false)) /\
  (exists d' bucket',
     EmitLevelZone 6 crowded_device = Returned false d' /\
     open_io_zones_ d' = 6 /\ active_io_zones_ d' = 6 /\
     level_zones d' !! 0%nat = Some bucket' /\ (6%nat ∉ bucket') /\
     (0%nat ∈ bucket') /\
     io_zones d' !! 6%nat =
       Some (mkZone false 36864 4096 36864 3 0 4096 false)).
Proof.
  assert (io_zones written_device !! 0%nat =
          Some (mkZone true 12288 4096 (12288 + 512) 3 0 3584 true)) as Hz1
      by (vm_compute; reflexivity).
  assert (level_index written_device 3 = Some 0%nat) as Hlvl1
      by (vm_compute; reflexivity).
  assert (level_zones written_device !! 0%nat = Some {[0%nat]}) as Hbucket1
      by (vm_compute; reflexivity).
  assert (({[0%nat]} : gset nat) ∖ {[0%nat]} = ∅) as Hempty by set_solver.
  assert (io_zones crowded_device !! 6%nat =
          Some (mkZone true 36864 4096 36864 3 0 4096 false)) as Hz2
      by (vm_compute; reflexivity).
  assert (level_index crowded_device 3 = Some 0%nat) as Hlvl2
      by (vm_compute; reflexivity).
  assert (level_zones crowded_device !! 0%nat = Some {[0%nat; 6%nat]})
    as Hbucket2 by (vm_compute; reflexivity).
  assert (0%nat ∈ ({[0%nat; 6%nat]} : gset nat) ∖ {[6%nat]}) as Hin.
  { apply elem_of_difference. split.
    - apply elem_of_union_l, elem_of_singleton. reflexivity.
    - intros H6%elem_of_singleton. discriminate H6. }
  assert (({[0%nat; 6%nat]} : gset nat) ∖ {[6%nat]} <> ∅) as Hrest
      by (intros Hnone; rewrite Hnone in Hin; exact (not_elem_of_empty _ Hin)).
  split; [exact Hz1|]. split; [exact Hz2|]. split.
  - destruct (EmitLevelZone_spec 0 written_device _ Hz1) as (_ & Hcases & _).
    destruct (Hcases 0%nat {[0%nat]} Hlvl1 Hbucket1) as (_ & Hreplace).
    specialize (Hreplace Hempty).
    destruct (first_free_empty _) as [[a za]|] eqn:Hfind;
      [|vm_compute in Hfind; discriminate Hfind].
    assert (a = 6%nat) as ->
        by (vm_compute in Hfind; inversion Hfind; reflexivity).
    destruct Hreplace
      as (d' & Hrun & _ & _ & _ & _ & Hopen & Hactive & Hother & _).
    destruct (Hother ltac:(discriminate)) as (Hze & Hbk & _).
    exists d'. split; [exact Hrun|].
    split; [rewrite Hopen; vm_compute; reflexivity|].
    split; [rewrite Hactive; vm_compute; reflexivity|].
    split; [exact Hbk|exact Hze].
  - destruct (EmitLevelZone_spec 6 crowded_device _ Hz2) as (_ & Hcases & _).
    destruct (Hcases 0%nat {[0%nat; 6%nat]} Hlvl2 Hbucket2) as (Hdrop & _).
    destruct (Hdrop Hrest) as (Hrun & Hze & Hbk & Hout).
    eexists. exists ({[0%nat; 6%nat]} ∖ {[6%nat]}).
    split; [exact Hrun|].
    split; [vm_compute; reflexivity|]. split; [vm_compute; reflexivity|].
    split; [exact Hbk|]. split; [exact Hout|]. split; [exact Hin|exact Hze].
Defined.

(** With a second zone in the bucket the emitted zone is dropped and its
    tokens come back. *)
Example EmitLevelZone_returns_tokens :
  match AllocateIOZone IsLevelZone_bucket WLTH_NONE kWAL 7 seeded_device with
  | Returned _ d1 =>
      match AllocateIOZone IsLevelZone_bucket WLTH_NONE kWAL 7 d1 with
      | Returned (_, Some a) d2 =>
          match EmitLevelZone a d2 with
          | Returned r d3 =>
              r = false /\ open_io_zones_ d2 = 7 /\ open_io_zones_ d3 = 6 /\
              active_io_zones_ d2 = 7 /\ active_io_zones_ d3 = 6
          | _ => False
          end
      | _ => False
      end
  | _ => False
  end.
Proof. vm_compute. repeat split; reflexivity. Qed.

(** ** The finish threshold and the latch on concrete devices *)


Lemma SetZoneDeferredStatus_latch_witness :
  zone_deferred_status_ (fresh_device 8) = OK /\
  SetZoneDeferredStatus IOError (fresh_device 8) = fresh_device 8 /\
  GetZoneDeferredStatus (SetZoneDeferredStatus IOError (fresh_device 8)) = OK /\
  ok (zone_deferred_status_ (set_deferred (fresh_device 8) NoSpace)) = false /\
  zone_deferred_status_
    (SetZoneDeferredStatus IOError (set_deferred (fresh_device 8) NoSpace)) =
    IOError.
Proof.
  assert (Hok : zone_deferred_status_ (fresh_device 8) = OK) by reflexivity.
  assert (Hko : ok (zone_deferred_status_
                      (set_deferred (fresh_device 8) NoSpace)) = false)
    by reflexivity.
  destruct (SetZoneDeferredStatus_latch IsLevelZone_bucket IOError
              (fresh_device 8)) as [_ Hkeep].
  destruct (Hkeep Hok) as (Hsame & Hget & _).
  destruct (SetZoneDeferredStatus_latch IsLevelZone_bucket IOError
              (set_deferred (fresh_device 8) NoSpace)) as [Hstore _].
  split; [exact Hok|]. split; [exact Hsame|]. split; [exact Hget|].
  split; [exact Hko|exact (Hstore Hko)].
Defined.

(** ** Where the caps are kept *)

Section CapFacts.
Context {B : Type} `{!ZonedBlockDeviceBackend B}.

(** The token calls proper keep both counters within their caps; for the
    wait of a caller that is not prioritized the cap is at least one. *)
Lemma WaitForOpenIOZoneToken_keeps_caps prioritized (d : ZonedBlockDevice B) d' :
  (prioritized = false -> 1 <= max_nr_open_io_zones_ d) ->
  counters_within_caps d ->
  WaitForOpenIOZoneToken prioritized d [] = Returned tt d' ->
  counters_within_caps d'.
Proof.
  unfold counters_within_caps, WaitForOpenIOZoneToken, allocator_open_limit.
  simpl. unfold WaitForOpenIOZoneToken_pred. intros Hcap [Hopen Hactive] Hrun.
  destruct prioritized;
    match type of Hrun with
    | context [?x <? ?y] => destruct (Z.ltb_spec x y); [|discriminate]
    end;
    inversion Hrun; subst; simpl; [lia|].
  specialize (Hcap eq_refl). unfold u32 in *. lia.
Qed.

Lemma GetActiveIOZoneTokenIfAvailable_keeps_caps (d : ZonedBlockDevice B) :
  counters_within_caps d ->
  counters_within_caps (GetActiveIOZoneTokenIfAvailable d).2.
Proof.
  unfold counters_within_caps, GetActiveIOZoneTokenIfAvailable.
  intros [Hopen Hactive].
  destruct (Z.ltb_spec (active_io_zones_ d) (max_nr_active_io_zones_ d));
    simpl; lia.
Qed.

Lemma Put_tokens_keep_caps (d : ZonedBlockDevice B) :
  counters_within_caps d ->
  counters_within_caps (PutOpenIOZoneToken d) /\
  counters_within_caps (PutActiveIOZoneToken d).
Proof. unfold counters_within_caps. simpl. lia. Qed.

Lemma EmitLevelZone_keeps_caps e (d : ZonedBlockDevice B) r d' :
  counters_within_caps d ->
  EmitLevelZone e d = Returned r d' ->
  counters_within_caps d'.
Proof.
  intros Hcaps Hrun.
  destruct (io_zones d !! e) as [z|] eqn:Hz;
    [|unfold EmitLevelZone in Hrun; rewrite Hz in Hrun; discriminate].
  destruct (level_index d (lifetime_ z)) as [lvl|] eqn:Hlvl;
    [|unfold EmitLevelZone in Hrun; rewrite Hz, Hlvl in Hrun; discriminate].
  destruct (level_zones d !! lvl) as [bucket|] eqn:Hbucket;
    [|unfold EmitLevelZone in Hrun; rewrite Hz, Hlvl, Hbucket in Hrun;
      discriminate].
  rewrite (EmitLevelZone_unfold _ _ _ _ _ Hz Hlvl Hbucket) in Hrun.
  unfold counters_within_caps in *.
  destruct (bool_decide _).
  - destruct (first_free_empty _) as [[a za]|]; [|discriminate].
    inversion Hrun; subst. simpl. exact Hcaps.
  - inversion Hrun; subst. simpl. lia.
Qed.

(** The allocator keeps the open counter within its cap: it opens a zone
    only below the cap. The active counter has no such guard. *)
Lemma AllocateIOZone_level_keeps_open_cap file_lifetime file_id (d : ZonedBlockDevice B) r d' :
  open_io_zones_ d <= max_nr_open_io_zones_ d ->
  AllocateIOZone_level file_lifetime file_id d = Returned r d' ->
  open_io_zones_ d' <= max_nr_open_io_zones_ d'.
Proof.
  unfold AllocateIOZone_level. intros Hopen Hrun.
  destruct (level_index d _) as [level|]; [|discriminate].
  destruct (level_active_io_zones_ d !! level) as [idle|] eqn:Hidle;
    [|discriminate].
  simpl in Hrun. unfold AllocateIOZone_pred in Hrun. rewrite Hidle in Hrun.
  destruct ((0 <? idle) || (open_io_zones_ d <? max_nr_open_io_zones_ d))
    eqn:Hgo; [|discriminate].
  unfold AllocateIOZone_take in Hrun. rewrite Hidle in Hrun.
  destruct (level_zones d !! level) as [bucket|]; [|discriminate].
  destruct (0 <? idle) eqn:Hpos.
  - destruct (find_idle_zone _ bucket) as [a|]; [|discriminate].
    destruct (io_zones _ !! a) as [z|]; [|discriminate].
    inversion Hrun; subst. simpl. exact Hopen.
  - simpl in Hgo. apply Z.ltb_lt in Hgo.
    rewrite AllocateEmptyZone_spec in Hrun.
    destruct (first_free_empty _) as [[a za]|]; [|discriminate].
    simpl in Hrun.
    destruct (<[a := set_busy za true]> (io_zones d) !! a) as [z|];
      [|discriminate].
    destruct (level_zones d !! level) as [bucket3|]; [|discriminate].
    destruct (_ !! a) as [z5|]; [|discriminate].
    inversion Hrun; subst. simpl. lia.
Qed.

End CapFacts.

(** C1. The counters do leave their caps. With caps of 4,
    [InitialLevelZones] returns with six open and six active tokens
    charged. With caps of 8, once the six buckets are seeded and two more
    zones are open, a returned open token lets [AllocateIOZone] open
    another zone: it returns [OK] with that zone and a ninth active token
    charged. *)
Theorem counters_exceed_caps :
  counters_within_caps (fresh_device 4) /\
  (exists d',
     InitialLevelZones (fresh_device 4) = Returned tt d' /\
     run_ops IsLevelZone_bucket [OpInitialLevelZones] (fresh_device 4) = Some d' /\
     open_io_zones_ d' = 6 /\ max_nr_open_io_zones_ d' = 4 /\
     active_io_zones_ d' = 6 /\ max_nr_active_io_zones_ d' = 4 /\
     ~ counters_within_caps d') /\
  counters_within_caps (fresh_device 8) /\
  (exists d1 d',
     run_ops IsLevelZone_bucket
       [OpInitialLevelZones;
        OpAllocateIOZone WLTH_NONE kFlush 7;
        OpAllocateIOZone WLTH_NONE kFlush 8;
        OpAllocateIOZone WLTH_NONE kFlush 9;
        OpPutOpenIOZoneToken]
       (fresh_device 8) = Some d1 /\
     counters_within_caps d1 /\
     AllocateIOZone IsLevelZone_bucket WLTH_NONE kFlush 10 d1 =
       Returned (OK, Some 8%nat) d' /\
     run_op IsLevelZone_bucket (OpAllocateIOZone WLTH_NONE kFlush 10) d1 =
       Some d' /\
     open_io_zones_ d' = 8 /\ max_nr_open_io_zones_ d' = 8 /\
     active_io_zones_ d' = 9 /\ max_nr_active_io_zones_ d' = 8 /\
     ~ counters_within_caps d').
Proof.
  split; [unfold counters_within_caps; simpl; lia|].
  split.
  { eexists. split; [vm_compute; reflexivity|].
    split; [vm_compute; reflexivity|].
    unfold counters_within_caps. simpl. repeat split; lia. }
  split; [unfold counters_within_caps; simpl; lia|].
  eexists. eexists. split; [vm_compute; reflexivity|].
  split; [unfold counters_within_caps; simpl; lia|].
  split; [vm_compute; reflexivity|].
  split; [vm_compute; reflexivity|].
  unfold counters_within_caps. simpl. repeat split; lia.
Qed.

(** ** GetLifeTimeDiff *)

(** X1. [GetLifeTimeDiff]: for a file hint the function accepts
    ([file_lifetime <= WLTH_EXTREME]) the score is 0 exactly when the zone
    has the lifetime of the file; a score below [LIFETIME_DIFF_NOT_GOOD]
    is only given to a zone that lives at least as long as the file; and
    for a hint from [WLTH_SHORT] on, a zone that lives longer scores the
    distance. *)
Theorem GetLifeTimeDiff_spec (zone_lifetime file_lifetime : Z) :
  0 <= file_lifetime <= WLTH_EXTREME ->
  0 <= zone_lifetime < 2 ^ 31 ->
  (GetLifeTimeDiff zone_lifetime file_lifetime = 0 <->
     zone_lifetime = file_lifetime) /\
  (GetLifeTimeDiff zone_lifetime file_lifetime < LIFETIME_DIFF_NOT_GOOD ->
     file_lifetime <= zone_lifetime) /\
  (zone_lifetime < file_lifetime ->
     GetLifeTimeDiff zone_lifetime file_lifetime = LIFETIME_DIFF_NOT_GOOD) /\
  (WLTH_SHORT <= file_lifetime -> file_lifetime <= zone_lifetime ->
     GetLifeTimeDiff zone_lifetime file_lifetime =
       zone_lifetime - file_lifetime) /\
  (file_lifetime < WLTH_SHORT -> zone_lifetime <> file_lifetime ->
     GetLifeTimeDiff zone_lifetime file_lifetime = LIFETIME_DIFF_NOT_GOOD).
Proof.
  unfold GetLifeTimeDiff, WLTH_EXTREME, WLTH_NOT_SET, WLTH_NONE, WLTH_SHORT,
    LIFETIME_DIFF_NOT_GOOD, u32.
  intros Hfile Hzone.
  destruct (Z.eqb_spec file_lifetime 0), (Z.eqb_spec file_lifetime 1),
    (Z.eqb_spec file_lifetime zone_lifetime),
    (Z.eqb_spec zone_lifetime file_lifetime),
    (Z.ltb_spec file_lifetime zone_lifetime); simpl;
    try (exfalso; lia);
    repeat split; intros; try lia.
Qed.

Lemma GetLifeTimeDiff_spec_witness :
  GetLifeTimeDiff WLTH_LONG WLTH_MEDIUM = 1 /\
  GetLifeTimeDiff WLTH_MEDIUM WLTH_LONG = LIFETIME_DIFF_NOT_GOOD.
Proof.
  pose proof (GetLifeTimeDiff_spec WLTH_LONG WLTH_MEDIUM
                ltac:(unfold WLTH_MEDIUM, WLTH_EXTREME; lia)
                ltac:(unfold WLTH_LONG; lia)) as (_ & _ & _ & Hdist & _).
  split.
  - rewrite Hdist; [reflexivity| |]; unfold WLTH_SHORT, WLTH_MEDIUM, WLTH_LONG; lia.
  - reflexivity.
Defined.

(** ** GetIOZone *)

Section LookupFacts.
Context {B : Type} `{!ZonedBlockDeviceBackend B}.

Lemma zone_contains_test zone_size z offset :
  (start_ z <=? offset) && (offset <? u64 (start_ z + zone_size)) = true <->
  zone_contains zone_size z offset.
Proof.
  unfold zone_contains. rewrite andb_true_iff, Z.leb_le, Z.ltb_lt. tauto.
Qed.

Lemma GetIOZone_scan_spec zone_size offset (zs : list Zone) :
  forall idx : nat,
    match GetIOZone_scan zone_size offset zs idx with
    | Some i =>
        exists k z, i = (idx + k)%nat /\ zs !! k = Some z /\
          zone_contains zone_size z offset /\
          forall j zj, (j < k)%nat -> zs !! j = Some zj ->
                       ~ zone_contains zone_size zj offset
    | None =>
        forall j zj, zs !! j = Some zj -> ~ zone_contains zone_size zj offset
    end.
Proof.
  induction zs as [|z rest IH]; intros idx; simpl.
  - intros j zj Hj. rewrite lookup_nil in Hj. discriminate.
  - destruct ((start_ z <=? offset) && (offset <? u64 (start_ z + zone_size)))
      eqn:Htest.
    + exists 0%nat, z. split; [lia|]. split; [reflexivity|].
      split; [apply zone_contains_test; exact Htest|]. intros; lia.
    + assert (~ zone_contains zone_size z offset) as Hnot.
      { intros Hc. apply zone_contains_test in Hc. congruence. }
      specialize (IH (S idx)).
      destruct (GetIOZone_scan zone_size offset rest (S idx)) as [i|].
      * destruct IH as (k & zk & -> & Hk & Hc & Hfirst).
        exists (S k), zk. split; [lia|]. split; [exact Hk|].
        split; [exact Hc|]. intros [|j] zj Hlt Hj; simpl in Hj.
        -- inversion Hj; subst. exact Hnot.
        -- apply (Hfirst j); [lia|exact Hj].
      * intros [|j] zj Hj; simpl in Hj.
        -- inversion Hj; subst. exact Hnot.
        -- apply (IH j); exact Hj.
Qed.

(** X2. [GetIOZone] returns the first I/O zone whose address range holds
    the offset, and no zone only if no range holds it. When the ranges of
    the zones do not overlap, it returns the one zone that holds the
    offset. *)
Theorem GetIOZone_spec (offset : Z) (d : ZonedBlockDevice B) :
  let zone_size := be_GetZoneSize (zbd_be_ d) in
  (forall i, GetIOZone offset d = Some i ->
     exists z, io_zones d !! i = Some z /\
       zone_contains zone_size z offset /\
       forall j zj, (j < i)%nat -> io_zones d !! j = Some zj ->
                    ~ zone_contains zone_size zj offset) /\
  (GetIOZone offset d = None <->
     forall j zj, io_zones d !! j = Some zj ->
                  ~ zone_contains zone_size zj offset) /\
  (zones_disjoint zone_size (io_zones d) ->
   forall i z, io_zones d !! i = Some z ->
     zone_contains zone_size z offset ->
     GetIOZone offset d = Some i).
Proof.
  intros zone_size. unfold GetIOZone. fold zone_size.
  pose proof (GetIOZone_scan_spec zone_size offset (io_zones d) 0) as Hscan.
  destruct (GetIOZone_scan zone_size offset (io_zones d) 0) as [r|].
  - destruct Hscan as (k & zk & -> & Hk & Hc & Hfirst). simpl in *.
    split; [|split].
    + intros i Hi. inversion Hi; subst. eauto.
    + split; [discriminate|]. intros Hnone. exfalso. exact (Hnone _ _ Hk Hc).
    + intros Hdisj i z Hi Hci. f_equal.
      exact (Hdisj _ _ _ _ _ Hk Hi Hc Hci).
  - split; [|split].
    + discriminate.
    + split; [intros _; exact Hscan|reflexivity].
    + intros _ i z Hi Hc. exfalso. exact (Hscan _ _ Hi Hc).
Qed.

End LookupFacts.

(** ** FinishCheapestIOZone *)

Section CheapestFacts.
Context {B : Type} `{!ZonedBlockDeviceBackend B}.

Lemma insert_at_end {A : Type} (l : list A) (x y : A) :
  <[length l := x]> (l ++ [y]) = l ++ [x].
Proof.
  replace (length l) with (length l + 0)%nat by lia.
  rewrite insert_app_r. reflexivity.
Qed.

Lemma lookup_snoc_Some {A : Type} (l : list A) (y : A) (j : nat) (x : A) :
  (l ++ [y]) !! j = Some x ->
  l !! j = Some x \/ (j = length l /\ x = y).
Proof.
  intros Hj. apply lookup_app_Some in Hj as [Hj|[Hge Hj]]; [auto|].
  right. destruct (j - length l)%nat as [|k] eqn:Hk; simpl in Hj.
  - inversion Hj; subst. split; [lia|reflexivity].
  - rewrite lookup_nil in Hj. discriminate.
Qed.

(** The victim stays when the next zone is no candidate or is not
    cheaper. *)
Lemma victim_so_far_keep orig done victim z :
  victim_so_far orig done victim ->
  (finish_candidate z = false \/
   exists v zv, victim = Some v /\ orig !! v = Some zv /\
                capacity_ zv <= capacity_ z) ->
  victim_so_far (orig ++ [z]) (done ++ [z]) victim.
Proof.
  intros Hinv Hz. destruct victim as [v|]; simpl in *.
  - destruct Hinv as (zv & (Hv & Hcand & Hmin) & ->).
    assert (v < length orig)%nat as Hlt by (eapply lookup_lt_Some; eauto).
    exists zv. split; [|rewrite insert_app_l by exact Hlt; reflexivity].
    split; [rewrite lookup_app_l by exact Hlt; exact Hv|].
    split; [exact Hcand|].
    intros j zj Hj Hcj.
    apply lookup_snoc_Some in Hj as [Hj|[-> ->]]; [exact (Hmin _ _ Hj Hcj)|].
    destruct Hz as [Hz|(v' & zv' & Heq & Hlook & Hle)]; [congruence|].
    inversion Heq; subst v'. rewrite Hv in Hlook. inversion Hlook; subst zv'.
    split; [lia|lia].
  - destruct Hinv as (-> & Hnone). split; [reflexivity|].
    intros j zj Hj.
    apply lookup_snoc_Some in Hj as [Hj|[-> ->]]; [exact (Hnone _ _ Hj)|].
    destruct Hz as [Hz|(v' & zv' & Heq & _)]; [exact Hz|discriminate].
Qed.

(** The zone at hand becomes the victim: the first candidate, or a
    candidate cheaper than the victim, which is released. *)
Lemma victim_so_far_take orig z :
  finish_candidate z = true ->
  (forall j zj, orig !! j = Some zj -> finish_candidate zj = true ->
                capacity_ z < capacity_ zj) ->
  victim_so_far (orig ++ [z]) (orig ++ [set_busy z true]) (Some (length orig)).
Proof.
  intros Hcand Hless. exists z. split; [|rewrite insert_at_end; reflexivity].
  split; [apply list_lookup_middle; reflexivity|].
  split; [exact Hcand|].
  intros j zj Hj Hcj.
  apply lookup_snoc_Some in Hj as [Hj|[-> ->]].
  - specialize (Hless _ _ Hj Hcj). lia.
  - lia.
Qed.

Lemma finish_candidate_held z :
  busy_ z = false ->
  IsEmpty (set_busy z true) || IsFull (set_busy z true) =
    negb (finish_candidate z).
Proof.
  intros Hfree. unfold finish_candidate, IsEmpty, IsFull. rewrite Hfree.
  simpl. rewrite negb_involutive. reflexivity.
Qed.

Lemma FinishCheapestIOZone_scan_spec (todo : list Zone) :
  forall (orig done : list Zone) (victim : option nat),
    victim_so_far orig done victim ->
    exists done' victim',
      FinishCheapestIOZone_scan todo done victim = Some (OK, done', victim') /\
      victim_so_far (orig ++ todo) done' victim'.
Proof.
  induction todo as [|z rest IH]; intros orig done victim Hinv.
  - exists done, victim. rewrite app_nil_r. split; [reflexivity|exact Hinv].
  - replace (orig ++ z :: rest) with ((orig ++ [z]) ++ rest)
      by (rewrite <- app_assoc; reflexivity).
    cbn [FinishCheapestIOZone_scan].
    destruct (busy_ z) eqn:Hbusy.
    + rewrite (Acquire_busy _ Hbusy). apply IH.
      apply victim_so_far_keep; [exact Hinv|]. left.
      unfold finish_candidate. rewrite Hbusy. reflexivity.
    + rewrite (Acquire_free _ Hbusy).
      rewrite (finish_candidate_held _ Hbusy).
      destruct (finish_candidate z) eqn:Hcand; cbn [negb].
      * destruct victim as [v|].
        -- destruct Hinv as (zv & (Hv & Hcv & Hmin) & ->).
           assert (v < length orig)%nat as Hlt by (eapply lookup_lt_Some; eauto).
           assert (busy_ zv = false) as Hfree.
           { unfold finish_candidate in Hcv. destruct (busy_ zv); [discriminate|reflexivity]. }
           rewrite list_lookup_insert_eq by exact Hlt.
           change (capacity_ (set_busy z true)) with (capacity_ z).
           change (capacity_ (set_busy zv true)) with (capacity_ zv).
           destruct (Z.ltb_spec (capacity_ z) (capacity_ zv)) as [Hless|Hge].
           ++ rewrite (CheckRelease_busy (set_busy zv true)) by reflexivity.
              cbn [ok negb]. rewrite (release_after_acquire _ Hfree).
              rewrite list_insert_insert_eq, (list_insert_id _ _ _ Hv).
              rewrite length_insert. apply IH.
              apply victim_so_far_take; [exact Hcand|].
              intros j zj Hj Hcj. specialize (Hmin _ _ Hj Hcj). lia.
           ++ rewrite (CheckRelease_busy (set_busy z true)) by reflexivity.
              cbn [ok negb]. rewrite (release_after_acquire _ Hbusy).
              apply IH. apply victim_so_far_keep.
              ** exists zv. split; [|reflexivity]. split; [exact Hv|]. split; [exact Hcv|exact Hmin].
              ** right. exists v, zv. auto.
        -- destruct Hinv as (-> & Hnone). apply IH.
           apply victim_so_far_take; [exact Hcand|].
           intros j zj Hj Hcj. rewrite (Hnone _ _ Hj) in Hcj. discriminate.
      * rewrite (CheckRelease_busy (set_busy z true)) by reflexivity.
        cbn [ok negb]. rewrite (release_after_acquire _ Hbusy).
        apply IH. apply victim_so_far_keep; [exact Hinv|]. left. exact Hcand.
Qed.

Lemma set_io_zones_same (d : ZonedBlockDevice B) : set_io_zones d (io_zones d) = d.
Proof. destruct d; reflexivity. Qed.

Lemma FinishCheapestIOZone_cases (d : ZonedBlockDevice B) :
  ((forall j zj, io_zones d !! j = Some zj -> finish_candidate zj = false) /\
   FinishCheapestIOZone d = Returned OK d) \/
  (exists v zv b' ios,
     cheapest (io_zones d) v zv /\
     be_Finish (zbd_be_ d) (start_ zv) = (b', ios) /\
     if ok ios then
       exists z',
         FinishCheapestIOZone d =
           Returned OK
             (PutActiveIOZoneToken (store_io_zone (set_be d b') v z')) /\
         finished zv z' /\ busy_ z' = false /\
         wp_ z' = u64 (start_ zv + be_GetZoneSize b')
     else FinishCheapestIOZone d = Exited (set_be d b')).
Proof.
  destruct (FinishCheapestIOZone_scan_spec (io_zones d) [] [] None)
    as (done' & victim' & Hscan & Hinv).
  { split; [reflexivity|]. intros j zj Hj. rewrite lookup_nil in Hj. discriminate. }
  simpl in Hinv. unfold FinishCheapestIOZone. rewrite Hscan. cbn [ok negb].
  destruct victim' as [v|]; simpl in Hinv.
  - right. destruct Hinv as (zv & Hcheap & ->).
    destruct (be_Finish (zbd_be_ d) (start_ zv)) as [b' ios] eqn:Hfin.
    exists v, zv, b', ios. split; [exact Hcheap|]. split; [exact Hfin|].
    destruct Hcheap as (Hv & Hcand & _).
    assert (v < length (io_zones d))%nat as Hlt by (eapply lookup_lt_Some; eauto).
    assert (busy_ zv = false) as Hfree.
    { unfold finish_candidate in Hcand. destruct (busy_ zv); [discriminate|reflexivity]. }
    cbn [io_zones set_io_zones zbd_be_]. rewrite list_lookup_insert_eq by exact Hlt.
    unfold Zone_Finish. change (start_ (set_busy zv true)) with (start_ zv).
    rewrite Hfin. destruct (ok ios) eqn:Hok; cbn [negb].
    + eexists. split.
      * rewrite CheckRelease_busy by reflexivity. cbn [ok negb].
        unfold store_io_zone. cbn [io_zones set_io_zones set_be].
        rewrite list_insert_insert_eq. reflexivity.
      * split; [apply finished_after_release; exact Hfree|].
        split; reflexivity.
    + rewrite CheckRelease_busy by reflexivity.
      unfold store_io_zone. cbn [io_zones set_io_zones set_be].
      rewrite list_insert_insert_eq, (release_after_acquire _ Hfree).
      rewrite (list_insert_id _ _ _ Hv), Hok. destruct d; reflexivity.
  - left. destruct Hinv as (-> & Hnone). split; [exact Hnone|].
    rewrite set_io_zones_same. reflexivity.
Qed.

(** X3. [FinishCheapestIOZone]. If no I/O zone is free, written to and
    not full, the call returns [OK] and changes nothing. Otherwise it
    picks the first of these zones with the least capacity left and
    finishes it: when the device finishes the zone the call returns [OK],
    the zone is finished and free again, one active token is returned and
    nothing else changes; when the device refuses, the process exits with
    every zone as it was. *)
Theorem FinishCheapestIOZone_spec (d : ZonedBlockDevice B) :
  ((forall j zj, io_zones d !! j = Some zj -> finish_candidate zj = false) /\
   FinishCheapestIOZone d = Returned OK d) \/
  (exists v zv b' ios,
     cheapest (io_zones d) v zv /\
     be_Finish (zbd_be_ d) (start_ zv) = (b', ios) /\
     if ok ios then
       exists z',
         FinishCheapestIOZone d =
           Returned OK
             (PutActiveIOZoneToken (store_io_zone (set_be d b') v z')) /\
         finished zv z' /\ busy_ z' = false /\
         wp_ z' = u64 (start_ zv + be_GetZoneSize b')
     else FinishCheapestIOZone d = Exited (set_be d b')).
Proof. exact (FinishCheapestIOZone_cases d). Qed.

End CheapestFacts.

(** ** GetBestOpenZoneMatch *)

Section MatchFacts.
Context {B : Type} `{!ZonedBlockDeviceBackend B}.

Lemma match_so_far_keep file_lifetime min_capacity orig done best alloc z :
  match_so_far file_lifetime min_capacity orig done best alloc ->
  (match_candidate file_lifetime min_capacity z = false \/
   exists a za, alloc = Some a /\ orig !! a = Some za /\
                GetLifeTimeDiff (lifetime_ za) file_lifetime
                  < GetLifeTimeDiff (lifetime_ z) file_lifetime) ->
  match_so_far file_lifetime min_capacity (orig ++ [z]) (done ++ [z]) best alloc.
Proof.
  intros Hinv Hz. destruct alloc as [a|]; simpl in *.
  - destruct Hinv as (za & (Ha & Hcand & Hmin) & -> & ->).
    assert (a < length orig)%nat as Hlt by (eapply lookup_lt_Some; eauto).
    exists za. split; [|split; [reflexivity|]].
    + split; [rewrite lookup_app_l by exact Hlt; exact Ha|].
      split; [exact Hcand|].
      intros j zj Hj Hcj.
      apply lookup_snoc_Some in Hj as [Hj|[-> ->]]; [exact (Hmin _ _ Hj Hcj)|].
      destruct Hz as [Hz|(a' & za' & Heq & Hlook & Hless)]; [congruence|].
      inversion Heq; subst a'. rewrite Ha in Hlook. inversion Hlook; subst za'.
      split; [lia|intros _; exact Hless].
    + rewrite insert_app_l by exact Hlt. reflexivity.
  - destruct Hinv as (-> & -> & Hnone). split; [reflexivity|].
    split; [reflexivity|]. intros j zj Hj.
    apply lookup_snoc_Some in Hj as [Hj|[-> ->]]; [exact (Hnone _ _ Hj)|].
    destruct Hz as [Hz|(a' & za' & Heq & _)]; [exact Hz|discriminate].
Qed.

Lemma match_so_far_take file_lifetime min_capacity orig z :
  match_candidate file_lifetime min_capacity z = true ->
  (forall j zj, orig !! j = Some zj ->
                match_candidate file_lifetime min_capacity zj = true ->
                GetLifeTimeDiff (lifetime_ z) file_lifetime
                  <= GetLifeTimeDiff (lifetime_ zj) file_lifetime) ->
  match_so_far file_lifetime min_capacity (orig ++ [z])
    (orig ++ [set_busy z true])
    (GetLifeTimeDiff (lifetime_ z) file_lifetime) (Some (length orig)).
Proof.
  intros Hcand Hle. exists z. split; [|split; [reflexivity|]].
  - split; [apply list_lookup_middle; reflexivity|].
    split; [exact Hcand|].
    intros j zj Hj Hcj.
    apply lookup_snoc_Some in Hj as [Hj|[-> ->]].
    + split; [exact (Hle _ _ Hj Hcj)|].
      intros Hlt. apply lookup_lt_Some in Hj. lia.
    + split; [lia|lia].
  - rewrite insert_at_end. reflexivity.
Qed.

Lemma match_candidate_held file_lifetime min_capacity z :
  busy_ z = false ->
  match_candidate file_lifetime min_capacity z =
    (0 <? used_capacity_ (set_busy z true))
    && negb (IsFull (set_busy z true))
    && (min_capacity <=? capacity_ (set_busy z true))
    && (GetLifeTimeDiff (lifetime_ (set_busy z true)) file_lifetime
          <=? LIFETIME_DIFF_NOT_GOOD).
Proof.
  intros Hfree. unfold match_candidate. rewrite Hfree. reflexivity.
Qed.

Lemma GetBestOpenZoneMatch_scan_spec file_lifetime min_capacity
      (todo : list Zone) :
  forall (orig done : list Zone) (best : Z) (alloc : option nat),
    match_so_far file_lifetime min_capacity orig done best alloc ->
    exists done' best' alloc',
      GetBestOpenZoneMatch_scan file_lifetime min_capacity todo done best alloc
        = Some (OK, done', best', alloc') /\
      match_so_far file_lifetime min_capacity (orig ++ todo) done' best' alloc'.
Proof.
  induction todo as [|z rest IH]; intros orig done best alloc Hinv.
  - exists done, best, alloc. rewrite app_nil_r. split; [reflexivity|exact Hinv].
  - replace (orig ++ z :: rest) with ((orig ++ [z]) ++ rest)
      by (rewrite <- app_assoc; reflexivity).
    cbn [GetBestOpenZoneMatch_scan].
    destruct (busy_ z) eqn:Hbusy.
    { rewrite (Acquire_busy _ Hbusy). apply IH.
      apply match_so_far_keep; [exact Hinv|]. left.
      unfold match_candidate. rewrite Hbusy. reflexivity. }
    rewrite (Acquire_free _ Hbusy).
    pose proof (match_candidate_held file_lifetime min_capacity z Hbusy) as Hcand.
    destruct ((0 <? used_capacity_ (set_busy z true))
              && negb (IsFull (set_busy z true))
              && (min_capacity <=? capacity_ (set_busy z true))) eqn:Helig.
    2:{ rewrite (CheckRelease_busy (set_busy z true)) by reflexivity.
        cbn [ok negb]. rewrite (release_after_acquire _ Hbusy).
        apply IH. apply match_so_far_keep; [exact Hinv|]. left. exact Hcand. }
    cbn [andb] in Hcand.
    change (lifetime_ (set_busy z true)) with (lifetime_ z) in *.
    destruct (Z.leb_spec (GetLifeTimeDiff (lifetime_ z) file_lifetime) best)
      as [Hle|Hgt].
    + destruct alloc as [a|].
      * destruct Hinv as (za & (Ha & Hca & Hmin) & -> & ->).
        assert (a < length orig)%nat as Hlt by (eapply lookup_lt_Some; eauto).
        assert (busy_ za = false) as Hfree.
        { unfold match_candidate in Hca. destruct (busy_ za); [discriminate|reflexivity]. }
        assert (GetLifeTimeDiff (lifetime_ za) file_lifetime
                  <= LIFETIME_DIFF_NOT_GOOD) as Hgood.
        { unfold match_candidate in Hca.
          apply andb_true_iff in Hca as [_ Hca]. apply Z.leb_le. exact Hca. }
        rewrite list_lookup_insert_eq by exact Hlt.
        rewrite (CheckRelease_busy (set_busy za true)) by reflexivity.
        cbn [ok negb]. rewrite (release_after_acquire _ Hfree).
        rewrite list_insert_insert_eq, (list_insert_id _ _ _ Ha).
        rewrite length_insert. apply IH.
        apply match_so_far_take.
        -- rewrite Hcand. apply Z.leb_le. lia.
        -- intros j zj Hj Hcj. specialize (Hmin _ _ Hj Hcj). lia.
      * destruct Hinv as (-> & -> & Hnone). apply IH.
        apply match_so_far_take.
        -- rewrite Hcand. apply Z.leb_le. exact Hle.
        -- intros j zj Hj Hcj. rewrite (Hnone _ _ Hj) in Hcj. discriminate.
    + rewrite (CheckRelease_busy (set_busy z true)) by reflexivity.
      cbn [ok negb]. rewrite (release_after_acquire _ Hbusy).
      apply IH. apply match_so_far_keep; [exact Hinv|].
      destruct alloc as [a|].
      * destruct Hinv as (za & (Ha & _) & -> & _). right. exists a, za. auto.
      * destruct Hinv as (_ & -> & _). left. rewrite Hcand.
        apply Z.leb_gt. exact Hgt.
Qed.

(** X4. [GetBestOpenZoneMatch] always returns [OK] with both outputs
    written. A zone can be returned if nobody holds it, it holds live
    data, it is not full, it has [min_capacity] bytes left and
    [GetLifeTimeDiff] scores it at most [LIFETIME_DIFF_NOT_GOOD]. If there
    is no such zone the outputs are [LIFETIME_DIFF_NOT_GOOD] and no zone,
    and nothing changes. Otherwise the outputs are the last of these zones
    with the least score and its score; the zone comes back held and no
    other zone changes. *)
Theorem GetBestOpenZoneMatch_spec (file_lifetime min_capacity : Z)
        (d : ZonedBlockDevice B) :
  ((forall j zj, io_zones d !! j = Some zj ->
                 match_candidate file_lifetime min_capacity zj = false) /\
   GetBestOpenZoneMatch file_lifetime min_capacity d =
     Returned (OK, Some (LIFETIME_DIFF_NOT_GOOD, None)) d) \/
  (exists a za,
     best_match file_lifetime min_capacity (io_zones d) a za /\
     GetBestOpenZoneMatch file_lifetime min_capacity d =
       Returned (OK, Some (GetLifeTimeDiff (lifetime_ za) file_lifetime, Some a))
                (store_io_zone d a (set_busy za true))).
Proof.
  destruct (GetBestOpenZoneMatch_scan_spec file_lifetime min_capacity
              (io_zones d) [] [] LIFETIME_DIFF_NOT_GOOD None)
    as (done' & best' & alloc' & Hscan & Hinv).
  { split; [reflexivity|]. split; [reflexivity|].
    intros j zj Hj. rewrite lookup_nil in Hj. discriminate. }
  simpl in Hinv. unfold GetBestOpenZoneMatch. rewrite Hscan. cbn [ok negb].
  destruct alloc' as [a|]; simpl in Hinv.
  - right. destruct Hinv as (za & Hbest & -> & ->).
    exists a, za. split; [exact Hbest|reflexivity].
  - left. destruct Hinv as (-> & -> & Hnone). split; [exact Hnone|].
    rewrite set_io_zones_same. reflexivity.
Qed.

End MatchFacts.

(** ** The zones of the garbage collector *)

Section MigrationFacts.
Context {B : Type} `{!ZonedBlockDeviceBackend B}.

Lemma Zone_Finish_unfold (b b' : B) z ios :
  be_Finish b (start_ z) = (b', ios) ->
  Zone_Finish b z =
    if ok ios
    then (b', set_wp (set_capacity z 0) (u64 (start_ z + be_GetZoneSize b')), OK)
    else (b', z, ios).
Proof.
  intros Hfin. unfold Zone_Finish. rewrite Hfin.
  destruct (ok ios); reflexivity.
Qed.

(** The two cases of [TakeMigrateZone] on a device whose GC slot holds a
    zone: room left, or the zone is retired. *)
Lemma TakeMigrateZone_cases (out_zone : option nat) (min_capacity : Z)
        (g : GCZones B) (gz : nat) (gczone : Zone) :
  GetGCZone g = Some gz ->
  io_zones (gc_zbd g) !! gz = Some gczone ->
  (min_capacity <= GetCapacityLeft gczone ->
     TakeMigrateZone out_zone min_capacity g = Returned (OK, Some gz) g) /\
  (GetCapacityLeft gczone < min_capacity ->
   busy_ gczone = true ->
   forall b' ios,
     be_Finish (zbd_be_ (gc_zbd g)) (start_ gczone) = (b', ios) ->
     (ok ios = true ->
        let z' :=
          mkZone false (start_ gczone) (max_capacity_ gczone)
                 (u64 (start_ gczone + be_GetZoneSize b')) (lifetime_ gczone)
                 (used_capacity_ gczone) 0 (useinlevelzone_ gczone) in
        let d' := store_io_zone (set_be (gc_zbd g) b') gz z' in
        TakeMigrateZone out_zone min_capacity g =
          Returned (OK, GetGCAuxZone g) (mkGC d' (GetGCAuxZone g) None) /\
        active_io_zones_ d' = active_io_zones_ (gc_zbd g) /\
        open_io_zones_ d' = open_io_zones_ (gc_zbd g)) /\
     (ok ios = false ->
        TakeMigrateZone out_zone min_capacity g =
          Returned (ios, out_zone) (set_gc_zbd g (set_be (gc_zbd g) b')))).
Proof.
  intros Hgc Hz. unfold TakeMigrateZone. rewrite Hgc, Hz. split.
  - intros Hroom. destruct (Z.ltb_spec (GetCapacityLeft gczone) min_capacity);
      [lia|]. reflexivity.
  - intros Hless Hbusy b' ios Hfin.
    destruct (Z.ltb_spec (GetCapacityLeft gczone) min_capacity); [|lia].
    rewrite (Zone_Finish_unfold _ _ _ _ Hfin).
    split; intros Hok; rewrite Hok; cbn [ok negb].
    + split; [|split; reflexivity].
      rewrite CheckRelease_busy by exact Hbusy. cbn [ok negb].
      unfold set_gc_zbd, SetGCAuxZone, SetGCZone, GetGCAuxZone, GetGCZone,
        store_io_zone.
      cbn [gc_zbd gc_zone gc_aux_zone io_zones set_io_zones set_be].
      rewrite list_insert_insert_eq. reflexivity.
    + unfold set_gc_zbd, store_io_zone.
      cbn [io_zones set_io_zones set_be].
      rewrite Hok. cbn [negb]. rewrite (list_insert_id _ _ _ Hz).
      reflexivity.
Qed.

(** X5. [TakeMigrateZone]. While the zone in the GC slot has
    [min_capacity] bytes left the call hands it out and changes nothing.
    Once it has less, the call finishes and releases it, moves the
    auxiliary zone into the GC slot, clears the auxiliary slot and hands
    out the zone that was auxiliary; the two token counters stay as they
    were, although a zone was finished. If the device refuses to finish
    the zone, the status is returned, the caller's zone pointer is not
    written and the zone stays held in the GC slot. *)
Theorem TakeMigrateZone_spec (out_zone : option nat) (min_capacity : Z)
        (g : GCZones B) (gz : nat) (gczone : Zone) :
  GetGCZone g = Some gz ->
  io_zones (gc_zbd g) !! gz = Some gczone ->
  (min_capacity <= GetCapacityLeft gczone ->
     TakeMigrateZone out_zone min_capacity g = Returned (OK, Some gz) g) /\
  (GetCapacityLeft gczone < min_capacity ->
   busy_ gczone = true ->
   forall b' ios,
     be_Finish (zbd_be_ (gc_zbd g)) (start_ gczone) = (b', ios) ->
     (ok ios = true ->
        let z' :=
          mkZone false (start_ gczone) (max_capacity_ gczone)
                 (u64 (start_ gczone + be_GetZoneSize b')) (lifetime_ gczone)
                 (used_capacity_ gczone) 0 (useinlevelzone_ gczone) in
        let d' := store_io_zone (set_be (gc_zbd g) b') gz z' in
        TakeMigrateZone out_zone min_capacity g =
          Returned (OK, GetGCAuxZone g) (mkGC d' (GetGCAuxZone g) None) /\
        active_io_zones_ d' = active_io_zones_ (gc_zbd g) /\
        open_io_zones_ d' = open_io_zones_ (gc_zbd g)) /\
     (ok ios = false ->
        TakeMigrateZone out_zone min_capacity g =
          Returned (ios, out_zone) (set_gc_zbd g (set_be (gc_zbd g) b')))).
Proof. exact (TakeMigrateZone_cases out_zone min_capacity g gz gczone). Qed.

(** X6. With no auxiliary zone staged, the [TakeMigrateZone] call that
    retires the GC zone returns [OK] with a null zone, and every
    [TakeMigrateZone] call after it dereferences the null GC zone. *)
Theorem TakeMigrateZone_exhausted (out_zone : option nat) (min_capacity : Z)
        (g : GCZones B) (gz : nat) (gczone : Zone) :
  GetGCZone g = Some gz ->
  io_zones (gc_zbd g) !! gz = Some gczone ->
  GetCapacityLeft gczone < min_capacity ->
  busy_ gczone = true ->
  ok (be_Finish (zbd_be_ (gc_zbd g)) (start_ gczone)).2 = true ->
  GetGCAuxZone g = None ->
  exists g',
    TakeMigrateZone out_zone min_capacity g = Returned (OK, None) g' /\
    forall out_zone' min_capacity',
      TakeMigrateZone out_zone' min_capacity' g' = Undefined.
Proof.
  intros Hgc Hz Hless Hbusy Hok Haux.
  destruct (be_Finish (zbd_be_ (gc_zbd g)) (start_ gczone)) as [b' ios] eqn:Hfin.
  simpl in Hok.
  destruct (TakeMigrateZone_cases out_zone min_capacity g gz gczone Hgc Hz)
    as [_ Hretire].
  destruct (Hretire Hless Hbusy b' ios Hfin) as [Hdone _].
  destruct (Hdone Hok) as (Hrun & _). rewrite Haux in Hrun.
  eexists. split; [exact Hrun|]. intros. reflexivity.
Qed.

(** X7. The zone a successful [TakeMigrateZone] hands out is the zone in
    the GC slot (or null), so [ReleaseMigrateZone] on it returns [OK] and
    releases nothing: the zone stays held. *)
Theorem ReleaseMigrateZone_keeps_GC_zone (out_zone : option nat)
        (min_capacity : Z) (g : GCZones B) s out g' :
  TakeMigrateZone out_zone min_capacity g = Returned (s, out) g' ->
  ok s = true ->
  out = GetGCZone g' /\
  ReleaseMigrateZone out g' = Returned OK g'.
Proof.
  unfold TakeMigrateZone. intros Hrun Hok.
  assert (forall g0 : GCZones B,
            ReleaseMigrateZone (GetGCZone g0) g0 = Returned OK g0) as Hnoop.
  { intros g0. unfold ReleaseMigrateZone. destruct (GetGCZone g0) as [i|];
      [|reflexivity].
    rewrite bool_decide_eq_false_2; [reflexivity|]. intros Hne. apply Hne.
    reflexivity. }
  assert (out = GetGCZone g') as Hout.
  { destruct (GetGCZone g) as [gz|] eqn:Hgc; [|discriminate].
    destruct (io_zones (gc_zbd g) !! gz) as [gczone|]; [|discriminate].
    destruct (GetCapacityLeft gczone <? min_capacity).
    - destruct (Zone_Finish _ gczone) as [[b' z1] s1].
      destruct (ok s1) eqn:Hs1; cbn [negb] in Hrun.
      + destruct (CheckRelease z1) as [s' z2].
        destruct (ok s') eqn:Hs'; cbn [negb] in Hrun.
        * injection Hrun as _ <- <-. reflexivity.
        * injection Hrun as <- _ _. congruence.
      + injection Hrun as <- _ _. congruence.
    - injection Hrun as _ <- <-. symmetry. exact Hgc. }
  split; [exact Hout|]. rewrite Hout. apply Hnoop.
Qed.

(** X8. [AllocateEmptyZoneForGC], for a caller that is alone. For the
    auxiliary zone it takes no token; for the GC zone it takes an open
    token below the limit of a caller that is not prioritized (which is
    [max_nr_open_io_zones_ - 1] for a cap of at least one) and an active
    token below [max_nr_active_io_zones_], waiting or polling otherwise.
    It then takes the first free empty I/O zone, gives it lifetime 5 and
    stores it in the slot asked for; with no free empty zone it
    dereferences a null pointer (the tokens taken stay charged). It never
    returns an error, and with an open cap of at least one it leaves both
    counters within their caps. *)
Theorem AllocateEmptyZoneForGC_spec (g : GCZones B) :
  let d := gc_zbd g in
  AllocateEmptyZoneForGC true g [] =
    match first_free_empty (io_zones d) with
    | Some (a, za) =>
        Returned OK
          (mkGC (store_io_zone d a (set_lifetime (set_busy za true) (3 + 2)))
                (gc_zone g) (Some a))
    | None => Undefined
    end /\
  AllocateEmptyZoneForGC false g [] =
    (if open_io_zones_ d <? allocator_open_limit d false then
       if active_io_zones_ d <? max_nr_active_io_zones_ d then
         match first_free_empty (io_zones d) with
         | Some (a, za) =>
             Returned OK
               (mkGC (store_io_zone
                        (set_active (set_open d (open_io_zones_ d + 1))
                                    (active_io_zones_ d + 1))
                        a (set_lifetime (set_busy za true) (3 + 2)))
                     (Some a) (gc_aux_zone g))
         | None => Undefined
         end
       else Retrying (set_gc_zbd g (set_open d (open_io_zones_ d + 1)))
     else Blocked g) /\
  (1 <= max_nr_open_io_zones_ d < 2 ^ 32 ->
   allocator_open_limit d false = max_nr_open_io_zones_ d - 1) /\
  (counters_within_caps d ->
   1 <= max_nr_open_io_zones_ d ->
   forall is_aux g',
     (forall s, AllocateEmptyZoneForGC is_aux g [] = Returned s g' ->
                s = OK /\ counters_within_caps (gc_zbd g')) /\
     (AllocateEmptyZoneForGC is_aux g [] = Retrying g' \/
      AllocateEmptyZoneForGC is_aux g [] = Blocked g' \/
      AllocateEmptyZoneForGC is_aux g [] = Exited g' ->
      counters_within_caps (gc_zbd g'))).
Proof.
  intros d.
  assert (AllocateEmptyZoneForGC true g [] =
            match first_free_empty (io_zones d) with
            | Some (a, za) =>
                Returned OK
                  (mkGC (store_io_zone d a
                           (set_lifetime (set_busy za true) (3 + 2)))
                        (gc_zone g) (Some a))
            | None => Undefined
            end) as Haux.
  { unfold AllocateEmptyZoneForGC, AllocateEmptyZoneForGC_tokens.
    cbn [negb andb]. rewrite AllocateEmptyZone_spec. fold d.
    destruct (first_free_empty (io_zones d)) as [[a za]|] eqn:Hfind;
      [|reflexivity].
    apply first_free_empty_Some in Hfind as (Hza & _).
    assert (a < length (io_zones d))%nat as Hlt by (eapply lookup_lt_Some; eauto).
    unfold store_io_zone. cbn [io_zones set_io_zones].
    rewrite list_lookup_insert_eq by exact Hlt.
    rewrite list_insert_insert_eq. reflexivity. }
  assert (AllocateEmptyZoneForGC false g [] =
            (if open_io_zones_ d <? allocator_open_limit d false then
               if active_io_zones_ d <? max_nr_active_io_zones_ d then
                 match first_free_empty (io_zones d) with
                 | Some (a, za) =>
                     Returned OK
                       (mkGC (store_io_zone
                                (set_active (set_open d (open_io_zones_ d + 1))
                                            (active_io_zones_ d + 1))
                                a (set_lifetime (set_busy za true) (3 + 2)))
                             (Some a) (gc_aux_zone g))
                 | None => Undefined
                 end
               else Retrying (set_gc_zbd g (set_open d (open_io_zones_ d + 1)))
             else Blocked g)) as Hgc.
  { unfold AllocateEmptyZoneForGC, AllocateEmptyZoneForGC_tokens,
      WaitForOpenIOZoneToken.
    cbn [negb andb cv_wait]. unfold WaitForOpenIOZoneToken_pred. fold d.
    destruct (open_io_zones_ d <? allocator_open_limit d false);
      [|destruct g; reflexivity].
    unfold GetActiveIOZoneTokenIfAvailable.
    cbn [active_io_zones_ max_nr_active_io_zones_ set_open].
    destruct (active_io_zones_ d <? max_nr_active_io_zones_ d);
      [|reflexivity].
    rewrite AllocateEmptyZone_spec.
    cbn [io_zones set_active set_open].
    destruct (first_free_empty (io_zones d)) as [[a za]|] eqn:Hfind;
      [|reflexivity].
    apply first_free_empty_Some in Hfind as (Hza & _).
    assert (a < length (io_zones d))%nat as Hlt by (eapply lookup_lt_Some; eauto).
    unfold store_io_zone. cbn [io_zones set_io_zones set_active set_open].
    rewrite list_lookup_insert_eq by exact Hlt.
    rewrite list_insert_insert_eq. reflexivity. }
  split; [exact Haux|]. split; [exact Hgc|].
  split; [apply allocator_open_limit_reserve|].
  unfold counters_within_caps. intros [Hopen Hactive] Hcap is_aux g'.
  assert (allocator_open_limit d false <= max_nr_open_io_zones_ d - 1)
    as Hlimit by (unfold allocator_open_limit, u32; lia).
  destruct is_aux.
  - rewrite Haux.
    destruct (first_free_empty (io_zones d)) as [[a za]|].
    + split; [|intros [Hrun|[Hrun|Hrun]]; discriminate].
      intros s Hrun. injection Hrun as <- <-. simpl. fold d. auto.
    + split; [intros s Hrun|intros [Hrun|[Hrun|Hrun]]]; discriminate.
  - rewrite Hgc.
    destruct (Z.ltb_spec (open_io_zones_ d) (allocator_open_limit d false)).
    + destruct (Z.ltb_spec (active_io_zones_ d) (max_nr_active_io_zones_ d)).
      * destruct (first_free_empty (io_zones d)) as [[a za]|].
        -- split; [|intros [Hrun|[Hrun|Hrun]]; discriminate].
           intros s Hrun. injection Hrun as <- <-. simpl. fold d.
           split; [reflexivity|lia].
        -- split; [intros s Hrun|intros [Hrun|[Hrun|Hrun]]]; discriminate.
      * split; [intros s Hrun; discriminate|].
        intros [Hrun|[Hrun|Hrun]]; try discriminate.
        injection Hrun as <-. simpl. fold d. lia.
    + split; [intros s Hrun; discriminate|].
      intros [Hrun|[Hrun|Hrun]]; try discriminate.
      injection Hrun as <-. fold d. lia.
Qed.

End MigrationFacts.

Lemma TakeMigrateZone_spec_witness :
  GetGCZone gc_device = Some 0%nat /\
  TakeMigrateZone None 512 gc_device = Returned (OK, Some 0%nat) gc_device /\
  exists g',
    TakeMigrateZone None 1024 gc_device = Returned (OK, Some 1%nat) g' /\
    GetGCZone g' = Some 1%nat /\ GetGCAuxZone g' = None /\
    active_io_zones_ (gc_zbd g') = 1 /\ open_io_zones_ (gc_zbd g') = 1.
Proof.
  pose proof (TakeMigrateZone_spec None 512 gc_device 0
                (mkZone true 12288 4096 (12288 + 3584) (3 + 2) 0 512 false)
                ltac:(reflexivity) ltac:(vm_compute; reflexivity)) as [Hroom _].
  pose proof (TakeMigrateZone_spec None 1024 gc_device 0
                (mkZone true 12288 4096 (12288 + 3584) (3 + 2) 0 512 false)
                ltac:(reflexivity) ltac:(vm_compute; reflexivity)) as [_ Hretire].
  split; [reflexivity|]. split; [apply Hroom; simpl; lia|].
  destruct (Hretire ltac:(simpl; lia) ltac:(reflexivity) plain_backend OK
                    ltac:(reflexivity)) as [Hdone _].
  destruct (Hdone ltac:(reflexivity)) as (Hrun & Hactive & Hopen).
  eexists. split; [exact Hrun|].
  split; [reflexivity|]. split; [reflexivity|]. split; [exact Hactive|exact Hopen].
Defined.

Lemma TakeMigrateZone_exhausted_witness :
  exists g',
    TakeMigrateZone None 1024 (SetGCAuxZone gc_device None) =
      Returned (OK, None) g' /\
    TakeMigrateZone None 1024 g' = Undefined.
Proof.
  destruct (TakeMigrateZone_exhausted None 1024 (SetGCAuxZone gc_device None) 0
              (mkZone true 12288 4096 (12288 + 3584) (3 + 2) 0 512 false)
              ltac:(reflexivity) ltac:(vm_compute; reflexivity)
              ltac:(simpl; lia) ltac:(reflexivity) ltac:(reflexivity)
              ltac:(reflexivity)) as (g' & Hrun & Hnext).
  exists g'. split; [exact Hrun|apply Hnext].
Defined.

Lemma ReleaseMigrateZone_keeps_GC_zone_witness :
  ReleaseMigrateZone (Some 0%nat) gc_device = Returned OK gc_device /\
  busy_ (default (zone_at 0 0) (io_zones (gc_zbd gc_device) !! 0%nat)) = true.
Proof.
  split; [|reflexivity].
  exact (proj2 (ReleaseMigrateZone_keeps_GC_zone None 512 gc_device OK
                  (Some 0%nat) gc_device
                  ltac:(vm_compute; reflexivity) ltac:(reflexivity))).
Defined.

Lemma AllocateEmptyZoneForGC_spec_witness :
  counters_within_caps (fresh_device 8) /\
  1 <= max_nr_open_io_zones_ (fresh_device 8) /\
  exists g',
    AllocateEmptyZoneForGC false (mkGC (fresh_device 8) None None) [] =
      Returned OK g' /\
    counters_within_caps (gc_zbd g').
Proof.
  assert (counters_within_caps (fresh_device 8)) as Hcaps
      by (unfold counters_within_caps; simpl; lia).
  assert (1 <= max_nr_open_io_zones_ (fresh_device 8)) as Hcap
      by (simpl; lia).
  assert (exists g',
            AllocateEmptyZoneForGC false (mkGC (fresh_device 8) None None) [] =
              Returned OK g') as [g' Hrun]
      by (eexists; vm_compute; reflexivity).
  split; [exact Hcaps|]. split; [exact Hcap|].
  exists g'. split; [exact Hrun|].
  destruct (AllocateEmptyZoneForGC_spec (mkGC (fresh_device 8) None None))
    as (_ & _ & _ & Hkept).
  destruct (Hkept Hcaps Hcap false g') as [Hreturned _].
  exact (proj2 (Hreturned OK Hrun)).
Defined.

(** The two slots are filled from an empty manager: the GC zone takes one
    token of each kind, the auxiliary zone none. *)
Example AllocateEmptyZoneForGC_fills_slots :
  exists g1 g2,
    AllocateEmptyZoneForGC false (mkGC (fresh_device 8) None None) [] =
      Returned OK g1 /\
    AllocateEmptyZoneForGC true g1 [] = Returned OK g2 /\
    GetGCZone g2 = Some 0%nat /\ GetGCAuxZone g2 = Some 1%nat /\
    open_io_zones_ (gc_zbd g2) = 1 /\ active_io_zones_ (gc_zbd g2) = 1.
Proof.
  eexists. eexists. split; [vm_compute; reflexivity|].
  split; [vm_compute; reflexivity|]. repeat split; reflexivity.
Qed.

(** ** Read *)

Section ReadFacts.
Context {B : Type} `{!ZonedBlockDeviceBackendIO B}.

Lemma set_be_same (d : ZonedBlockDevice B) : set_be d (zbd_be_ d) = d.
Proof. destruct d; reflexivity. Qed.

(** X9. [Read] of zero bytes returns -1, without a call of the backend:
    the loop is not entered and [r] still holds its initial value. *)
Theorem Read_zero_bytes (fuel : nat) (d : ZonedBlockDevice B) (offset : Z)
        (direct : bool) :
  Read fuel d offset 0 direct = Some (d, -1, []).
Proof.
  unfold Read. destruct fuel; simpl; rewrite set_be_same; reflexivity.
Qed.

Lemma bytes_read_short rets :
  forall left, 0 <= left -> short_reads left rets ->
               0 <= bytes_read rets <= left.
Proof.
  induction rets as [|[r e] rest IH]; intros left Hleft Hshort; simpl in *.
  - lia.
  - destruct Hshort as [Hr Hrest].
    destruct (Z.ltb_spec 0 r).
    + specialize (IH (left - r) ltac:(lia) Hrest). lia.
    + specialize (IH left Hleft Hrest). lia.
Qed.

Lemma Read_loop_spec (direct : bool) (fuel : nat) :
  forall (b : B) offset left ret r0 b' ret' r' rets,
    Read_loop fuel direct b offset left ret r0 = Some (b', ret', r', rets) ->
    ret' = ret + bytes_read rets /\
    (rets = [] -> left = 0 /\ r' = r0) /\
    (rets <> [] ->
       exists pre e,
         rets = pre ++ [(r', e)] /\
         Forall read_goes_on pre /\
         ((r' <= 0 /\ ~ read_goes_on (r', e)) \/
          (0 < r' /\ bytes_read rets = left))).
Proof.
  induction fuel as [|fuel IH]; intros b offset left ret r0 b' ret' r' rets Hrun;
    simpl in Hrun; destruct (Z.eqb_spec left 0) as [Hz|Hnz];
    try discriminate;
    try (inversion Hrun; subst; simpl;
         split; [lia|]; split; [auto|]; intros Hne; congruence).
  destruct (be_Read b left offset direct) as [b1 [r1 e1]].
  destruct (Z.leb_spec r1 0) as [Hle|Hpos].
  - destruct ((r1 =? -1) && e1) eqn:Hretry.
    + destruct (Read_loop fuel direct b1 offset left ret r1)
        as [[[[b2 ret2] r2] rets1]|] eqn:Hrest; [|discriminate].
      inversion Hrun; subst. clear Hrun.
      destruct (IH _ _ _ _ _ _ _ _ _ Hrest) as (Hret & Hnil & Hcons).
      apply andb_true_iff in Hretry as [Hr1 He1].
      apply Z.eqb_eq in Hr1. subst r1 e1.
      split; [simpl; lia|]. split; [discriminate|]. intros _.
      destruct rets1 as [|x rets1']; [destruct (Hnil eq_refl); lia|].
      destruct (Hcons ltac:(discriminate)) as (pre & e & Heq & Hpre & Hlast).
      exists ((-1, true) :: pre), e. rewrite Heq.
      split; [reflexivity|]. split.
      * constructor; [right; reflexivity|exact Hpre].
      * rewrite <- Heq. simpl. exact Hlast.
    + inversion Hrun; subst. clear Hrun.
      split; [simpl; destruct (Z.ltb_spec 0 r'); lia|].
      split; [discriminate|]. intros _.
      exists [], e1. split; [reflexivity|]. split; [constructor|].
      left. split; [exact Hle|]. intros [Hp|Heq]; simpl in *; [lia|].
      inversion Heq; subst. discriminate.
  - destruct (Read_loop fuel direct b1 (u64 (offset + r1)) (left - r1)
                        (ret + r1) r1)
      as [[[[b2 ret2] r2] rets1]|] eqn:Hrest; [|discriminate].
    inversion Hrun; subst. clear Hrun.
    destruct (IH _ _ _ _ _ _ _ _ _ Hrest) as (Hret & Hnil & Hcons).
    assert (bytes_read ((r1, e1) :: rets1) = r1 + bytes_read rets1) as Hsum.
    { simpl. destruct (Z.ltb_spec 0 r1); lia. }
    split; [lia|]. split; [discriminate|]. intros _.
    destruct rets1 as [|x rets1'].
    + destruct (Hnil eq_refl) as [Hleft ->].
      exists [], e1. split; [reflexivity|]. split; [constructor|].
      right. split; [exact Hpos|]. rewrite Hsum. simpl. lia.
    + destruct (Hcons ltac:(discriminate)) as (pre & e & Heq & Hpre & Hlast).
      exists ((r1, e1) :: pre), e. rewrite Heq.
      split; [reflexivity|]. split.
      * constructor; [left; exact Hpos|exact Hpre].
      * rewrite <- Heq. destruct Hlast as [Hlast|[Hp Hb]]; [left; exact Hlast|].
        right. split; [exact Hp|]. rewrite Hsum. lia.
Qed.

Lemma Read_loop_returns (direct : bool) (P : B -> Prop) :
  (forall b size offset,
     P b -> 0 < size ->
     P (be_Read b size offset direct).1 /\
     (be_Read b size offset direct).2.1 <= size /\
     (be_Read b size offset direct).2 <> (-1, true)) ->
  forall (fuel : nat) (b : B) offset left ret r0,
    P b -> 0 <= left <= Z.of_nat fuel ->
    exists out, Read_loop fuel direct b offset left ret r0 = Some out.
Proof.
  intros Hbe. induction fuel as [|fuel IH]; intros b offset left ret r0 Hb Hleft;
    simpl; destruct (Z.eqb_spec left 0) as [Hz|Hnz]; eauto; [lia|].
  destruct (Hbe b left offset Hb ltac:(lia)) as (Hb1 & Hshort & Hnot).
  destruct (be_Read b left offset direct) as [b1 [r1 e1]]. simpl in *.
  destruct (Z.leb_spec r1 0) as [Hle|Hpos].
  - destruct ((r1 =? -1) && e1) eqn:Hretry; [|eauto].
    apply andb_true_iff in Hretry as [Hr1 He1]. apply Z.eqb_eq in Hr1.
    subst. congruence.
  - destruct (IH b1 (u64 (offset + r1)) (left - r1) (ret + r1) r1 Hb1
                 ltac:(lia)) as [[[[b2 ret2] r2] rets1] ->].
    eauto.
Qed.

(** X10. [Read] of [n <> 0] bytes. Every backend call but the last
    returned a positive count or was interrupted ([-1] with [EINTR]) and
    was repeated. If the last call failed, [Read] returns its negative
    result and the bytes read before it are not reported. Otherwise [Read]
    returns the sum of the positive counts, which is [n] unless the last
    call returned 0; with calls that return no more than they were asked
    for, the sum is between 0 and [n]. [Read] does return when the device
    is never interrupted and returns at most what it was asked for. *)
Theorem Read_spec (fuel : nat) (d : ZonedBlockDevice B) (offset n : Z)
        (direct : bool) :
  n <> 0 ->
  (forall d' res rets,
     Read fuel d offset n direct = Some (d', res, rets) ->
     exists pre r eintr,
       rets = pre ++ [(r, eintr)] /\
       Forall read_goes_on pre /\
       (r < 0 -> res = r /\ ~ read_goes_on (r, eintr)) /\
       (0 <= r -> res = bytes_read rets) /\
       (0 < r -> bytes_read rets = n) /\
       (0 <= n -> short_reads n rets -> 0 <= bytes_read rets <= n)) /\
  (forall P : B -> Prop,
     (forall b size offset,
        P b -> 0 < size ->
        P (be_Read b size offset direct).1 /\
        (be_Read b size offset direct).2.1 <= size /\
        (be_Read b size offset direct).2 <> (-1, true)) ->
     P (zbd_be_ d) -> 0 <= n ->
     exists out, Read (Z.to_nat n) d offset n direct = Some out).
Proof.
  intros Hn. split.
  - intros d' res rets Hrun. unfold Read in Hrun.
    destruct (Read_loop fuel direct (zbd_be_ d) offset n 0 (-1))
      as [[[[b' ret] r] rets0]|] eqn:Hloop; [|discriminate].
    inversion Hrun; subst. clear Hrun.
    destruct (Read_loop_spec _ _ _ _ _ _ _ _ _ _ _ Hloop)
      as (Hret & Hnil & Hcons).
    destruct rets as [|x rets']; [destruct (Hnil eq_refl); lia|].
    destruct (Hcons ltac:(discriminate)) as (pre & e & Heq & Hpre & Hlast).
    exists pre, r, e. split; [exact Heq|]. split; [exact Hpre|].
    split; [|split; [|split]].
    + intros Hneg. destruct (Z.ltb_spec r 0); [|lia].
      split; [reflexivity|]. destruct Hlast as [[_ Hl]|[Hp _]]; [exact Hl|lia].
    + intros Hnn. destruct (Z.ltb_spec r 0); lia.
    + intros Hpos. destruct Hlast as [[Hl _]|[_ Hb]]; [lia|exact Hb].
    + intros Hn0 Hshort. apply bytes_read_short; assumption.
  - intros P Hbe HP Hn0. unfold Read.
    destruct (Read_loop_returns direct P Hbe (Z.to_nat n) (zbd_be_ d) offset n
                0 (-1) HP ltac:(lia)) as [[[[b' ret] r] rets] ->].
    eauto.
Qed.

End ReadFacts.

Lemma Read_spec_witness :
  4096 <> 0 /\
  (exists d' pre r eintr,
     Read 8 (unopened reading_backend) 0 4096 false =
       Some (d', -5, pre ++ [(r, eintr)]) /\
     bytes_read pre = 1536 /\ r = -5) /\
  (exists out,
     Read (Z.to_nat 4096)
          (unopened (mkListed OK 0 0 None 0 [] [(512, false); (1024, false)]))
          0 4096 false = Some out).
Proof.
  assert (4096 <> 0) as Hn by lia.
  destruct (Read_spec 8 (unopened reading_backend) 0 4096 false Hn) as [Hres _].
  destruct (Read_spec (Z.to_nat 4096)
              (unopened (mkListed OK 0 0 None 0 [] [(512, false); (1024, false)]))
              0 4096 false Hn) as [_ Hret].
  split; [exact Hn|]. split.
  - destruct (Hres _ _ _ ltac:(vm_compute; reflexivity))
      as (pre & r & e & Heq & _ & _).
    change [(-1, true); (512, false); (1024, false); (-5, false)]
      with ([(-1, true); (512, false); (1024, false)] ++ [(-5, false)]) in Heq.
    apply app_inj_tail in Heq as [<- Hlast]. inversion Hlast; subst.
    eexists. exists [(-1, true); (512, false); (1024, false)], (-5), false.
    split; [vm_compute; reflexivity|]. split; reflexivity.
  - apply (Hret (fun b => Forall (fun re : Z * bool => re.2 = false) (lb_reads b))).
    + intros b size offset Hb Hsize. simpl. unfold listed_Read.
      destruct (lb_reads b) as [|[r e] rest] eqn:Hreads; simpl.
      * rewrite Hreads. split; [constructor|]. split; [lia|discriminate].
      * inversion Hb; subst. simpl in *. subst e.
        split; [assumption|]. split; [lia|discriminate].
    + simpl. repeat constructor.
    + lia.
Defined.

(** ** The start-up *)

Section StartUpFacts.
Context {B : Type} `{!ZonedBlockDeviceBackendIO B}.
Variable useinlevelzone_init : bool.

Lemma Zone_new_facts (zd : ZoneDescriptor) :
  0 <= ZoneStart zd ->
  ZoneStart zd <= ZoneWp zd <= ZoneStart zd + ZoneMaxCapacity zd ->
  ZoneStart zd + ZoneMaxCapacity zd < 2 ^ 64 ->
  let z := Zone_new useinlevelzone_init zd in
  busy_ z = false /\ lifetime_ z = WLTH_NOT_SET /\ IsUsed z = false /\
  zone_wf z /\ wp_in_bounds z /\
  (ZoneIsWritable zd = true ->
     capacity_ z = ZoneMaxCapacity zd - (ZoneWp zd - ZoneStart zd)) /\
  (ZoneIsWritable zd = false -> IsFull z = true) /\
  (IsEmpty z = true <-> ZoneWp zd = ZoneStart zd).
Proof.
  intros Hstart Hwp Hend z. unfold z, Zone_new, zone_wf, wp_in_bounds, IsUsed,
    IsFull, IsEmpty. simpl.
  assert (u64 (ZoneMaxCapacity zd - u64 (ZoneWp zd - ZoneStart zd)) =
          ZoneMaxCapacity zd - (ZoneWp zd - ZoneStart zd)) as Hcap.
  { rewrite (u64_small (ZoneWp zd - ZoneStart zd)) by lia.
    apply u64_small. lia. }
  split; [reflexivity|]. split; [reflexivity|]. split; [reflexivity|].
  destruct (ZoneIsWritable zd); rewrite ?Hcap;
    repeat split; try lia; try discriminate.
Qed.

(** X11. [Zone::Zone]. The zone starts free, without a lifetime and
    without live data. When the device reports a write pointer inside the
    zone, the write pointer and the capacity are in bounds, a writable zone
    has exactly the unwritten part as capacity, and a zone that is not
    writable is full. *)
Theorem Zone_new_spec (zd : ZoneDescriptor) :
  0 <= ZoneStart zd ->
  ZoneStart zd <= ZoneWp zd <= ZoneStart zd + ZoneMaxCapacity zd ->
  ZoneStart zd + ZoneMaxCapacity zd < 2 ^ 64 ->
  let z := Zone_new useinlevelzone_init zd in
  busy_ z = false /\ lifetime_ z = WLTH_NOT_SET /\ IsUsed z = false /\
  zone_wf z /\ wp_in_bounds z /\
  (ZoneIsWritable zd = true ->
     capacity_ z = ZoneMaxCapacity zd - (ZoneWp zd - ZoneStart zd)) /\
  (ZoneIsWritable zd = false -> IsFull z = true) /\
  (IsEmpty z = true <-> ZoneWp zd = ZoneStart zd).
Proof. exact (Zone_new_facts zd). Qed.

Lemma Open_meta_zones_spec (zones : list ZoneDescriptor) :
  forall (left : nat) (metas : list Zone),
    let swr := List.filter ZoneIsSwr zones in
    let r := Open_meta_zones useinlevelzone_init zones left metas in
    r.1 = metas ++
          map (Zone_new useinlevelzone_init)
              (List.filter (fun zd => negb (ZoneIsOffline zd)) (take left swr)) /\
    List.filter ZoneIsSwr r.2 = drop left swr.
Proof.
  induction zones as [|zd rest IH]; intros left metas; simpl.
  - rewrite take_nil, drop_nil. simpl. rewrite app_nil_r. auto.
  - destruct left as [|left'].
    + simpl. rewrite app_nil_r. auto.
    + destruct (ZoneIsSwr zd) eqn:Hswr.
      * specialize (IH left'
                      (if negb (ZoneIsOffline zd)
                       then metas ++ [Zone_new useinlevelzone_init zd]
                       else metas)).
        simpl in IH. destruct IH as [IH1 IH2]. simpl.
        split; [|exact IH2]. rewrite IH1.
        destruct (ZoneIsOffline zd); simpl; [reflexivity|].
        rewrite <- app_assoc. reflexivity.
      * specialize (IH (S left') metas). exact IH.
Qed.

Lemma Open_io_zones_spec (readonly : bool) (zones : list ZoneDescriptor) :
  forall (b : B) (zs : list Zone) (active : Z),
    let usable :=
      List.filter (fun zd => negb (ZoneIsOffline zd))
                  (List.filter ZoneIsSwr zones) in
    exists b',
      Open_io_zones useinlevelzone_init readonly zones b zs active =
        (OK, b', zs ++ map (Zone_new useinlevelzone_init) usable,
         active + Z.of_nat (length (List.filter ZoneIsActive usable))).
Proof.
  induction zones as [|zd rest IH]; intros b zs active.
  - exists b. simpl. rewrite app_nil_r, Z.add_0_r. reflexivity.
  - cbn [Open_io_zones List.filter].
    destruct (ZoneIsSwr zd) eqn:Hswr; cbn [andb List.filter]; [|apply IH].
    destruct (ZoneIsOffline zd) eqn:Hoff; cbn [negb]; [apply IH|].
    rewrite (Acquire_free (Zone_new useinlevelzone_init zd)) by reflexivity.
    cbn [negb].
    rewrite (CheckRelease_busy
               (set_busy (Zone_new useinlevelzone_init zd) true))
      by reflexivity.
    cbn [ok negb].
    rewrite (release_after_acquire (Zone_new useinlevelzone_init zd))
      by reflexivity.
    destruct (IH (if ZoneIsActive zd && ZoneIsOpen zd && negb readonly
                  then (Zone_Close b
                          (set_busy (Zone_new useinlevelzone_init zd) true)).1
                  else b)
                 (zs ++ [Zone_new useinlevelzone_init zd])
                 (if ZoneIsActive zd then active + 1 else active))
      as [b' Hrest].
    exists b'. rewrite Hrest. rewrite <- app_assoc.
    cbn [map app List.filter length].
    destruct (ZoneIsActive zd); cbn [length]; f_equal; lia.
Qed.

Lemma Open_cases (readonly exclusive : bool) (d : ZonedBlockDevice B)
        (b1 b2 : B) (ios : IOStatus) (max_nr_active_zones max_nr_open_zones : Z)
        (zone_rep : option (list ZoneDescriptor)) :
  be_Open (zbd_be_ d) readonly exclusive =
    (b1, (ios, max_nr_active_zones, max_nr_open_zones)) ->
  be_ListZones b1 = (b2, zone_rep) ->
  (readonly = false -> exclusive = false ->
     Open useinlevelzone_init readonly exclusive d = (InvalidArgument, d)) /\
  ((Open useinlevelzone_init readonly exclusive d).1 = OK <->
     (readonly = true \/ exclusive = true) /\ ok ios = true /\
     ZENFS_MIN_ZONES <= be_GetNrZones b1 /\
     exists zones,
       zone_rep = Some zones /\
       Z.of_nat (length zones) = be_GetNrZones b2) /\
  (forall zones d',
     zone_rep = Some zones ->
     Open useinlevelzone_init readonly exclusive d = (OK, d') ->
     let swr := List.filter ZoneIsSwr zones in
     let online := fun zd => negb (ZoneIsOffline zd) in
     let io := List.filter online (drop ZENFS_META_ZONES swr) in
     meta_zones d' =
       meta_zones d ++
       map (Zone_new useinlevelzone_init)
           (List.filter online (take ZENFS_META_ZONES swr)) /\
     io_zones d' = io_zones d ++ map (Zone_new useinlevelzone_init) io /\
     open_io_zones_ d' = 0 /\
     active_io_zones_ d' = Z.of_nat (length (List.filter ZoneIsActive io)) /\
     max_nr_active_io_zones_ d' =
       io_zone_limit (be_GetNrZones b1) max_nr_active_zones /\
     max_nr_open_io_zones_ d' =
       io_zone_limit (be_GetNrZones b1) max_nr_open_zones).
Proof.
  intros Hopen Hlist. unfold Open. rewrite Hopen.
  split; [intros -> ->; reflexivity|].
  destruct (negb readonly && negb exclusive) eqn:Hargs.
  { split.
    - split; [discriminate|]. intros ([->| ->] & _);
        [discriminate|destruct readonly; discriminate].
    - intros zones d' _ Hrun. discriminate. }
  assert (readonly = true \/ exclusive = true) as Hargs'.
  { destruct readonly; [auto|]. destruct exclusive; [auto|discriminate]. }
  destruct (ok ios) eqn:Hios; cbn [negb].
  2:{ split.
      - split; [|intros (_ & Hno & _); discriminate].
        simpl. intros ->. discriminate.
      - intros zones d' _ Hrun. injection Hrun as -> _. discriminate. }
  destruct (Z.ltb_spec (be_GetNrZones b1) ZENFS_MIN_ZONES) as [Hfew|Hmany].
  { split.
    - split; [discriminate|]. intros (_ & _ & Hno & _). lia.
    - intros zones d' _ Hrun. discriminate. }
  rewrite Hlist. cbn [zbd_be_ set_be set_max_open set_max_active].
  destruct zone_rep as [zones|].
  2:{ split.
      - split; [discriminate|]. intros (_ & _ & _ & zones & Hno & _).
        discriminate.
      - intros zones d' Hno. discriminate. }
  destruct (Z.eqb_spec (Z.of_nat (length zones)) (be_GetNrZones b2))
    as [Hcount|Hcount]; cbn [negb].
  2:{ split.
      - split; [discriminate|]. intros (_ & _ & _ & zones' & Heq & Hno).
        injection Heq as <-. contradiction.
      - intros zones' d' _ Hrun. discriminate. }
  pose proof (Open_meta_zones_spec zones ZENFS_META_ZONES (meta_zones d))
    as Hmeta.
  cbn [meta_zones set_be set_max_open set_max_active] in *.
  destruct (Open_meta_zones useinlevelzone_init zones ZENFS_META_ZONES
                            (meta_zones d)) as [metas rest].
  cbn [fst snd] in Hmeta. destruct Hmeta as [Hmetas Hrest].
  cbn [io_zones set_open set_active set_meta_zones set_be set_max_open
       set_max_active].
  destruct (Open_io_zones_spec readonly rest b2 (io_zones d) 0) as [b3 Hio].
  rewrite Hio, Hrest. split.
  - split; [|reflexivity]. intros _.
    split; [exact Hargs'|]. split; [reflexivity|]. split; [lia|].
    exists zones. auto.
  - intros zones' d' Heq Hrun. injection Heq as <-. injection Hrun as <-.
    cbn. rewrite Hmetas. repeat split; reflexivity.
Qed.

(** X12. [Open]. A write open that is not exclusive is refused with
    [InvalidArgument] before the device is touched. The call returns [OK]
    exactly when the arguments are accepted, the device opens, reports at
    least [ZENFS_MIN_ZONES] zones and lists as many zones as it reported.
    It then has registered every sequential-write-required zone that is
    not offline, in the order of the device: those among the first three
    sequential zones as meta zones, the rest as I/O zones, each as
    [Zone::Zone] builds it and free. No open token is charged, one active
    token is charged for each I/O zone the device reports active, and each
    limit is the number of zones if the device reports 0 and the reported
    limit less two reserved zones otherwise. *)
Theorem Open_spec (readonly exclusive : bool) (d : ZonedBlockDevice B)
        (b1 b2 : B) (ios : IOStatus) (max_nr_active_zones max_nr_open_zones : Z)
        (zone_rep : option (list ZoneDescriptor)) :
  be_Open (zbd_be_ d) readonly exclusive =
    (b1, (ios, max_nr_active_zones, max_nr_open_zones)) ->
  be_ListZones b1 = (b2, zone_rep) ->
  (readonly = false -> exclusive = false ->
     Open useinlevelzone_init readonly exclusive d = (InvalidArgument, d)) /\
  ((Open useinlevelzone_init readonly exclusive d).1 = OK <->
     (readonly = true \/ exclusive = true) /\ ok ios = true /\
     ZENFS_MIN_ZONES <= be_GetNrZones b1 /\
     exists zones,
       zone_rep = Some zones /\
       Z.of_nat (length zones) = be_GetNrZones b2) /\
  (forall zones d',
     zone_rep = Some zones ->
     Open useinlevelzone_init readonly exclusive d = (OK, d') ->
     let swr := List.filter ZoneIsSwr zones in
     let online := fun zd => negb (ZoneIsOffline zd) in
     let io := List.filter online (drop ZENFS_META_ZONES swr) in
     meta_zones d' =
       meta_zones d ++
       map (Zone_new useinlevelzone_init)
           (List.filter online (take ZENFS_META_ZONES swr)) /\
     io_zones d' = io_zones d ++ map (Zone_new useinlevelzone_init) io /\
     open_io_zones_ d' = 0 /\
     active_io_zones_ d' = Z.of_nat (length (List.filter ZoneIsActive io)) /\
     max_nr_active_io_zones_ d' =
       io_zone_limit (be_GetNrZones b1) max_nr_active_zones /\
     max_nr_open_io_zones_ d' =
       io_zone_limit (be_GetNrZones b1) max_nr_open_zones).
Proof. exact (Open_cases readonly exclusive d b1 b2 ios max_nr_active_zones
                  max_nr_open_zones zone_rep). Qed.

Lemma Open_io_zones_backend (readonly : bool) (zones : list ZoneDescriptor) :
  forall (b : B) (zs : list Zone) (active : Z),
    (Open_io_zones useinlevelzone_init readonly zones b zs active).1.1.2 =
    fold_left
      (fun b0 zd => (be_Close b0 (ZoneStart zd)).1)
      (List.filter (closed_at_open useinlevelzone_init readonly)
         (List.filter (fun zd => negb (ZoneIsOffline zd))
                      (List.filter ZoneIsSwr zones)))
      b.
Proof.
  induction zones as [|zd rest IH]; intros b zs active; [reflexivity|].
  cbn [Open_io_zones List.filter].
  destruct (ZoneIsSwr zd) eqn:Hswr; cbn [andb List.filter]; [|apply IH].
  destruct (ZoneIsOffline zd) eqn:Hoff; cbn [negb List.filter]; [apply IH|].
  rewrite (Acquire_free (Zone_new useinlevelzone_init zd)) by reflexivity.
  cbn [negb].
  rewrite (CheckRelease_busy
             (set_busy (Zone_new useinlevelzone_init zd) true))
    by reflexivity.
  cbn [ok negb]. rewrite IH. unfold closed_at_open at 2, Zone_Close.
  change (IsEmpty (set_busy (Zone_new useinlevelzone_init zd) true))
    with (IsEmpty (Zone_new useinlevelzone_init zd)).
  change (IsFull (set_busy (Zone_new useinlevelzone_init zd) true))
    with (IsFull (Zone_new useinlevelzone_init zd)).
  change (start_ (set_busy (Zone_new useinlevelzone_init zd) true))
    with (ZoneStart zd).
  destruct (ZoneIsActive zd && ZoneIsOpen zd && negb readonly);
    cbn [andb]; [|reflexivity].
  destruct (negb (IsEmpty (Zone_new useinlevelzone_init zd)
                  || IsFull (Zone_new useinlevelzone_init zd)));
    [|reflexivity].
  cbn [fold_left]. destruct (be_Close b (ZoneStart zd)) as [b' ios].
  destruct (negb (ok ios)); reflexivity.
Qed.

(** X24. What [Open] asks of the device once the zones are listed: it
    closes, in the order of the device, the I/O zones reported active and
    open that are neither empty nor full, and does nothing else; a
    read-only open closes no zone. *)
Theorem Open_closes (readonly exclusive : bool) (d d' : ZonedBlockDevice B)
        (b1 b2 : B) (ios : IOStatus) (max_nr_active_zones max_nr_open_zones : Z)
        (zones : list ZoneDescriptor) :
  be_Open (zbd_be_ d) readonly exclusive =
    (b1, (ios, max_nr_active_zones, max_nr_open_zones)) ->
  be_ListZones b1 = (b2, Some zones) ->
  Open useinlevelzone_init readonly exclusive d = (OK, d') ->
  zbd_be_ d' =
    fold_left
      (fun b0 zd => (be_Close b0 (ZoneStart zd)).1)
      (List.filter (closed_at_open useinlevelzone_init readonly)
         (List.filter (fun zd => negb (ZoneIsOffline zd))
            (drop ZENFS_META_ZONES (List.filter ZoneIsSwr zones))))
      b2 /\
  (readonly = true -> zbd_be_ d' = b2).
Proof.
  intros Hopen Hlist Hrun.
  assert (zbd_be_ d' =
          fold_left
            (fun b0 zd => (be_Close b0 (ZoneStart zd)).1)
            (List.filter (closed_at_open useinlevelzone_init readonly)
               (List.filter (fun zd => negb (ZoneIsOffline zd))
                  (drop ZENFS_META_ZONES (List.filter ZoneIsSwr zones))))
            b2) as Hbe.
  { unfold Open in Hrun. rewrite Hopen in Hrun.
    destruct (negb readonly && negb exclusive); [discriminate|].
    destruct (ok ios) eqn:Hios; cbn [negb] in Hrun;
      [|injection Hrun as Hs _; rewrite Hs in Hios; discriminate].
    destruct (be_GetNrZones b1 <? ZENFS_MIN_ZONES); [discriminate|].
    rewrite Hlist in Hrun.
    destruct (negb (Z.of_nat (length zones) =? _)); [discriminate|].
    pose proof (Open_meta_zones_spec zones ZENFS_META_ZONES
                  (meta_zones
                     (set_be
                        (set_max_open
                           (set_max_active (set_be d b1)
                              (io_zone_limit (be_GetNrZones b1)
                                             max_nr_active_zones))
                           (io_zone_limit (be_GetNrZones b1)
                                          max_nr_open_zones)) b2)))
      as [_ Hrest].
    destruct (Open_meta_zones useinlevelzone_init zones ZENFS_META_ZONES _)
      as [metas rest].
    cbn [snd] in Hrest.
    match type of Hrun with
    | context [Open_io_zones ?i ?ro ?r ?b ?zs ?a] =>
        pose proof (Open_io_zones_backend ro r b zs a) as Hio;
        destruct (Open_io_zones i ro r b zs a) as [[[s3 b3] zs3] active3]
    end.
    cbn [fst snd] in Hio. rewrite Hrest in Hio.
    injection Hrun as _ <-. exact Hio. }
  split; [exact Hbe|].
  intros ->. rewrite Hbe.
  assert (forall l, List.filter (closed_at_open useinlevelzone_init true) l = [])
    as Hnone.
  { induction l as [|zd l IH]; [reflexivity|]. simpl.
    unfold closed_at_open at 1. cbn [negb]. rewrite andb_false_r. exact IH. }
  rewrite Hnone. reflexivity.
Qed.

(** X25. When every zone the device lists has its write pointer inside
    the zone, every zone a successful [Open] registers is free, without
    lifetime and without live data, and has its write pointer and its
    capacity in bounds. *)
Theorem Open_zones_wf (readonly exclusive : bool) (d d' : ZonedBlockDevice B)
        (b1 b2 : B) (ios : IOStatus) (max_nr_active_zones max_nr_open_zones : Z)
        (zones : list ZoneDescriptor) :
  be_Open (zbd_be_ d) readonly exclusive =
    (b1, (ios, max_nr_active_zones, max_nr_open_zones)) ->
  be_ListZones b1 = (b2, Some zones) ->
  Forall descriptor_wf zones ->
  meta_zones d = [] -> io_zones d = [] ->
  Open useinlevelzone_init readonly exclusive d = (OK, d') ->
  Forall (fun z => zone_wf z /\ wp_in_bounds z /\ busy_ z = false /\
                   IsUsed z = false /\ lifetime_ z = WLTH_NOT_SET)
         (meta_zones d' ++ io_zones d').
Proof.
  intros Hopen Hlist Hwf Hmeta Hio Hrun.
  destruct (Open_cases readonly exclusive d b1 b2 ios max_nr_active_zones
              max_nr_open_zones (Some zones) Hopen Hlist) as (_ & _ & Hshape).
  destruct (Hshape zones d' eq_refl Hrun) as (Hm & Hi & _).
  rewrite Hm, Hi, Hmeta, Hio. simpl.
  assert (forall l, Forall descriptor_wf l ->
            Forall (fun z => zone_wf z /\ wp_in_bounds z /\ busy_ z = false /\
                             IsUsed z = false /\ lifetime_ z = WLTH_NOT_SET)
                   (map (Zone_new useinlevelzone_init) l)) as Hmap.
  { intros l Hl. induction Hl as [|zd l (H0 & H1 & H2) _ IH]; constructor;
      [|exact IH].
    destruct (Zone_new_facts zd H0 H1 H2) as (Hb & Hl & Hu & Hz & Hw & _).
    auto. }
  assert (forall (P : ZoneDescriptor -> bool) l,
            Forall descriptor_wf l -> Forall descriptor_wf (List.filter P l))
    as Hfilter.
  { intros P l Hl. induction Hl as [|zd l Hzd _ IH]; simpl; [constructor|].
    destruct (P zd); [constructor; assumption|exact IH]. }
  apply Forall_app. split; apply Hmap, Hfilter.
  - apply Forall_take, Hfilter, Hwf.
  - apply Forall_drop, Hfilter, Hwf.
Qed.

End StartUpFacts.

Lemma Zone_new_spec_witness :
  zone_wf (Zone_new false (listed_zone 5)) /\
  capacity_ (Zone_new false (listed_zone 5)) = 3072 /\
  IsFull (Zone_new false (listed_zone 2)) = true.
Proof.
  pose proof (Zone_new_spec false (listed_zone 5)
                ltac:(simpl; lia) ltac:(simpl; lia) ltac:(simpl; lia))
    as (_ & _ & _ & Hwf & _ & Hcap & _).
  pose proof (Zone_new_spec false (listed_zone 2)
                ltac:(simpl; lia) ltac:(simpl; lia) ltac:(simpl; lia))
    as (_ & _ & _ & _ & _ & _ & Hfull & _).
  split; [exact Hwf|]. split; [|apply Hfull; reflexivity].
  rewrite Hcap by reflexivity. reflexivity.
Defined.

Lemma Open_spec_witness :
  be_Open listed_backend false true = (listed_backend, (OK, 14, 14)) /\
  be_ListZones listed_backend =
    (listed_backend, Some (map listed_zone (seq 0 40))) /\
  exists d',
    Open false false true (unopened listed_backend) = (OK, d') /\
    map start_ (meta_zones d') = [4096; 12288] /\
    length (io_zones d') = 36%nat /\
    active_io_zones_ d' = 1 /\ open_io_zones_ d' = 0 /\
    max_nr_active_io_zones_ d' = 12 /\ max_nr_open_io_zones_ d' = 12 /\
    lb_closed (zbd_be_ d') = [20480].
Proof.
  split; [reflexivity|]. split; [reflexivity|].
  assert (be_Open (zbd_be_ (unopened listed_backend)) false true =
            (listed_backend, (OK, 14, 14))) as Hopened by reflexivity.
  assert (be_ListZones listed_backend =
            (listed_backend, Some (map listed_zone (seq 0 40)))) as Hlisted
      by reflexivity.
  destruct (Open_spec false false true (unopened listed_backend)
              listed_backend listed_backend OK 14 14
              (Some (map listed_zone (seq 0 40))) Hopened Hlisted)
    as (_ & _ & Hshape).
  eexists. split; [vm_compute; reflexivity|].
  match goal with
  | |- map start_ (meta_zones ?d) = _ /\ _ =>
      destruct (Hshape (map listed_zone (seq 0 40)) d ltac:(reflexivity)
                       ltac:(vm_compute; reflexivity))
        as (Hmeta & Hio & Hopen & Hactive & Hmaxa & Hmaxo)
  end.
  split; [rewrite Hmeta; vm_compute; reflexivity|].
  split; [rewrite Hio; vm_compute; reflexivity|].
  split; [rewrite Hactive; vm_compute; reflexivity|].
  split; [exact Hopen|].
  split; [rewrite Hmaxa; vm_compute; reflexivity|].
  split; [rewrite Hmaxo; vm_compute; reflexivity|].
  vm_compute. reflexivity.
Defined.

(** ** InitialLevelZones *)

Section SeedFacts.
Context {B : Type} `{!ZonedBlockDeviceBackend B}.

Lemma InitialLevelZones_loop_step (n i : nat) (d : ZonedBlockDevice B) :
  InitialLevelZones_loop (S n) i d =
    match first_free_empty (io_zones d) with
    | None => Undefined
    | Some (a, za) =>
        match level_zones d !! i, level_active_io_zones_ d !! i with
        | Some bucket, Some idle =>
            InitialLevelZones_loop n (S i)
              (mkZBD (zbd_be_ d)
                 (<[a := set_lifetime (set_busy za true)
                                      (Z.of_nat i + lifetime_begin_ d)]>
                    (io_zones d))
                 (meta_zones d)
                 (<[i := {[a]} ∪ bucket]> (level_zones d))
                 (<[i := idle + 1]> (level_active_io_zones_ d))
                 (active_io_zones_ d + 1) (open_io_zones_ d + 1)
                 (max_nr_active_io_zones_ d) (max_nr_open_io_zones_ d)
                 (finish_threshold_ d) (lifetime_begin_ d) (diff_level_num_ d)
                 (zone_deferred_status_ d))
        | _, _ => Undefined
        end
    end.
Proof.
  cbn [InitialLevelZones_loop]. rewrite AllocateEmptyZone_spec.
  cbn [io_zones set_active set_open].
  destruct (first_free_empty (io_zones d)) as [[a za]|] eqn:Hfind;
    [|reflexivity].
  apply first_free_empty_Some in Hfind as (Hza & _).
  assert (a < length (io_zones d))%nat as Hlt by (eapply lookup_lt_Some; eauto).
  cbn [ok negb]. unfold store_io_zone.
  cbn [io_zones set_io_zones level_zones level_active_io_zones_ set_active
       set_open set_level_zones set_level_active lifetime_begin_].
  rewrite list_lookup_insert_eq by exact Hlt.
  destruct (level_zones d !! i) as [bucket|]; [|reflexivity].
  destruct (level_active_io_zones_ d !! i) as [idle|]; [|reflexivity].
  rewrite list_insert_insert_eq. reflexivity.
Qed.

Lemma seeded_from_zero (i : nat) (d : ZonedBlockDevice B) : seeded_from i 0 d d.
Proof.
  unfold seeded_from. simpl. repeat split; auto; try lia.
Qed.

Lemma InitialLevelZones_loop_spec (n : nat) :
  forall (i : nat) (d d' : ZonedBlockDevice B),
    InitialLevelZones_loop n i d = Returned tt d' ->
    seeded_from i n d d'.
Proof.
  induction n as [|n IH]; intros i d d' Hrun.
  - simpl in Hrun. inversion Hrun; subst. apply seeded_from_zero.
  - rewrite InitialLevelZones_loop_step in Hrun.
    destruct (first_free_empty (io_zones d)) as [[a za]|] eqn:Hfind;
      [|discriminate].
    apply first_free_empty_Some in Hfind as (Hza & Hfree & Hempty).
    assert (a < length (io_zones d))%nat as Hlt by (eapply lookup_lt_Some; eauto).
    destruct (level_zones d !! i) as [bucket|] eqn:Hbucket; [|discriminate].
    destruct (level_active_io_zones_ d !! i) as [idle|] eqn:Hidle;
      [|discriminate].
    assert (i < length (level_zones d))%nat as Hli
        by (eapply lookup_lt_Some; eauto).
    assert (i < length (level_active_io_zones_ d))%nat as Hla
        by (eapply lookup_lt_Some; eauto).
    apply IH in Hrun.
    destruct Hrun as (Hopen & Hactive & Hbegin & Hnum & Hmo & Hma & Hin & Hout
                      & Hheld & Hfreed).
    cbn [open_io_zones_ active_io_zones_ lifetime_begin_ diff_level_num_
         max_nr_open_io_zones_ max_nr_active_io_zones_ level_zones
         level_active_io_zones_ io_zones] in *.
    unfold seeded_from.
    split; [lia|]. split; [lia|]. split; [exact Hbegin|]. split; [exact Hnum|].
    split; [exact Hmo|]. split; [exact Hma|].
    split; [|split; [|split]].
    + intros lvl Hlvl. destruct (decide (lvl = i)) as [->|Hne].
      * destruct (Hout i ltac:(lia)) as [Hz Hact].
        rewrite list_lookup_insert_eq in Hz by exact Hli.
        rewrite list_lookup_insert_eq in Hact by exact Hla.
        exists a, bucket, idle, za.
        split; [exact Hbucket|]. split; [exact Hz|]. split; [exact Hidle|].
        split; [exact Hact|]. split; [exact Hza|].
        split; [unfold free_empty; rewrite Hfree, Hempty; reflexivity|].
        apply Hheld; [|reflexivity].
        apply list_lookup_insert_eq. exact Hlt.
      * destruct (Hin lvl ltac:(lia))
          as (a' & bucket' & idle' & z' & Hb & Hb' & Hi & Hi' & Hz' & Hfe & Hz'').
        rewrite list_lookup_insert_ne in Hb by (intros ->; apply Hne; reflexivity).
        rewrite list_lookup_insert_ne in Hi by (intros ->; apply Hne; reflexivity).
        assert (a' <> a) as Hna.
        { intros ->. rewrite list_lookup_insert_eq in Hz' by exact Hlt.
          inversion Hz'; subst z'. discriminate. }
        rewrite list_lookup_insert_ne in Hz' by (intros ->; apply Hna; reflexivity).
        exists a', bucket', idle', z'. auto 10.
    + intros lvl Hlvl. destruct (Hout lvl ltac:(lia)) as [Hz Hact].
      rewrite list_lookup_insert_ne in Hz by lia.
      rewrite list_lookup_insert_ne in Hact by lia. auto.
    + intros j z Hj Hbusy. apply Hheld; [|exact Hbusy].
      rewrite list_lookup_insert_ne; [exact Hj|].
      intros ->. rewrite Hza in Hj. inversion Hj; subst. congruence.
    + intros j z' Hj Hfree'. specialize (Hfreed _ _ Hj Hfree').
      destruct (decide (j = a)) as [->|Hne].
      * rewrite list_lookup_insert_eq in Hfreed by exact Hlt.
        inversion Hfreed; subst z'. discriminate.
      * rewrite list_lookup_insert_ne in Hfreed
          by (intros ->; apply Hne; reflexivity).
        exact Hfreed.
Qed.

Lemma seeded_from_buckets_bound (i n : nat) (d d' : ZonedBlockDevice B) :
  seeded_from i n d d' -> buckets_bound d -> buckets_bound d'.
Proof.
  intros (_ & _ & Hbegin & _ & _ & _ & Hin & Hout & Hheld & _) Hbound.
  intros lvl bucket j Hbucket Hj. rewrite Hbegin.
  destruct (decide (i <= lvl < i + n)%nat) as [Hlt|Hge].
  - destruct (Hin lvl Hlt)
      as (a & bucket0 & idle & z & Hb & Hb' & _ & _ & Hz & _ & Hz').
    rewrite Hb' in Hbucket. inversion Hbucket; subst bucket.
    apply elem_of_union in Hj as [Hj|Hj].
    + apply elem_of_singleton in Hj as ->.
      eexists. split; [exact Hz'|]. split; reflexivity.
    + destruct (Hbound _ _ _ Hb Hj) as (zj & Hzj & Hbusy & Hlife).
      exists zj. split; [apply Hheld; assumption|]. auto.
  - destruct (Hout lvl Hge) as [Hsame _].
    rewrite Hsame in Hbucket.
    destruct (Hbound _ _ _ Hbucket Hj) as (zj & Hzj & Hbusy & Hlife).
    exists zj. split; [apply Hheld; assumption|]. auto.
Qed.

(** X13. [InitialLevelZones], when it returns: one open and one active
    token were charged for each of the [diff_level_num_] classes, without
    regard to the caps; each class has one more idle zone counted and one
    more zone in its bucket, which was free and empty before and is now
    held with the lifetime of the class; no bucket of a class is empty;
    zones that were held are untouched; and if every zone in a bucket was
    held with the lifetime of its class before, that is so after. *)
Theorem InitialLevelZones_spec (d d' : ZonedBlockDevice B) :
  InitialLevelZones d = Returned tt d' ->
  seeded_from 0 (diff_level_num_ d) d d' /\
  (forall lvl bucket,
     (lvl < diff_level_num_ d)%nat ->
     level_zones d' !! lvl = Some bucket -> bucket <> ∅) /\
  (buckets_bound d -> buckets_bound d').
Proof.
  unfold InitialLevelZones. intros Hrun.
  apply InitialLevelZones_loop_spec in Hrun.
  split; [exact Hrun|].
  split; [|apply (seeded_from_buckets_bound _ _ _ _ Hrun)].
  destruct Hrun as (_ & _ & _ & _ & _ & _ & Hin & _).
  intros lvl bucket Hlvl Hbucket.
  destruct (Hin lvl ltac:(lia)) as (a & bucket0 & _ & _ & _ & Hb' & _).
  rewrite Hb' in Hbucket. inversion Hbucket; subst. clear. set_solver.
Qed.

Lemma free_empty_count_take (zs : list Zone) :
  forall (a : nat) (z z' : Zone),
    zs !! a = Some z -> free_empty z = true -> free_empty z' = false ->
    S (length (List.filter free_empty (<[a := z']> zs))) =
      length (List.filter free_empty zs).
Proof.
  induction zs as [|x rest IH]; intros a z z' Ha Hz Hz'.
  - rewrite lookup_nil in Ha. discriminate.
  - destruct a as [|a]; simpl in *.
    + inversion Ha; subst x. rewrite Hz, Hz'. reflexivity.
    + destruct (free_empty x); simpl; f_equal; eauto.
Qed.

Lemma first_free_empty_count (zs : list Zone) :
  first_free_empty zs = None <-> length (List.filter free_empty zs) = 0%nat.
Proof.
  unfold first_free_empty. rewrite list_find_None. split.
  - intros Hall. induction zs as [|x rest IH]; [reflexivity|].
    inversion Hall; subst. simpl.
    destruct (free_empty x); [congruence|]. apply IH. assumption.
  - induction zs as [|x rest IH]; intros Hlen; [constructor|].
    simpl in Hlen. destruct (free_empty x) eqn:Hx; [discriminate|].
    constructor; [congruence|]. apply IH. exact Hlen.
Qed.

Lemma InitialLevelZones_loop_returns (n : nat) :
  forall (i : nat) (d : ZonedBlockDevice B),
    (i + n <= length (level_zones d))%nat ->
    (i + n <= length (level_active_io_zones_ d))%nat ->
    if decide (n <= length (List.filter free_empty (io_zones d)))%nat
    then exists d', InitialLevelZones_loop n i d = Returned tt d'
    else InitialLevelZones_loop n i d = Undefined.
Proof.
  induction n as [|n IH]; intros i d Hlz Hla.
  - rewrite decide_True by lia. eauto.
  - rewrite InitialLevelZones_loop_step.
    destruct (first_free_empty (io_zones d)) as [[a za]|] eqn:Hfind.
    + apply first_free_empty_Some in Hfind as (Hza & Hfree & Hempty).
      destruct (lookup_lt_is_Some_2 (level_zones d) i ltac:(lia))
        as [bucket ->].
      destruct (lookup_lt_is_Some_2 (level_active_io_zones_ d) i ltac:(lia))
        as [idle ->].
      match goal with
      | |- context [InitialLevelZones_loop n (S i) ?d1] =>
          specialize (IH (S i) d1)
      end.
      cbn [level_zones level_active_io_zones_ io_zones] in IH.
      rewrite !length_insert in IH.
      specialize (IH ltac:(lia) ltac:(lia)).
      pose proof (free_empty_count_take (io_zones d) a za
                    (set_lifetime (set_busy za true)
                                  (Z.of_nat i + lifetime_begin_ d))
                    Hza
                    ltac:(unfold free_empty; rewrite Hfree, Hempty; reflexivity)
                    ltac:(reflexivity)) as Hcount.
      destruct (decide (n <= _)%nat) as [Hn|Hn] in IH.
      * rewrite decide_True by lia. exact IH.
      * rewrite decide_False by lia. exact IH.
    + apply first_free_empty_count in Hfind. rewrite Hfind.
      rewrite decide_False by lia. reflexivity.
Qed.

(** X14. [InitialLevelZones] returns if the I/O zones include one free
    empty zone for each class; with fewer it runs out of zones and
    dereferences the null pointer [AllocateEmptyZone] gave it. *)
Theorem InitialLevelZones_returns (d : ZonedBlockDevice B) :
  (diff_level_num_ d <= length (level_zones d))%nat ->
  (diff_level_num_ d <= length (level_active_io_zones_ d))%nat ->
  ((diff_level_num_ d <= length (List.filter free_empty (io_zones d)))%nat ->
     exists d', InitialLevelZones d = Returned tt d') /\
  ((length (List.filter free_empty (io_zones d)) < diff_level_num_ d)%nat ->
     InitialLevelZones d = Undefined).
Proof.
  intros Hlz Hla. unfold InitialLevelZones.
  pose proof (InitialLevelZones_loop_returns (diff_level_num_ d) 0 d
                ltac:(simpl; lia) ltac:(simpl; lia)) as Hloop.
  destruct (decide (diff_level_num_ d
                    <= length (List.filter free_empty (io_zones d)))%nat).
  - split; [intros _; exact Hloop|lia].
  - split; [lia|intros _; exact Hloop].
Qed.

End SeedFacts.

Lemma InitialLevelZones_spec_witness :
  InitialLevelZones (fresh_device 8) = Returned tt seeded_device /\
  seeded_from 0 6 (fresh_device 8) seeded_device /\
  open_io_zones_ seeded_device = 6 /\ active_io_zones_ seeded_device = 6.
Proof.
  assert (InitialLevelZones (fresh_device 8) = Returned tt seeded_device)
    as Hrun by (vm_compute; reflexivity).
  destruct (InitialLevelZones_spec (fresh_device 8) seeded_device Hrun)
    as (Hseeded & _).
  split; [exact Hrun|]. split; [exact Hseeded|].
  destruct Hseeded as (Hopen & Hactive & _).
  split; [rewrite Hopen|rewrite Hactive]; reflexivity.
Defined.

Lemma InitialLevelZones_returns_witness :
  (exists d', InitialLevelZones (fresh_device 8) = Returned tt d') /\
  InitialLevelZones
    (set_io_zones (fresh_device 8) (take 4 (io_zones (fresh_device 8)))) =
    Undefined.
Proof.
  assert (length (List.filter free_empty (io_zones (fresh_device 8))) = 10%nat)
    as Hten by (vm_compute; reflexivity).
  assert (length (List.filter free_empty
                    (take 4 (io_zones (fresh_device 8)))) = 4%nat)
    as Hfour by (vm_compute; reflexivity).
  destruct (InitialLevelZones_returns (fresh_device 8)
              ltac:(simpl; lia) ltac:(simpl; lia)) as [Hret _].
  destruct (InitialLevelZones_returns
              (set_io_zones (fresh_device 8)
                            (take 4 (io_zones (fresh_device 8))))
              ltac:(simpl; lia) ltac:(simpl; lia)) as [_ Hundef].
  split.
  - apply Hret. rewrite Hten. simpl. lia.
  - apply Hundef. cbn [io_zones set_io_zones]. rewrite Hfour. simpl. lia.
Defined.

(** ** Handing a zone out and taking it back *)

Section LeaseFacts.
Context {B : Type} `{!ZonedBlockDeviceBackend B}.

Lemma level_index_of_class (d : ZonedBlockDevice B) (level : nat) :
  (level < diff_level_num_ d)%nat ->
  level_index d (Z.of_nat level + lifetime_begin_ d) = Some level.
Proof.
  intros Hlt. unfold level_index.
  replace (Z.of_nat level + lifetime_begin_ d - lifetime_begin_ d)
    with (Z.of_nat level) by lia.
  destruct (Z.leb_spec 0 (Z.of_nat level)); [|lia].
  destruct (Z.ltb_spec (Z.of_nat level) (Z.of_nat (diff_level_num_ d))); [|lia].
  simpl. rewrite Nat2Z.id. reflexivity.
Qed.

(** X15. A zone that [AllocateIOZone] hands out of the idle zones of a
    class, and that [ReleaseLevelZone] takes back, leaves the manager
    exactly as it was before the two calls. (Lines 919-1065 of
    [AllocateIOZone]; every zone in a bucket is held with the lifetime of
    its class.) *)
Theorem ReleaseLevelZone_round_trip (file_lifetime file_id : Z)
        (d : ZonedBlockDevice B) (level : nat) (idle : Z) s a d1 :
  buckets_bound d ->
  level_index d (effective_lifetime d file_lifetime file_id) = Some level ->
  level_active_io_zones_ d !! level = Some idle ->
  0 < idle ->
  AllocateIOZone_level file_lifetime file_id d = Returned (s, Some a) d1 ->
  s = OK /\
  open_io_zones_ d1 = open_io_zones_ d /\
  active_io_zones_ d1 = active_io_zones_ d /\
  level_active_io_zones_ d1 !! level = Some (idle - 1) /\
  ReleaseLevelZone a d1 = Returned tt d.
Proof.
  intros Hbound Hlevel Hidle Hpos Hrun.
  unfold AllocateIOZone_level in Hrun. rewrite Hlevel, Hidle in Hrun.
  cbn [cv_wait] in Hrun. unfold AllocateIOZone_pred in Hrun.
  rewrite Hidle in Hrun.
  destruct (Z.ltb_spec 0 idle) as [_|]; [|lia]. cbn [orb] in Hrun.
  unfold AllocateIOZone_take in Hrun. rewrite Hidle in Hrun.
  destruct (level_zones d !! level) as [bucket|] eqn:Hbucket; [|discriminate].
  destruct (Z.ltb_spec 0 idle) as [_|]; [|lia].
  destruct (find_idle_zone _ bucket) as [a'|] eqn:Hfind; [|discriminate].
  apply find_idle_zone_Some in Hfind as (Hin & z & Hz & Hflag).
  cbn [io_zones set_level_active] in Hz, Hrun. rewrite Hz in Hrun.
  injection Hrun as <- <- <-.
  destruct (Hbound _ _ _ Hbucket Hin) as (z' & Hz' & Hbusy & Hlife).
  rewrite Hz in Hz'. injection Hz' as <-.
  apply level_index_Some in Hlevel as [_ Hlt].
  assert (a' < length (io_zones d))%nat as Hla by (eapply lookup_lt_Some; eauto).
  assert (level < length (level_active_io_zones_ d))%nat as Hll
      by (eapply lookup_lt_Some; eauto).
  split; [reflexivity|]. split; [reflexivity|]. split; [reflexivity|].
  split.
  { cbn [level_active_io_zones_ store_io_zone set_io_zones set_level_active].
    apply list_lookup_insert_eq. exact Hll. }
  unfold ReleaseLevelZone, store_io_zone.
  cbn [io_zones set_io_zones set_level_active level_active_io_zones_].
  rewrite list_lookup_insert_eq by exact Hla.
  change (lifetime_ (set_useinlevelzone z true)) with (lifetime_ z).
  rewrite Hlife.
  change (level_index (set_io_zones _ _) ?l) with (level_index d l).
  rewrite (level_index_of_class d level Hlt).
  rewrite list_lookup_insert_eq by exact Hll.
  rewrite !list_insert_insert_eq.
  replace (idle - 1 + 1) with idle by lia.
  rewrite (list_insert_id _ _ _ Hidle).
  replace (set_useinlevelzone (set_useinlevelzone z true) false) with z
    by (destruct z; simpl in *; subst; reflexivity).
  rewrite (list_insert_id _ _ _ Hz).
  destruct d; reflexivity.
Qed.

End LeaseFacts.

Lemma ReleaseLevelZone_round_trip_witness :
  exists a d1,
    AllocateIOZone_level WLTH_MEDIUM 7 seeded_device = Returned (OK, Some a) d1 /\
    level_active_io_zones_ d1 !! 0%nat = Some 0 /\
    ReleaseLevelZone a d1 = Returned tt seeded_device.
Proof.
  eexists. eexists. split; [vm_compute; reflexivity|].
  match goal with
  | |- level_active_io_zones_ ?d1 !! _ = _ /\ ReleaseLevelZone ?a _ = _ =>
      destruct (ReleaseLevelZone_round_trip WLTH_MEDIUM 7 seeded_device 0 1
                  OK a d1 seeded_device_buckets_bound
                  ltac:(vm_compute; reflexivity) ltac:(vm_compute; reflexivity)
                  ltac:(lia) ltac:(vm_compute; reflexivity))
        as (_ & _ & _ & Hidle & Hback)
  end.
  split; [exact Hidle|exact Hback].
Defined.

(** ** The open counter stays within its cap *)

Section OpenCapFacts.
Context {B : Type} `{!ZonedBlockDeviceBackend B}.
Variable IsLevelZone : ZonedBlockDevice B -> nat -> bool.

Lemma EmitLevelZone_open e (d : ZonedBlockDevice B) d' :
  device_after (EmitLevelZone e d) = Some d' ->
  max_nr_open_io_zones_ d' = max_nr_open_io_zones_ d /\
  open_io_zones_ d' <= open_io_zones_ d.
Proof.
  intros Hrun.
  destruct (io_zones d !! e) as [z|] eqn:Hz;
    [|unfold EmitLevelZone in Hrun; rewrite Hz in Hrun; discriminate].
  destruct (level_index d (lifetime_ z)) as [lvl|] eqn:Hlvl;
    [|unfold EmitLevelZone in Hrun; rewrite Hz, Hlvl in Hrun; discriminate].
  destruct (level_zones d !! lvl) as [bucket|] eqn:Hbucket;
    [|unfold EmitLevelZone in Hrun; rewrite Hz, Hlvl, Hbucket in Hrun;
      discriminate].
  rewrite (EmitLevelZone_unfold _ _ _ _ _ Hz Hlvl Hbucket) in Hrun.
  destruct (bool_decide _).
  - destruct (first_free_empty _) as [[a za]|];
      simpl in Hrun; injection Hrun as <-; simpl; lia.
  - simpl in Hrun. injection Hrun as <-. simpl. lia.
Qed.

Lemma ResetUnusedIOZones_visit_open i (d : ZonedBlockDevice B) d' :
  device_after (ResetUnusedIOZones_visit IsLevelZone i d) = Some d' ->
  max_nr_open_io_zones_ d' = max_nr_open_io_zones_ d /\
  open_io_zones_ d' <= open_io_zones_ d.
Proof.
  unfold ResetUnusedIOZones_visit. intros Hrun.
  destruct (io_zones d !! i) as [z|]; [|discriminate].
  destruct (Acquire z) as [acquired z1].
  destruct acquired; [|simpl in Hrun; injection Hrun as <-; lia].
  destruct (negb (IsEmpty z1) && negb (IsUsed z1)).
  - destruct (Zone_Reset (zbd_be_ d) z1) as [[b' z2] reset_status].
    destruct (CheckRelease z2) as [release_status z3].
    destruct (negb (ok reset_status));
      [simpl in Hrun; injection Hrun as <-; simpl; lia|].
    destruct (negb (ok release_status));
      [simpl in Hrun; injection Hrun as <-; simpl; lia|].
    destruct (negb (IsFull z1));
      [|simpl in Hrun; injection Hrun as <-; simpl; lia].
    destruct (IsLevelZone _ i);
      [|simpl in Hrun; injection Hrun as <-; simpl; lia].
    match type of Hrun with
    | context [EmitLevelZone i ?d1] =>
        pose proof (EmitLevelZone_open i d1 d') as Hemit;
        destruct (EmitLevelZone i d1) as [r d2|d2|d2|d2|]
    end; simpl in Hrun, Hemit; try discriminate;
      destruct (Hemit Hrun) as [Hmax Hopen]; simpl in Hmax, Hopen; lia.
  - destruct (CheckRelease z1) as [release_status z2].
    destruct (negb (ok release_status));
      simpl in Hrun; injection Hrun as <-; simpl; lia.
Qed.

Lemma ResetUnusedIOZones_loop_open idxs :
  forall (d d' : ZonedBlockDevice B),
    device_after (ResetUnusedIOZones_loop IsLevelZone idxs d) = Some d' ->
    max_nr_open_io_zones_ d' = max_nr_open_io_zones_ d /\
    open_io_zones_ d' <= open_io_zones_ d.
Proof.
  induction idxs as [|i rest IH]; intros d d' Hrun.
  - simpl in Hrun. injection Hrun as <-. lia.
  - cbn [ResetUnusedIOZones_loop] in Hrun.
    pose proof (ResetUnusedIOZones_visit_open i d) as Hvisit.
    destruct (ResetUnusedIOZones_visit IsLevelZone i d)
      as [[s|] d1|d1|d1|d1|]; simpl in Hrun, Hvisit; try discriminate;
      try (injection Hrun as <-; apply Hvisit; reflexivity).
    destruct (Hvisit d1 eq_refl) as [Hmax Hopen].
    destruct (IH d1 d' Hrun) as [Hmax' Hopen']. lia.
Qed.

Lemma ApplyFinishThreshold_open (d : ZonedBlockDevice B) :
  max_nr_open_io_zones_ (ApplyFinishThreshold d).2 = max_nr_open_io_zones_ d /\
  open_io_zones_ (ApplyFinishThreshold d).2 = open_io_zones_ d.
Proof.
  unfold ApplyFinishThreshold.
  destruct (finish_threshold_ d =? 0); [auto|].
  destruct (ApplyFinishThreshold_loop d (io_zones d)) as [[s d'] zs] eqn:Hloop.
  apply ApplyFinishThreshold_loop_spec in Hloop as (-> & _). simpl. auto.
Qed.

Lemma AllocateIOZone_level_open file_lifetime file_id (d d' : ZonedBlockDevice B) :
  open_io_zones_ d <= max_nr_open_io_zones_ d ->
  device_after (AllocateIOZone_level file_lifetime file_id d) = Some d' ->
  max_nr_open_io_zones_ d' = max_nr_open_io_zones_ d /\
  open_io_zones_ d' <= max_nr_open_io_zones_ d'.
Proof.
  unfold AllocateIOZone_level. intros Hopen Hrun.
  destruct (level_index d _) as [level|]; [|discriminate].
  destruct (level_active_io_zones_ d !! level) as [idle|] eqn:Hidle;
    [|discriminate].
  cbn [cv_wait] in Hrun. unfold AllocateIOZone_pred in Hrun.
  rewrite Hidle in Hrun.
  destruct ((0 <? idle) || (open_io_zones_ d <? max_nr_open_io_zones_ d))
    eqn:Hgo; [|simpl in Hrun; injection Hrun as <-; auto].
  unfold AllocateIOZone_take in Hrun. rewrite Hidle in Hrun.
  destruct (level_zones d !! level) as [bucket|]; [|discriminate].
  destruct (0 <? idle) eqn:Hpos.
  - destruct (find_idle_zone _ bucket) as [a|]; [|discriminate].
    destruct (io_zones _ !! a) as [z|]; [|discriminate].
    simpl in Hrun. injection Hrun as <-. simpl. auto.
  - simpl in Hgo. apply Z.ltb_lt in Hgo.
    rewrite AllocateEmptyZone_spec in Hrun.
    destruct (first_free_empty _) as [[a za]|];
      [|simpl in Hrun; injection Hrun as <-; simpl; lia].
    cbn [ok negb] in Hrun.
    destruct (io_zones _ !! a) as [z|]; [|discriminate].
    destruct (level_zones _ !! level) as [bucket3|]; [|discriminate].
    destruct (io_zones _ !! a) as [z5|]; [|discriminate].
    simpl in Hrun. injection Hrun as <-. simpl. lia.
Qed.

Lemma AllocateIOZone_open file_lifetime io_type file_id
      (d d' : ZonedBlockDevice B) :
  open_io_zones_ d <= max_nr_open_io_zones_ d ->
  device_after (AllocateIOZone IsLevelZone file_lifetime io_type file_id d)
    = Some d' ->
  max_nr_open_io_zones_ d' = max_nr_open_io_zones_ d /\
  open_io_zones_ d' <= max_nr_open_io_zones_ d'.
Proof.
  unfold AllocateIOZone, AllocateIOZone_body. intros Hopen Hrun.
  destruct (negb (ok (GetZoneDeferredStatus d)));
    [simpl in Hrun; injection Hrun as <-; auto|].
  destruct (negb (is_kWAL io_type));
    [|eapply AllocateIOZone_level_open; eauto].
  unfold AllocateIOZone_after_threshold in Hrun.
  destruct (ApplyFinishThreshold_open d) as [Hmax1 Hopen1].
  destruct (ApplyFinishThreshold d) as [s d1]. simpl in Hmax1, Hopen1.
  destruct (negb (ok s));
    [simpl in Hrun; injection Hrun as <-; lia|].
  unfold ResetUnusedIOZones in Hrun.
  pose proof (ResetUnusedIOZones_loop_open (seq 0 (length (io_zones d1))) d1)
    as Hreset.
  destruct (ResetUnusedIOZones_loop IsLevelZone _ d1)
    as [s2 d2|d2|d2|d2|]; simpl in Hreset; try discriminate;
    try (simpl in Hrun; injection Hrun as <-;
         destruct (Hreset _ eq_refl); lia).
  destruct (Hreset _ eq_refl) as [Hmax2 Hopen2].
  destruct (negb (ok s2));
    [simpl in Hrun; injection Hrun as <-; lia|].
  destruct (AllocateIOZone_level_open _ _ d2 d' ltac:(lia) Hrun)
    as [Hmax3 Hopen3].
  split; [lia|exact Hopen3].
Qed.

(** One call of the run keeps the cap as it is and the open counter
    within it; the wait of a caller that is not prioritized needs a cap of
    at least one, below which its limit wraps. *)
Lemma run_op_open op (d d' : ZonedBlockDevice B) :
  op <> OpInitialLevelZones ->
  (op = OpWaitForOpenIOZoneToken false -> 1 <= max_nr_open_io_zones_ d) ->
  open_io_zones_ d <= max_nr_open_io_zones_ d ->
  run_op IsLevelZone op d = Some d' ->
  max_nr_open_io_zones_ d' = max_nr_open_io_zones_ d /\
  open_io_zones_ d' <= max_nr_open_io_zones_ d'.
Proof.
  intros Hop Hcap Hopen Hstep.
  destruct op; cbn [run_op] in Hstep.
  - eapply AllocateIOZone_open; eauto.
  - contradiction.
  - destruct (EmitLevelZone_open _ _ _ Hstep). lia.
  - unfold WaitForOpenIOZoneToken, allocator_open_limit in Hstep.
    cbn [cv_wait] in Hstep. unfold WaitForOpenIOZoneToken_pred in Hstep.
    destruct prioritized.
    + destruct (Z.ltb_spec (open_io_zones_ d) (max_nr_open_io_zones_ d));
        simpl in Hstep; injection Hstep as <-; simpl; lia.
    + specialize (Hcap eq_refl).
      destruct (Z.ltb_spec (open_io_zones_ d)
                           (u32 (max_nr_open_io_zones_ d - 1)));
        simpl in Hstep; injection Hstep as <-; simpl;
        unfold u32 in *; lia.
  - injection Hstep as <-. unfold GetActiveIOZoneTokenIfAvailable.
    destruct (_ <? _); simpl; auto.
  - injection Hstep as <-. simpl. lia.
  - injection Hstep as <-. simpl. auto.
Qed.

(** X16. With an open cap of at least one wherever a caller that is not
    prioritized waits for an open token, the open counter never passes
    [max_nr_open_io_zones_] in a run of [AllocateIOZone], [EmitLevelZone],
    [WaitForOpenIOZoneToken], [GetActiveIOZoneTokenIfAvailable],
    [PutOpenIOZoneToken] and [PutActiveIOZoneToken] calls, whether the
    calls return, wait, retry or exit, and the cap stays as it is: of the
    operations that charge tokens only [InitialLevelZones] charges an open
    token without looking at the cap. *)
Theorem open_cap_kept (ops : list TokenOp) :
  forall d d' : ZonedBlockDevice B,
    Forall (fun op => op <> OpInitialLevelZones) ops ->
    (In (OpWaitForOpenIOZoneToken false) ops ->
     1 <= max_nr_open_io_zones_ d) ->
    open_io_zones_ d <= max_nr_open_io_zones_ d ->
    run_ops IsLevelZone ops d = Some d' ->
    max_nr_open_io_zones_ d' = max_nr_open_io_zones_ d /\
    open_io_zones_ d' <= max_nr_open_io_zones_ d'.
Proof.
  induction ops as [|op rest IH]; intros d d' Hops Hcap Hopen Hrun.
  - simpl in Hrun. injection Hrun as <-. auto.
  - inversion Hops as [|? ? Hop Hrest]; subst.
    cbn [run_ops] in Hrun.
    destruct (run_op IsLevelZone op d) as [d1|] eqn:Hstep; [|discriminate].
    destruct (run_op_open op d d1 Hop) as [Hmax1 Hopen1];
      [intros ->; apply Hcap; left; reflexivity|exact Hopen|exact Hstep|].
    destruct (IH d1 d' Hrest) as [Hmax Hkept];
      [intros Hin; rewrite Hmax1; apply Hcap; right; exact Hin
      |exact Hopen1|exact Hrun|].
    split; [congruence|exact Hkept].
Qed.

End OpenCapFacts.

Lemma open_cap_kept_witness :
  1 <= max_nr_open_io_zones_ seeded_device /\
  open_io_zones_ seeded_device <= max_nr_open_io_zones_ seeded_device /\
  exists d',
    run_ops IsLevelZone_bucket
      [OpWaitForOpenIOZoneToken false;
       OpAllocateIOZone WLTH_NONE kFlush 7;
       OpAllocateIOZone WLTH_NONE kFlush 8;
       OpWaitForOpenIOZoneToken false;
       OpPutOpenIOZoneToken;
       OpAllocateIOZone WLTH_NONE kFlush 10]
      seeded_device = Some d' /\
    open_io_zones_ d' = 8 /\
    max_nr_open_io_zones_ d' = max_nr_open_io_zones_ seeded_device /\
    open_io_zones_ d' <= max_nr_open_io_zones_ d'.
Proof.
  assert (1 <= max_nr_open_io_zones_ seeded_device) as Hcap
      by (vm_compute; discriminate).
  assert (open_io_zones_ seeded_device <= max_nr_open_io_zones_ seeded_device)
    as Hopen by (vm_compute; discriminate).
  assert (exists d',
            run_ops IsLevelZone_bucket
              [OpWaitForOpenIOZoneToken false;
               OpAllocateIOZone WLTH_NONE kFlush 7;
               OpAllocateIOZone WLTH_NONE kFlush 8;
               OpWaitForOpenIOZoneToken false;
               OpPutOpenIOZoneToken;
               OpAllocateIOZone WLTH_NONE kFlush 10]
              seeded_device = Some d' /\
            open_io_zones_ d' = 8) as (d' & Hrun & Hcount)
      by (eexists; split; vm_compute; reflexivity).
  split; [exact Hcap|]. split; [exact Hopen|].
  exists d'. split; [exact Hrun|]. split; [exact Hcount|].
  refine (open_cap_kept IsLevelZone_bucket _ seeded_device d' _
            (fun _ => Hcap) Hopen Hrun).
  repeat constructor; discriminate.
Defined.

(** ** What the maintenance passes spare *)

Section SpareFacts.
Context {B : Type} `{!ZonedBlockDeviceBackend B}.
Variable IsLevelZone : ZonedBlockDevice B -> nat -> bool.

Lemma spared_refl (d : ZonedBlockDevice B) : spared d d.
Proof. intros j z Hj. exists z. auto. Qed.

Lemma spared_trans (d1 d2 d3 : ZonedBlockDevice B) :
  spared d1 d2 -> spared d2 d3 -> spared d1 d3.
Proof.
  intros H12 H23 j z Hj.
  destruct (H12 j z Hj) as (z2 & Hj2 & Hbusy2 & Hused2).
  destruct (H23 j z2 Hj2) as (z3 & Hj3 & Hbusy3 & Hused3).
  exists z3. split; [exact Hj3|]. split.
  - intros Hbusy. specialize (Hbusy2 Hbusy). subst z2. auto.
  - intros Hused. destruct (Hused2 Hused) as (Hwp & Hcap & Hu).
    assert (IsUsed z2 = true) as Hused' by (unfold IsUsed in *; rewrite Hu; exact Hused).
    destruct (Hused3 Hused') as (Hwp' & Hcap' & Hu'). lia.
Qed.

(** Storing into a zone that is free and holds no live data. *)
Lemma spared_store (d d1 : ZonedBlockDevice B) i z z' :
  io_zones d !! i = Some z -> busy_ z = false -> IsUsed z = false ->
  io_zones d1 = <[i := z']> (io_zones d) ->
  spared d d1.
Proof.
  intros Hz Hfree Hunused Hzones j zj Hj. rewrite Hzones.
  destruct (decide (j = i)) as [->|Hne].
  - rewrite Hz in Hj. injection Hj as <-. exists z'.
    split; [apply list_lookup_insert_eq; eapply lookup_lt_Some; eauto|].
    split; intros; congruence.
  - exists zj. rewrite list_lookup_insert_ne by (intros ->; apply Hne; reflexivity).
    auto.
Qed.

(** Taking a free zone: it becomes held and gets a lifetime. *)
Lemma spared_take (d d1 : ZonedBlockDevice B) a za l :
  io_zones d !! a = Some za -> busy_ za = false ->
  io_zones d1 = <[a := set_lifetime (set_busy za true) l]> (io_zones d) ->
  spared d d1.
Proof.
  intros Hz Hfree Hzones j zj Hj. rewrite Hzones.
  destruct (decide (j = a)) as [->|Hne].
  - rewrite Hz in Hj. injection Hj as <-. eexists.
    split; [apply list_lookup_insert_eq; eapply lookup_lt_Some; eauto|].
    split; [intros; congruence|]. intros _. auto.
  - exists zj. rewrite list_lookup_insert_ne by (intros ->; apply Hne; reflexivity).
    auto.
Qed.

(** [EmitLevelZone] of a zone without live data. *)
Lemma EmitLevelZone_spared e (d : ZonedBlockDevice B) z d' :
  io_zones d !! e = Some z -> busy_ z = false -> IsUsed z = false ->
  device_after (EmitLevelZone e d) = Some d' ->
  spared d d'.
Proof.
  intros Hz Hfree Hunused Hrun.
  destruct (level_index d (lifetime_ z)) as [lvl|] eqn:Hlvl;
    [|unfold EmitLevelZone in Hrun; rewrite Hz, Hlvl in Hrun; discriminate].
  destruct (level_zones d !! lvl) as [bucket|] eqn:Hbucket;
    [|unfold EmitLevelZone in Hrun; rewrite Hz, Hlvl, Hbucket in Hrun;
      discriminate].
  rewrite (EmitLevelZone_unfold _ _ _ _ _ Hz Hlvl Hbucket) in Hrun.
  set (d2 := store_io_zone
               (set_level_zones d (<[lvl := bucket ∖ {[e]}]> (level_zones d)))
               e (set_busy (set_useinlevelzone z false) false)) in *.
  assert (spared d d2) as H2
      by (eapply (spared_store d d2 e z); eauto; reflexivity).
  destruct (bool_decide _).
  - destruct (first_free_empty (io_zones d2)) as [[a za]|] eqn:Hfind.
    + apply first_free_empty_Some in Hfind as (Hza & Hfa & _).
      simpl in Hrun. injection Hrun as <-.
      eapply spared_trans; [exact H2|].
      eapply (spared_take d2 _ a za); eauto.
    + simpl in Hrun. injection Hrun as <-. exact H2.
  - simpl in Hrun. injection Hrun as <-.
    eapply spared_trans; [exact H2|]. intros j zj Hj. exists zj. auto.
Qed.

Lemma ResetUnusedIOZones_visit_spared i (d : ZonedBlockDevice B) d' :
  device_after (ResetUnusedIOZones_visit IsLevelZone i d) = Some d' ->
  spared d d'.
Proof.
  unfold ResetUnusedIOZones_visit. intros Hrun.
  destruct (io_zones d !! i) as [z|] eqn:Hz; [|discriminate].
  destruct (busy_ z) eqn:Hbusy.
  { rewrite (Acquire_busy _ Hbusy) in Hrun. simpl in Hrun.
    injection Hrun as <-. apply spared_refl. }
  rewrite (Acquire_free _ Hbusy) in Hrun.
  change (IsEmpty (set_busy z true)) with (IsEmpty z) in Hrun.
  change (IsUsed (set_busy z true)) with (IsUsed z) in Hrun.
  change (IsFull (set_busy z true)) with (IsFull z) in Hrun.
  destruct (negb (IsEmpty z) && negb (IsUsed z)) eqn:Hreset.
  - apply andb_true_iff in Hreset as [_ Hunused].
    apply negb_true_iff in Hunused.
    destruct (Zone_Reset (zbd_be_ d) (set_busy z true))
      as [[b' z2] reset_status] eqn:Hres.
    assert (busy_ z2 = true /\ used_capacity_ z2 = used_capacity_ z)
      as [Hbusy2 Hused2].
    { unfold Zone_Reset in Hres.
      destruct (be_Reset (zbd_be_ d) (start_ (set_busy z true)))
        as [b1 [[ios offline] max_capacity]].
      destruct (negb (ok ios)); [injection Hres as _ <- _; auto|].
      destruct offline; injection Hres as _ <- _; auto. }
    rewrite (CheckRelease_busy _ Hbusy2) in Hrun.
    set (d1 := store_io_zone (set_be d b') i (set_busy z2 false)) in *.
    assert (spared d d1) as H1
        by (eapply (spared_store d d1 i z); eauto; reflexivity).
    destruct (negb (ok reset_status));
      [simpl in Hrun; injection Hrun as <-; exact H1|].
    cbn [ok negb] in Hrun.
    destruct (negb (IsFull z));
      [|simpl in Hrun; injection Hrun as <-; exact H1].
    destruct (IsLevelZone d1 i).
    + pose proof (EmitLevelZone_spared i d1 (set_busy z2 false) d') as Hemit.
      assert (io_zones d1 !! i = Some (set_busy z2 false)) as Hi.
      { unfold d1. simpl. apply list_lookup_insert_eq.
        eapply lookup_lt_Some; eauto. }
      specialize (Hemit Hi eq_refl).
      assert (IsUsed (set_busy z2 false) = false) as Hun2.
      { unfold IsUsed in *. simpl. rewrite Hused2. exact Hunused. }
      specialize (Hemit Hun2).
      destruct (EmitLevelZone i d1) as [r d2|d2|d2|d2|];
        simpl in Hrun, Hemit; try discriminate;
        (eapply spared_trans; [exact H1|apply Hemit; exact Hrun]).
    + simpl in Hrun. injection Hrun as <-.
      eapply spared_trans; [exact H1|]. intros j zj Hj. exists zj. auto.
  - rewrite (CheckRelease_busy (set_busy z true)) in Hrun by reflexivity.
    rewrite (release_after_acquire _ Hbusy) in Hrun.
    cbn [ok negb] in Hrun. simpl in Hrun. injection Hrun as <-.
    intros j zj Hj. exists zj. simpl.
    rewrite (list_insert_id _ _ _ Hz). auto.
Qed.

Lemma ResetUnusedIOZones_loop_spared idxs :
  forall (d d' : ZonedBlockDevice B),
    device_after (ResetUnusedIOZones_loop IsLevelZone idxs d) = Some d' ->
    spared d d'.
Proof.
  induction idxs as [|i rest IH]; intros d d' Hrun.
  - simpl in Hrun. injection Hrun as <-. apply spared_refl.
  - cbn [ResetUnusedIOZones_loop] in Hrun.
    pose proof (ResetUnusedIOZones_visit_spared i d) as Hvisit.
    destruct (ResetUnusedIOZones_visit IsLevelZone i d)
      as [[s|] d1|d1|d1|d1|]; simpl in Hrun, Hvisit; try discriminate;
      try (injection Hrun as <-; apply Hvisit; reflexivity).
    eapply spared_trans; [apply Hvisit; reflexivity|apply IH; exact Hrun].
Qed.

(** X17. [ResetUnusedIOZones], whether it returns or stops on the way in
    [EmitLevelZone]: a zone that somebody holds is left exactly as it was,
    and a zone with live data keeps its write pointer, its capacity and
    its live bytes, whatever the device answers and whatever
    [IsLevelZone] says. *)
Theorem ResetUnusedIOZones_spares (d d' : ZonedBlockDevice B) :
  device_after (ResetUnusedIOZones IsLevelZone d) = Some d' ->
  forall (j : nat) (z : Zone),
    io_zones d !! j = Some z ->
    exists z',
      io_zones d' !! j = Some z' /\
      (busy_ z = true -> z' = z) /\
      (IsUsed z = true ->
         wp_ z' = wp_ z /\ capacity_ z' = capacity_ z /\
         used_capacity_ z' = used_capacity_ z).
Proof.
  unfold ResetUnusedIOZones. intros Hrun.
  exact (ResetUnusedIOZones_loop_spared _ _ _ Hrun).
Qed.

End SpareFacts.

Lemma ResetUnusedIOZones_spares_witness :
  exists d' z6 z6' z7,
    ResetUnusedIOZones IsLevelZone_bucket stale_device = Returned OK d' /\
    io_zones stale_device !! 6%nat = Some z6 /\ IsUsed z6 = true /\
    io_zones d' !! 6%nat = Some z6' /\
    wp_ z6' = wp_ z6 /\ capacity_ z6' = capacity_ z6 /\
    io_zones d' !! 7%nat = Some z7 /\ IsEmpty z7 = true /\
    active_io_zones_ d' = active_io_zones_ stale_device - 1.
Proof.
  assert (exists d', ResetUnusedIOZones IsLevelZone_bucket stale_device =
                       Returned OK d') as [d' Hrun]
      by (eexists; vm_compute; reflexivity).
  assert (exists z6, io_zones stale_device !! 6%nat = Some z6 /\
                     IsUsed z6 = true) as (z6 & Hz6 & Hused)
      by (eexists; split; [vm_compute; reflexivity|reflexivity]).
  destruct (ResetUnusedIOZones_spares IsLevelZone_bucket stale_device d'
              ltac:(rewrite Hrun; reflexivity) 6%nat z6 Hz6)
    as (z6' & Hz6' & _ & Hkeeps).
  destruct (Hkeeps Hused) as (Hwp & Hcap & _).
  exists d', z6, z6'. eexists.
  split; [exact Hrun|]. split; [exact Hz6|]. split; [exact Hused|].
  split; [exact Hz6'|]. split; [exact Hwp|]. split; [exact Hcap|].
  assert (Returned OK d' =
          ResetUnusedIOZones IsLevelZone_bucket stale_device) as Heq
      by (symmetry; exact Hrun).
  vm_compute in Heq. injection Heq as ->.
  split; [vm_compute; reflexivity|]. split; reflexivity.
Defined.

(** ** AllocateEmptyZone *)

Section EmptyZoneSpec.
Context {B : Type} `{!ZonedBlockDeviceBackend B}.

(** X18. [AllocateEmptyZone] always returns [OK]. It hands out the first
    I/O zone that nobody holds and that is empty, held from then on, and
    changes nothing else; it hands out no zone, and changes nothing,
    exactly when every I/O zone is held or written to. *)
Theorem AllocateEmptyZone_first (d : ZonedBlockDevice B) :
  (AllocateEmptyZone d).1.1 = OK /\
  (forall a,
     (AllocateEmptyZone d).1.2 = Some a ->
     exists z,
       io_zones d !! a = Some z /\ busy_ z = false /\ IsEmpty z = true /\
       (forall j zj, (j < a)%nat -> io_zones d !! j = Some zj ->
                     busy_ zj = true \/ IsEmpty zj = false) /\
       (AllocateEmptyZone d).2 = store_io_zone d a (set_busy z true)) /\
  ((AllocateEmptyZone d).1.2 = None <->
     forall j zj, io_zones d !! j = Some zj ->
                  busy_ zj = true \/ IsEmpty zj = false) /\
  ((AllocateEmptyZone d).1.2 = None -> (AllocateEmptyZone d).2 = d).
Proof.
  assert (forall z, free_empty z <> true ->
                    busy_ z = true \/ IsEmpty z = false) as Hnot.
  { intros z Hz. unfold free_empty in Hz.
    destruct (busy_ z); [auto|]. destruct (IsEmpty z); [|auto].
    exfalso. apply Hz. reflexivity. }
  rewrite AllocateEmptyZone_spec. unfold first_free_empty.
  destruct (list_find (fun z => free_empty z = true) (io_zones d))
    as [[a z]|] eqn:Hfind; simpl.
  - apply list_find_Some in Hfind as (Hz & Hfe & Hfirst).
    assert (busy_ z = false /\ IsEmpty z = true) as [Hfree Hempty].
    { unfold free_empty in Hfe. destruct (busy_ z); [discriminate|].
      destruct (IsEmpty z); [auto|discriminate]. }
    split; [reflexivity|]. split; [|split; [|discriminate]].
    + intros a' Ha'. injection Ha' as <-. exists z.
      split; [exact Hz|]. split; [exact Hfree|]. split; [exact Hempty|].
      split; [|reflexivity].
      intros j zj Hlt Hj. apply Hnot. exact (Hfirst j zj Hj Hlt).
    + split; [discriminate|]. intros Hall.
      destruct (Hall a z Hz); congruence.
  - apply list_find_None in Hfind.
    split; [reflexivity|]. split; [discriminate|].
    split; [|reflexivity]. split; [|reflexivity].
    intros _ j zj Hj. apply Hnot.
    rewrite Forall_forall in Hfind. apply Hfind.
    apply list_elem_of_lookup. eauto.
Qed.

End EmptyZoneSpec.

(** ** A reset forgets what was written *)

Section ResetForgets.
Context {B : Type} `{!ZonedBlockDeviceBackend B}.

Lemma Append_loop_differ fuel :
  forall (b : B) z left b' z' s rets,
    Append_loop fuel b z left = Some (b', z', s, rets) ->
    only_wp_capacity_differ z z'.
Proof.
  induction fuel as [|fuel IH]; intros b z left b' z' s rets Hrun;
    simpl in Hrun; destruct (left =? 0);
    try discriminate;
    try (injection Hrun as <- <- <- <-; apply only_wp_capacity_differ_refl).
  destruct (be_Write b left (wp_ z)) as [b1 ret].
  destruct (ret <? 0);
    [injection Hrun as <- <- <- <-; apply only_wp_capacity_differ_refl|].
  destruct (Append_loop fuel b1 _ _) as [[[[b2 z2] s2] rets2]|] eqn:Hrest;
    [|discriminate].
  injection Hrun as <- <- <- <-.
  apply IH in Hrest. eapply only_wp_capacity_differ_step. exact Hrest.
Qed.

(** [Zone::Reset] reads the start of the zone only: it writes the write
    pointer, the capacity and the lifetime, and leaves the other fields. *)
Lemma Zone_Reset_differ (b b' : B) z z' ios offline max_capacity :
  only_wp_capacity_differ z z' ->
  be_Reset b (start_ z) = (b', (ios, offline, max_capacity)) ->
  ok ios = true ->
  Zone_Reset b z' =
    (b',
     mkZone (busy_ z) (start_ z)
            (if (offline : bool) then max_capacity_ z else max_capacity)
            (start_ z) WLTH_NOT_SET (used_capacity_ z)
            (if offline then 0 else max_capacity) (useinlevelzone_ z),
     OK).
Proof.
  unfold only_wp_capacity_differ. intros Hsame Hreset Hok.
  assert (start_ z' = start_ z) as Hstart by (rewrite Hsame; reflexivity).
  unfold Zone_Reset. rewrite Hstart, Hreset, Hok. cbn [negb].
  rewrite Hsame. destruct offline; reflexivity.
Qed.

(** X19. A zone that went through [Append] and [Finish] and is then
    reset, each call on the device state the call before left, is the
    zone a reset of the untouched zone gives: empty, with the capacity the
    device reports at the reset, lifetime [NOT_SET] and every other field
    as before the [Append]. Nothing of what was appended, of how the
    writes were split, of whether [Append] or [Finish] failed is left in
    the zone: [Append] and [Finish] only move the write pointer and the
    capacity, and [Reset] reads neither and sets both anew. When the
    device refuses the reset, the zone stays as [Finish] left it. *)
Theorem Zone_Reset_forgets (fuel : nat) (b b1 b2 b3 : B) (z z1 z2 : Zone)
        (size : Z) (s1 s2 ios : IOStatus) (rets : list Z)
        (offline : bool) (max_capacity : Z) :
  Zone_Append fuel b z size = Some (b1, z1, s1, rets) ->
  Zone_Finish b1 z1 = (b2, z2, s2) ->
  be_Reset b2 (start_ z) = (b3, (ios, offline, max_capacity)) ->
  only_wp_capacity_differ z z2 /\
  (ok ios = false -> Zone_Reset b2 z2 = (b3, z2, ios)) /\
  (ok ios = true ->
     let fresh :=
       mkZone (busy_ z) (start_ z)
              (if offline then max_capacity_ z else max_capacity)
              (start_ z) WLTH_NOT_SET (used_capacity_ z)
              (if offline then 0 else max_capacity) (useinlevelzone_ z) in
     Zone_Reset b2 z2 = (b3, fresh, OK) /\
     Zone_Reset b2 z = (b3, fresh, OK) /\
     IsEmpty fresh = true).
Proof.
  intros Happend Hfinish Hreset.
  assert (only_wp_capacity_differ z z1) as H1.
  { unfold Zone_Append in Happend. destruct (capacity_ z <? size).
    - injection Happend as <- <- <- <-. apply only_wp_capacity_differ_refl.
    - eapply Append_loop_differ. exact Happend. }
  assert (only_wp_capacity_differ z z2) as H2.
  { unfold Zone_Finish in Hfinish.
    destruct (be_Finish b1 (start_ z1)) as [b' ios'].
    destruct (negb (ok ios')); injection Hfinish as <- <- <-; [exact H1|].
    unfold only_wp_capacity_differ in *. rewrite H1. reflexivity. }
  split; [exact H2|]. split.
  - intros Hko. unfold Zone_Reset.
    assert (start_ z2 = start_ z) as ->
        by (unfold only_wp_capacity_differ in H2; rewrite H2; reflexivity).
    rewrite Hreset, Hko. reflexivity.
  - intros Hok fresh.
    split; [exact (Zone_Reset_differ _ _ _ _ _ _ _ H2 Hreset Hok)|].
    split; [|unfold IsEmpty; simpl; apply Z.eqb_refl].
    exact (Zone_Reset_differ _ _ _ _ _ _ _
             (only_wp_capacity_differ_refl z) Hreset Hok).
Qed.

End ResetForgets.

Lemma Zone_Reset_forgets_witness :
  exists z1 z2,
    Zone_Append 8 short_write_backend (held (zone_at 0 1024)) 1024 =
      Some (plain_backend, z1, OK, [512; 512]) /\
    Zone_Finish plain_backend z1 = (plain_backend, z2, OK) /\
    wp_ z1 = 2048 /\ wp_ z2 = 4096 /\ capacity_ z2 = 0 /\
    Zone_Reset plain_backend z2 =
      (plain_backend, mkZone true 0 4096 0 WLTH_NOT_SET 0 4096 false, OK).
Proof.
  assert (Zone_Append 8 short_write_backend (held (zone_at 0 1024)) 1024 =
            Some (plain_backend,
                  mkZone true 0 4096 2048 WLTH_NOT_SET 0 2048 false,
                  OK, [512; 512])) as Happend
      by (vm_compute; reflexivity).
  assert (Zone_Finish plain_backend
            (mkZone true 0 4096 2048 WLTH_NOT_SET 0 2048 false) =
            (plain_backend,
             mkZone true 0 4096 4096 WLTH_NOT_SET 0 0 false, OK)) as Hfinish
      by (vm_compute; reflexivity).
  assert (be_Reset plain_backend (start_ (held (zone_at 0 1024))) =
            (plain_backend, (OK, false, 4096))) as Hreset
      by (vm_compute; reflexivity).
  destruct (Zone_Reset_forgets 8 short_write_backend plain_backend
              plain_backend plain_backend (held (zone_at 0 1024)) _ _
              1024 OK OK OK [512; 512] false 4096 Happend Hfinish Hreset)
    as (_ & _ & Hfresh).
  destruct (Hfresh eq_refl) as (Hrun & _).
  eexists. eexists. split; [exact Happend|]. split; [exact Hfinish|].
  split; [reflexivity|]. split; [reflexivity|]. split; [reflexivity|].
  exact Hrun.
Defined.

(** ** The space statistics *)

Section SpaceFacts.
Context {B : Type} `{!ZonedBlockDeviceBackend B}.

Lemma fold_left_total (f : Zone -> Z) (zs : list Zone) :
  forall acc,
    fold_left (fun a z => u64 (a + f z)) zs (u64 acc) =
    u64 (acc + total f zs).
Proof.
  induction zs as [|z rest IH]; intros acc; simpl.
  - rewrite Z.add_0_r. reflexivity.
  - rewrite u64_add_l, IH. f_equal. lia.
Qed.

Lemma GetFreeSpace_total (d : ZonedBlockDevice B) :
  GetFreeSpace d = u64 (total capacity_ (io_zones d)).
Proof.
  unfold GetFreeSpace.
  exact (fold_left_total capacity_ (io_zones d) 0).
Qed.

Lemma GetUsedSpace_total (d : ZonedBlockDevice B) :
  GetUsedSpace d = u64 (total used_capacity_ (io_zones d)).
Proof.
  unfold GetUsedSpace.
  exact (fold_left_total used_capacity_ (io_zones d) 0).
Qed.

Lemma GetReclaimableSpace_total (d : ZonedBlockDevice B) :
  GetReclaimableSpace d = u64 (total reclaimable (io_zones d)).
Proof.
  unfold GetReclaimableSpace.
  assert (forall zs acc,
            fold_left
              (fun r z =>
                 if IsFull z
                 then u64 (r + u64 (max_capacity_ z - used_capacity_ z))
                 else r) zs (u64 acc) =
            u64 (acc + total reclaimable zs)) as Hfold.
  { induction zs as [|z rest IH]; intros acc; simpl.
    - rewrite Z.add_0_r. reflexivity.
    - unfold reclaimable at 1. destruct (IsFull z).
      + rewrite u64_add_l, IH. f_equal. lia.
      + rewrite IH. f_equal. }
  exact (Hfold (io_zones d) 0).
Qed.

Lemma total_insert (f : Zone -> Z) (zs : list Zone) :
  forall (i : nat) (z z' : Zone),
    zs !! i = Some z ->
    total f (<[i := z']> zs) = total f zs - f z + f z'.
Proof.
  induction zs as [|x rest IH]; intros i z z' Hi.
  - rewrite lookup_nil in Hi. discriminate.
  - destruct i as [|i]; simpl in *.
    + injection Hi as ->. lia.
    + rewrite (IH i z z' Hi). lia.
Qed.

Lemma cheapest_unique (zs : list Zone) v zv v' zv' :
  cheapest zs v zv -> cheapest zs v' zv' -> v = v' /\ zv = zv'.
Proof.
  intros (Hv & Hc & Hmin) (Hv' & Hc' & Hmin').
  destruct (Hmin _ _ Hv' Hc') as [Hle Hlt].
  destruct (Hmin' _ _ Hv Hc) as [Hle' Hlt'].
  assert (v = v') as -> by (destruct (Nat.lt_trichotomy v v') as [?|[?|?]]; lia).
  split; [reflexivity|congruence].
Qed.

(** X20. When [FinishCheapestIOZone] finishes a zone, [GetFreeSpace]
    drops by the capacity that zone had left, which is the least any zone
    that could be finished has left; [GetUsedSpace] is unchanged; and
    [GetReclaimableSpace] grows by what the zone holds beyond its live
    data. *)
Theorem FinishCheapestIOZone_space (d d' : ZonedBlockDevice B) v zv :
  cheapest (io_zones d) v zv ->
  FinishCheapestIOZone d = Returned OK d' ->
  GetFreeSpace d' = u64 (GetFreeSpace d - capacity_ zv) /\
  GetUsedSpace d' = GetUsedSpace d /\
  GetReclaimableSpace d' =
    u64 (GetReclaimableSpace d + u64 (max_capacity_ zv - used_capacity_ zv)) /\
  active_io_zones_ d' = active_io_zones_ d - 1 /\
  (forall j zj, io_zones d !! j = Some zj -> finish_candidate zj = true ->
                capacity_ zv <= capacity_ zj).
Proof.
  intros Hcheap Hrun.
  destruct (FinishCheapestIOZone_cases d)
    as [[Hnone _]|(v' & zv' & b' & ios & Hcheap' & Hfin & Hres)].
  { destruct Hcheap as (Hv & Hc & _). rewrite (Hnone _ _ Hv) in Hc.
    discriminate. }
  destruct (cheapest_unique _ _ _ _ _ Hcheap Hcheap') as [<- <-].
  destruct (ok ios); [|rewrite Hres in Hrun; discriminate].
  destruct Hres as (z' & Hrun' & (Hcap0 & Hdiff) & Hbusy' & Hwp').
  rewrite Hrun' in Hrun. injection Hrun as <-.
  destruct Hcheap as (Hv & Hc & Hmin).
  assert (IsFull zv = false) as Hnotfull.
  { unfold finish_candidate in Hc. destruct (IsFull zv); [|reflexivity].
    rewrite orb_true_r in Hc. destruct (busy_ zv); discriminate. }
  assert (used_capacity_ z' = used_capacity_ zv /\
          max_capacity_ z' = max_capacity_ zv) as [Hused Hmax]
      by (rewrite Hdiff; auto).
  rewrite !GetFreeSpace_total, !GetUsedSpace_total, !GetReclaimableSpace_total.
  cbn [io_zones PutActiveIOZoneToken set_active store_io_zone set_io_zones
       set_be active_io_zones_].
  rewrite !(total_insert _ _ _ _ _ Hv).
  split; [rewrite u64_sub_l, Hcap0; f_equal; lia|].
  split; [rewrite Hused; f_equal; lia|].
  split.
  - rewrite u64_add_l. f_equal.
    unfold reclaimable. rewrite Hnotfull.
    unfold IsFull. rewrite Hcap0, Hused, Hmax. simpl. lia.
  - split; [reflexivity|]. intros j zj Hj Hcj. apply (Hmin j zj Hj Hcj).
Qed.

End SpaceFacts.

Lemma FinishCheapestIOZone_space_witness :
  exists d',
    FinishCheapestIOZone threshold_device = Returned OK d' /\
    cheapest (io_zones threshold_device) 6
             (mkZone false 36864 4096 (36864 + 3584) WLTH_MEDIUM 2048 512 false) /\
    GetFreeSpace threshold_device = 37376 /\
    GetFreeSpace d' = 36864 /\
    GetReclaimableSpace d' = 2048.
Proof.
  assert (exists d', FinishCheapestIOZone threshold_device = Returned OK d')
    as [d' Hrun] by (eexists; vm_compute; reflexivity).
  assert (cheapest (io_zones threshold_device) 6
            (mkZone false 36864 4096 (36864 + 3584) WLTH_MEDIUM 2048 512 false))
    as Hcheap.
  { split; [vm_compute; reflexivity|]. split; [reflexivity|].
    intros j zj Hj Hcj.
    do 10 (destruct j as [|j];
           [vm_compute in Hj; injection Hj as <-;
            first [discriminate Hcj | simpl; lia]|]).
    vm_compute in Hj. discriminate. }
  destruct (FinishCheapestIOZone_space threshold_device d' 6 _ Hcheap Hrun)
    as (Hfree & _ & Hrecl & _).
  exists d'. split; [exact Hrun|]. split; [exact Hcheap|].
  split; [vm_compute; reflexivity|].
  split; [rewrite Hfree; vm_compute; reflexivity|].
  rewrite Hrecl. vm_compute. reflexivity.
Defined.

(** ** The buckets hold their zones *)

Section BoundFacts.
Context {B : Type} `{!ZonedBlockDeviceBackend B}.
Variable IsLevelZone : ZonedBlockDevice B -> nat -> bool.

Lemma AllocateIOZone_take_bound lifetime level (d : ZonedBlockDevice B) r d' :
  buckets_bound d ->
  lifetime = Z.of_nat level + lifetime_begin_ d ->
  AllocateIOZone_take lifetime level d = Returned r d' ->
  kept d d' /\
  forall a, r.2 = Some a ->
    exists z, io_zones d' !! a = Some z /\ IsBusy z = true /\
              useinlevelzone_ z = true /\ lifetime_ z = lifetime.
Proof.
  intros Hbound Hlife Hrun. unfold AllocateIOZone_take in Hrun.
  destruct (level_active_io_zones_ d !! level) as [idle|]; [|discriminate].
  destruct (level_zones d !! level) as [bucket|] eqn:Hbucket; [|discriminate].
  destruct (0 <? idle).
  - destruct (find_idle_zone _ bucket) as [a|] eqn:Hfind; [|discriminate].
    apply find_idle_zone_Some in Hfind as (Hin & z & Hz & Hflag).
    cbn [io_zones set_level_active] in Hz, Hrun. rewrite Hz in Hrun.
    injection Hrun as <- <-.
    destruct (Hbound _ _ _ Hbucket Hin) as (z' & Hz' & Hbusy & Hclass).
    rewrite Hz in Hz'. injection Hz' as <-.
    assert (a < length (io_zones d))%nat as Hla by (eapply lookup_lt_Some; eauto).
    split.
    + split; [reflexivity|]. split; [reflexivity|]. intros _.
      intros lvl b i Hb Hi. simpl in Hb.
      destruct (Hbound _ _ _ Hb Hi) as (zi & Hzi & Hbi & Hli). simpl.
      destruct (decide (i = a)) as [->|Hne].
      * rewrite Hz in Hzi. injection Hzi as <-. eexists.
        split; [apply list_lookup_insert_eq; exact Hla|]. auto.
      * exists zi.
        rewrite list_lookup_insert_ne by (intros ->; apply Hne; reflexivity).
        auto.
    + intros a' Ha'. injection Ha' as <-. eexists.
      split; [simpl; apply list_lookup_insert_eq; exact Hla|].
      split; [exact Hbusy|]. split; [reflexivity|]. simpl. lia.
  - rewrite AllocateEmptyZone_spec in Hrun.
    destruct (first_free_empty _) as [[a za]|] eqn:Hfind; [|discriminate].
    apply first_free_empty_Some in Hfind as (Hza & Hfree & _).
    cbn [io_zones set_active set_open] in Hza.
    assert (a < length (io_zones d))%nat as Hla by (eapply lookup_lt_Some; eauto).
    cbn [ok negb] in Hrun. unfold store_io_zone in Hrun.
    cbn [io_zones set_io_zones set_active set_open level_zones
         set_level_zones] in Hrun.
    rewrite list_lookup_insert_eq in Hrun by exact Hla.
    rewrite Hbucket in Hrun.
    rewrite list_lookup_insert_eq in Hrun
      by (rewrite length_insert; exact Hla).
    injection Hrun as <- <-.
    assert (level < length (level_zones d))%nat as Hll
        by (eapply lookup_lt_Some; eauto).
    split.
    + split; [reflexivity|]. split; [reflexivity|]. intros _.
      intros lvl b i Hb Hi. simpl in Hb. simpl.
      rewrite !list_insert_insert_eq.
      assert (forall i0, i0 <> a ->
                forall l b0, level_zones d !! l = Some b0 -> i0 ∈ b0 ->
                exists z0,
                  <[a := set_useinlevelzone
                           (set_lifetime (set_busy za true) lifetime) true]>
                    (io_zones d) !! i0 = Some z0 /\
                  busy_ z0 = true /\
                  lifetime_ z0 = Z.of_nat l + lifetime_begin_ d) as Hold.
      { intros i0 Hne l b0 Hl Hi0.
        destruct (Hbound _ _ _ Hl Hi0) as (zi & Hzi & Hbi & Hli).
        exists zi.
        rewrite list_lookup_insert_ne by (intros ->; apply Hne; reflexivity).
        auto. }
      assert (forall l b0, level_zones d !! l = Some b0 -> a ∉ b0) as Hfresh.
      { intros l b0 Hl Ha.
        destruct (Hbound _ _ _ Hl Ha) as (zi & Hzi & Hbi & _).
        rewrite Hza in Hzi. injection Hzi as <-. congruence. }
      apply list_lookup_insert_Some in Hb as [(<- & <- & _)|(Hne & Hb)].
      * apply elem_of_union in Hi as [Hi|Hi].
        -- apply elem_of_singleton in Hi as ->. eexists.
           split; [apply list_lookup_insert_eq; exact Hla|].
           split; [reflexivity|]. simpl. exact Hlife.
        -- refine (Hold i _ _ _ Hbucket Hi).
           intros ->. exact (Hfresh _ _ Hbucket Hi).
      * refine (Hold i _ _ _ Hb Hi).
        intros ->. exact (Hfresh _ _ Hb Hi).
    + intros a' Ha'. injection Ha' as <-. eexists.
      split; [simpl; rewrite !list_insert_insert_eq;
              apply list_lookup_insert_eq; exact Hla|].
      split; [reflexivity|]. split; reflexivity.
Qed.

Lemma AllocateIOZone_level_bound file_lifetime file_id
      (d : ZonedBlockDevice B) r d' :
  buckets_bound d ->
  AllocateIOZone_level file_lifetime file_id d = Returned r d' ->
  kept d d' /\
  forall a, r.2 = Some a ->
    exists z, io_zones d' !! a = Some z /\ IsBusy z = true /\
              useinlevelzone_ z = true /\
              lifetime_ z = effective_lifetime d file_lifetime file_id.
Proof.
  unfold AllocateIOZone_level. intros Hbound Hrun.
  destruct (level_index d _) as [level|] eqn:Hlevel; [|discriminate].
  apply level_index_Some in Hlevel as [Hlife _].
  destruct (level_active_io_zones_ d !! level) as [idle|] eqn:Hidle;
    [|discriminate].
  cbn [cv_wait] in Hrun. unfold AllocateIOZone_pred in Hrun.
  rewrite Hidle in Hrun.
  destruct ((0 <? idle) || _); [|discriminate].
  eapply AllocateIOZone_take_bound; eauto.
Qed.

(** X21. That every zone in a bucket is held and carries the lifetime of
    the class of the bucket is kept by each call of [AllocateIOZone],
    [InitialLevelZones], [EmitLevelZone] and [ReleaseLevelZone] that
    returns. With it, a zone that [AllocateIOZone] returns is held (the
    [assert] before the return holds), is marked as handed out and has the
    lifetime the allocator worked with. *)
Theorem buckets_bound_invariant (d : ZonedBlockDevice B) :
  buckets_bound d ->
  (forall file_lifetime io_type file_id r d',
     AllocateIOZone IsLevelZone file_lifetime io_type file_id d = Returned r d' ->
     buckets_bound d' /\
     forall a, r.2 = Some a ->
       exists z, io_zones d' !! a = Some z /\ IsBusy z = true /\
                 useinlevelzone_ z = true /\
                 lifetime_ z = effective_lifetime d file_lifetime file_id) /\
  (forall d', InitialLevelZones d = Returned tt d' -> buckets_bound d') /\
  (forall e r d', EmitLevelZone e d = Returned r d' -> buckets_bound d') /\
  (forall e d', ReleaseLevelZone e d = Returned tt d' -> buckets_bound d').
Proof.
  intros Hbound. split; [|split; [|split]].
  - intros file_lifetime io_type file_id r d' Hrun.
    unfold AllocateIOZone, AllocateIOZone_body in Hrun.
    destruct (negb (ok (GetZoneDeferredStatus d))).
    { injection Hrun as <- <-. split; [exact Hbound|discriminate]. }
    assert (forall d2,
              kept d d2 ->
              AllocateIOZone_level file_lifetime file_id d2 = Returned r d' ->
              buckets_bound d' /\
              forall a, r.2 = Some a ->
                exists z, io_zones d' !! a = Some z /\ IsBusy z = true /\
                          useinlevelzone_ z = true /\
                          lifetime_ z =
                            effective_lifetime d file_lifetime file_id)
      as Hlevel.
    { intros d2 (Hbegin & Hnum & Hkeep) Hrun2.
      destruct (AllocateIOZone_level_bound _ _ _ _ _ (Hkeep Hbound) Hrun2)
        as ((_ & _ & Hkeep') & Hzone).
      split; [exact (Hkeep' (Hkeep Hbound))|].
      intros a Ha. destruct (Hzone a Ha) as (z & Hz & Hb & Hf & Hl).
      exists z. rewrite Hl.
      rewrite (effective_lifetime_ext d d2 _ _ Hbegin).
      auto. }
    destruct (negb (is_kWAL io_type)); [|apply (Hlevel d (kept_refl d) Hrun)].
    unfold AllocateIOZone_after_threshold in Hrun.
    destruct (ApplyFinishThreshold d) as [s1 d1] eqn:Hft.
    pose proof (ApplyFinishThreshold_kept _ _ _ Hft) as Hk1.
    destruct (negb (ok s1)).
    { injection Hrun as <- <-. split; [|discriminate].
      destruct Hk1 as (_ & _ & Hk1). exact (Hk1 Hbound). }
    destruct (ResetUnusedIOZones IsLevelZone d1)
      as [s2 d2| | | |] eqn:Hreset; try discriminate.
    pose proof (ResetUnusedIOZones_loop_kept _ _ _ _ _ Hreset) as Hk2.
    pose proof (kept_trans _ _ _ Hk1 Hk2) as Hk.
    destruct (negb (ok s2)).
    { injection Hrun as <- <-. split; [|discriminate].
      destruct Hk as (_ & _ & Hk). exact (Hk Hbound). }
    apply (Hlevel d2 Hk Hrun).
  - intros d' Hrun. unfold InitialLevelZones in Hrun.
    apply InitialLevelZones_loop_spec in Hrun.
    exact (seeded_from_buckets_bound _ _ _ _ Hrun Hbound).
  - intros e r d' Hrun.
    exact (EmitLevelZone_keeps_buckets_bound _ _ _ _ Hrun Hbound).
  - intros e d' Hrun. unfold ReleaseLevelZone in Hrun.
    destruct (io_zones d !! e) as [z|] eqn:Hz; [|discriminate].
    destruct (level_index d (lifetime_ z)) as [lvl|]; [|discriminate].
    destruct (level_active_io_zones_ d !! lvl) as [idle|]; [|discriminate].
    injection Hrun as <-.
    intros l b i Hb Hi. simpl in Hb. simpl.
    destruct (Hbound _ _ _ Hb Hi) as (zi & Hzi & Hbi & Hli).
    destruct (decide (i = e)) as [->|Hne].
    + rewrite Hz in Hzi. injection Hzi as <-. eexists.
      split; [apply list_lookup_insert_eq; eapply lookup_lt_Some; eauto|].
      auto.
    + exists zi.
      rewrite list_lookup_insert_ne by (intros ->; apply Hne; reflexivity).
      auto.
Qed.

End BoundFacts.

Lemma buckets_bound_invariant_witness :
  buckets_bound (fresh_device 8) /\ buckets_bound seeded_device.
Proof.
  assert (buckets_bound (fresh_device 8)) as Hfresh.
  { intros lvl bucket i Hbucket Hi.
    change (level_zones (fresh_device 8)) with (replicate 6 (∅ : gset nat))
      in Hbucket.
    apply lookup_replicate in Hbucket as [-> _].
    exfalso. exact (not_elem_of_empty i Hi). }
  split; [exact Hfresh|].
  destruct (buckets_bound_invariant IsLevelZone_bucket (fresh_device 8) Hfresh)
    as (_ & Hseed & _).
  apply Hseed. vm_compute. reflexivity.
Defined.

Lemma GetIOZone_spec_witness :
  zones_disjoint 4096 (io_zones (fresh_device 8)) /\
  GetIOZone (4096 * 5 + 17) (fresh_device 8) = Some 2%nat /\
  GetIOZone 17 (fresh_device 8) = None.
Proof.
  assert (forall i z, io_zones (fresh_device 8) !! i = Some z ->
                      start_ z = 4096 * (3 + Z.of_nat i)) as Hstart.
  { intros i z Hi.
    do 10 (destruct i as [|i]; [injection Hi as <-; vm_compute; reflexivity|]).
    discriminate. }
  assert (zones_disjoint 4096 (io_zones (fresh_device 8))) as Hdisj.
  { intros i j zi zj offset Hi Hj [Hi1 Hi2] [Hj1 Hj2].
    rewrite (Hstart _ _ Hi) in Hi1, Hi2. rewrite (Hstart _ _ Hj) in Hj1, Hj2.
    assert (i < 10)%nat
      by (apply lookup_lt_Some in Hi; vm_compute in Hi; lia).
    assert (j < 10)%nat
      by (apply lookup_lt_Some in Hj; vm_compute in Hj; lia).
    rewrite u64_small in Hi2, Hj2 by lia. lia. }
  split; [exact Hdisj|].
  destruct (GetIOZone_spec (4096 * 5 + 17) (fresh_device 8))
    as (_ & _ & Hfind).
  split; [|reflexivity].
  apply (Hfind Hdisj 2%nat (zone_at (4096 * 5) 0)); [reflexivity|].
  vm_compute. split; [discriminate|reflexivity].
Defined.

(** ** AllocateMetaZone and the zones with live data *)

Section MetaHoldFacts.
Context {B : Type} `{!ZonedBlockDeviceBackend B}.

Lemma set_busy_held z : busy_ z = true -> set_busy z true = z.
Proof. intros Hbusy. destruct z; simpl in *; subst; reflexivity. Qed.

Lemma AllocateMetaZone_loop_holds (zs : list Zone) :
  forall (b : B) (idx : nat) s r b' zs',
    AllocateMetaZone_loop b zs idx = (s, r, b', zs') ->
    forall (k : nat) (z : Zone),
      zs !! k = Some z -> IsUsed z = true ->
      match r with Some a => (idx + k < a)%nat | None => True end ->
      zs' !! k = Some (set_busy z true).
Proof.
  induction zs as [|z0 rest IH]; intros b idx s r b' zs' Hrun k z Hk Hused Hbefore.
  - rewrite lookup_nil in Hk. discriminate.
  - cbn [AllocateMetaZone_loop] in Hrun.
    assert (forall b1 z0',
              (let '(s', r0, b'', rest') :=
                 AllocateMetaZone_loop b1 rest (S idx) in
               (s', r0, b'', z0' :: rest')) = (s, r, b', zs') ->
              (k = 0%nat -> z0' = set_busy z true) ->
              zs' !! k = Some (set_busy z true)) as Hnext.
    { intros b1 z0' Hrest Hhead.
      destruct (AllocateMetaZone_loop b1 rest (S idx))
        as [[[s1 r1] b2] rest'] eqn:Hloop.
      injection Hrest as <- <- <- <-.
      destruct k as [|k]; simpl in *; [rewrite Hhead by reflexivity; reflexivity|].
      eapply (IH _ _ _ _ _ _ Hloop); eauto.
      destruct r1; [lia|exact I]. }
    destruct (busy_ z0) eqn:Hbusy.
    { rewrite (Acquire_busy _ Hbusy) in Hrun.
      apply (Hnext _ _ Hrun). intros ->. simpl in Hk. injection Hk as <-.
      symmetry. apply set_busy_held. exact Hbusy. }
    rewrite (Acquire_free _ Hbusy) in Hrun.
    change (IsUsed (set_busy z0 true)) with (IsUsed z0) in Hrun.
    change (IsEmpty (set_busy z0 true)) with (IsEmpty z0) in Hrun.
    destruct (IsUsed z0) eqn:Hused0; cbn [negb] in Hrun.
    { apply (Hnext _ _ Hrun). intros ->. simpl in Hk. injection Hk as <-.
      reflexivity. }
    assert (k <> 0%nat) as Hk0.
    { intros ->. simpl in Hk. injection Hk as <-. congruence. }
    destruct (IsEmpty z0); cbn [negb] in Hrun.
    { injection Hrun as <- <- <- <-. lia. }
    unfold Zone_Reset in Hrun.
    destruct (be_Reset b (start_ (set_busy z0 true)))
      as [b1 [[ios offline] max_capacity]].
    destruct (ok ios) eqn:Hios; cbn [negb ok] in Hrun.
    { injection Hrun as <- <- <- <-. lia. }
    rewrite Hios in Hrun. cbn [negb] in Hrun.
    rewrite (CheckRelease_busy (set_busy z0 true)) in Hrun by reflexivity.
    cbn [ok negb] in Hrun. apply (Hnext _ _ Hrun). intros ->. contradiction.
Qed.

(** X22. [AllocateMetaZone] does not release a meta zone it acquired and
    found to hold live data: after the call every such zone before the zone
    returned (every such zone, when none is returned) is held, whether or
    not it was held before, and is otherwise unchanged. *)
Theorem AllocateMetaZone_holds_used_zones (d : ZonedBlockDevice B) s r d' :
  AllocateMetaZone d = (s, r, d') ->
  forall (j : nat) (z : Zone),
    meta_zones d !! j = Some z -> IsUsed z = true ->
    match r with Some a => (j < a)%nat | None => True end ->
    meta_zones d' !! j = Some (set_busy z true).
Proof.
  unfold AllocateMetaZone. intros Hrun j z Hj Hused Hbefore.
  destruct (AllocateMetaZone_loop (zbd_be_ d) (meta_zones d) 0)
    as [[[s1 r1] b1] zs1] eqn:Hloop.
  injection Hrun as <- <- <-. simpl.
  exact (AllocateMetaZone_loop_holds _ _ _ _ _ _ _ Hloop j z Hj Hused Hbefore).
Qed.

End MetaHoldFacts.

Lemma AllocateMetaZone_holds_used_zones_witness :
  exists d' z0,
    AllocateMetaZone meta_used_device = (OK, Some 1%nat, d') /\
    meta_zones meta_used_device !! 0%nat = Some z0 /\
    busy_ z0 = false /\ IsUsed z0 = true /\
    meta_zones d' !! 0%nat = Some (set_busy z0 true).
Proof.
  assert (exists d', AllocateMetaZone meta_used_device = (OK, Some 1%nat, d'))
    as [d' Hrun] by (eexists; vm_compute; reflexivity).
  assert (meta_zones meta_used_device !! 0%nat =
            Some (mkZone false 0 4096 1024 WLTH_NOT_SET 512 3072 false))
    as Hz0 by reflexivity.
  exists d'. eexists. split; [exact Hrun|]. split; [exact Hz0|].
  split; [reflexivity|]. split; [reflexivity|].
  apply (AllocateMetaZone_holds_used_zones meta_used_device OK (Some 1%nat) d'
           Hrun 0%nat _ Hz0); [reflexivity|lia].
Defined.

(** ** ApplyFinishThreshold, run again *)

Section FinishAgain.
Context {B : Type} `{!ZonedBlockDeviceBackend B}.

Lemma ApplyFinishThreshold_loop_nothing (zs : list Zone) :
  forall d : ZonedBlockDevice B,
    Forall (fun z => finish_eligible d z = false) zs ->
    ApplyFinishThreshold_loop d zs = (OK, d, zs).
Proof.
  induction zs as [|z rest IH]; intros d Hnone; [reflexivity|].
  inversion Hnone as [|? ? Hz Hrest]; subst.
  cbn [ApplyFinishThreshold_loop].
  destruct (busy_ z) eqn:Hbusy.
  - rewrite (Acquire_busy _ Hbusy), (IH d Hrest). reflexivity.
  - rewrite (Acquire_free _ Hbusy).
    unfold finish_eligible in Hz. rewrite Hbusy in Hz. cbn [negb andb] in Hz.
    change (IsEmpty (set_busy z true)) with (IsEmpty z).
    change (IsFull (set_busy z true)) with (IsFull z).
    change (within_finish_threshold d (set_busy z true))
      with (within_finish_threshold d z).
    rewrite Hz.
    rewrite (CheckRelease_busy (set_busy z true)) by reflexivity.
    cbn [ok negb]. rewrite (release_after_acquire _ Hbusy), (IH d Hrest).
    reflexivity.
Qed.

(** X23. [ApplyFinishThreshold] is idempotent: a second call right after
    a call that returned [OK] finds nothing to finish, returns [OK] and
    changes nothing, not even the state of the device. *)
Theorem ApplyFinishThreshold_again (d d' : ZonedBlockDevice B) :
  ApplyFinishThreshold d = (OK, d') ->
  ApplyFinishThreshold d' = (OK, d').
Proof.
  intros Hrun. unfold ApplyFinishThreshold in Hrun.
  destruct (Z.eqb_spec (finish_threshold_ d) 0) as [Hzero|Hnz].
  { injection Hrun as <-. unfold ApplyFinishThreshold.
    rewrite Hzero. reflexivity. }
  destruct (ApplyFinishThreshold_loop d (io_zones d)) as [[s d1] zs] eqn:Hloop.
  injection Hrun as -> <-.
  apply ApplyFinishThreshold_loop_spec in Hloop as (Hd1 & _ & Hok).
  destruct (Hok eq_refl) as [Hzones _].
  assert (finish_threshold_ d1 = finish_threshold_ d) as Hthr
      by (rewrite Hd1; reflexivity).
  assert (Forall (fun z => finish_eligible (set_io_zones d1 zs) z = false) zs)
    as Hnone.
  { assert (Forall (fun z => finish_eligible d z = false) zs) as Hd.
    { clear -Hzones.
      induction Hzones as [|z z' l l' Hz _ IH]; constructor; [|exact IH].
      destruct (finish_eligible d z) eqn:Helig; [|subst z'; exact Helig].
      destruct Hz as [Hcap _]. unfold finish_eligible, IsFull.
      rewrite Hcap. simpl. rewrite orb_true_r, andb_false_r. reflexivity. }
    eapply Forall_impl; [exact Hd|]. intros z Hz. simpl in Hz.
    rewrite (finish_eligible_ext d (set_io_zones d1 zs))
      by (simpl; exact Hthr).
    exact Hz. }
  unfold ApplyFinishThreshold.
  cbn [finish_threshold_ set_io_zones io_zones]. rewrite Hthr.
  destruct (Z.eqb_spec (finish_threshold_ d) 0); [contradiction|].
  rewrite (ApplyFinishThreshold_loop_nothing zs (set_io_zones d1 zs) Hnone).
  reflexivity.
Qed.

End FinishAgain.

Lemma ApplyFinishThreshold_again_witness :
  exists d',
    ApplyFinishThreshold threshold_device = (OK, d') /\
    active_io_zones_ d' = 6 /\
    ApplyFinishThreshold d' = (OK, d').
Proof.
  assert (exists d', ApplyFinishThreshold threshold_device = (OK, d'))
    as [d' Hrun] by (eexists; vm_compute; reflexivity).
  exists d'. split; [exact Hrun|].
  split; [|exact (ApplyFinishThreshold_again threshold_device d' Hrun)].
  assert ((OK, d') = ApplyFinishThreshold threshold_device) as Heq
      by (symmetry; exact Hrun).
  vm_compute in Heq. injection Heq as ->. reflexivity.
Defined.

(** ** The scans on a device with three open zones *)

(** For a file of lifetime [WLTH_MEDIUM] the zone of that lifetime wins;
    when it is too small, the last of the two [WLTH_LONG] zones does. *)
Example GetBestOpenZoneMatch_picks :
  (exists d',
     GetBestOpenZoneMatch WLTH_MEDIUM 256 open_device =
       Returned (OK, Some (0, Some 6%nat)) d') /\
  (exists d',
     GetBestOpenZoneMatch WLTH_MEDIUM 1024 open_device =
       Returned (OK, Some (1, Some 8%nat)) d') /\
  GetBestOpenZoneMatch WLTH_EXTREME 256 open_device =
    Returned (OK, Some (LIFETIME_DIFF_NOT_GOOD, Some 8%nat))
             (store_io_zone open_device 8
                (held (mkZone false 45056 4096 (45056 + 3072) WLTH_LONG 512
                              1024 false))) /\
  GetBestOpenZoneMatch WLTH_MEDIUM 4096 open_device =
    Returned (OK, Some (LIFETIME_DIFF_NOT_GOOD, None)) open_device.
Proof.
  split; [eexists; vm_compute; reflexivity|].
  split; [eexists; vm_compute; reflexivity|].
  split; vm_compute; reflexivity.
Qed.

(** The zone with 512 bytes left is the cheapest to finish. *)
Example FinishCheapestIOZone_picks :
  exists d' z6,
    FinishCheapestIOZone open_device = Returned OK d' /\
    io_zones d' !! 6%nat = Some z6 /\ IsFull z6 = true /\ busy_ z6 = false /\
    active_io_zones_ d' = active_io_zones_ open_device - 1 /\
    io_zones d' !! 7%nat = io_zones open_device !! 7%nat /\
    io_zones d' !! 8%nat = io_zones open_device !! 8%nat.
Proof.
  eexists. eexists. split; [vm_compute; reflexivity|].
  split; [vm_compute; reflexivity|]. repeat split; vm_compute; reflexivity.
Qed.

(** ** The start-up of the listed device *)

Lemma Open_closes_witness :
  exists d',
    Open false false true (unopened listed_backend) = (OK, d') /\
    lb_closed (zbd_be_ d') = [20480] /\
    exists d'',
      Open false true true (unopened listed_backend) = (OK, d'') /\
      zbd_be_ d'' = listed_backend.
Proof.
  assert (be_Open (zbd_be_ (unopened listed_backend)) false true =
            (listed_backend, (OK, 14, 14))) as Hopened by reflexivity.
  assert (be_Open (zbd_be_ (unopened listed_backend)) true true =
            (listed_backend, (OK, 14, 14))) as Hopened' by reflexivity.
  assert (be_ListZones listed_backend =
            (listed_backend, Some (map listed_zone (seq 0 40)))) as Hlisted
      by reflexivity.
  assert (exists d', Open false false true (unopened listed_backend) = (OK, d'))
    as [d' Hrun] by (eexists; vm_compute; reflexivity).
  assert (exists d'', Open false true true (unopened listed_backend) = (OK, d''))
    as [d'' Hrun'] by (eexists; vm_compute; reflexivity).
  destruct (Open_closes false false true (unopened listed_backend) d'
              listed_backend listed_backend OK 14 14 _ Hopened Hlisted Hrun)
    as [Hbe _].
  destruct (Open_closes false true true (unopened listed_backend) d''
              listed_backend listed_backend OK 14 14 _ Hopened' Hlisted Hrun')
    as [_ Hro].
  exists d'. split; [exact Hrun|]. split; [rewrite Hbe; vm_compute; reflexivity|].
  exists d''. split; [exact Hrun'|]. apply Hro. reflexivity.
Defined.

Lemma Open_zones_wf_witness :
  exists d',
    Open false false true (unopened listed_backend) = (OK, d') /\
    Forall descriptor_wf (map listed_zone (seq 0 40)) /\
    Forall (fun z => zone_wf z /\ wp_in_bounds z /\ busy_ z = false /\
                     IsUsed z = false /\ lifetime_ z = WLTH_NOT_SET)
           (meta_zones d' ++ io_zones d').
Proof.
  assert (be_Open (zbd_be_ (unopened listed_backend)) false true =
            (listed_backend, (OK, 14, 14))) as Hopened by reflexivity.
  assert (be_ListZones listed_backend =
            (listed_backend, Some (map listed_zone (seq 0 40)))) as Hlisted
      by reflexivity.
  assert (exists d', Open false false true (unopened listed_backend) = (OK, d'))
    as [d' Hrun] by (eexists; vm_compute; reflexivity).
  assert (Forall descriptor_wf (map listed_zone (seq 0 40))) as Hwf.
  { apply Forall_forall. intros zd Hin.
    apply list_elem_of_fmap in Hin as (k & -> & Hk).
    apply elem_of_seq in Hk. unfold descriptor_wf, listed_zone. simpl.
    destruct (k =? 5)%nat; lia. }
  exists d'. split; [exact Hrun|]. split; [exact Hwf|].
  exact (Open_zones_wf false false true (unopened listed_backend) d'
           listed_backend listed_backend OK 14 14 _ Hopened Hlisted Hwf
           eq_refl eq_refl Hrun).
Defined.

(** ** What the allocator comes to *)

Section OutcomeFacts.
Context {B : Type} `{!ZonedBlockDeviceBackend B}.

(** X26. Lines 919-1065 of [AllocateIOZone], for a caller that is alone
    and a class with a bucket and an idle count. With an idle zone
    counted, the call lowers the count and returns [OK] with a zone of the
    bucket that is not handed out, now marked as handed out; if the bucket
    has no such zone it dereferences a null pointer. With no idle zone
    counted: at the open cap it waits, with nothing changed; below the cap
    it charges one open and one active token and takes the first free
    empty zone, which gets the lifetime and joins the bucket marked as
    handed out, or, if there is no free empty zone, keeps retrying with the
    two tokens charged. It never returns an error. *)
Theorem AllocateIOZone_level_outcomes (file_lifetime file_id : Z)
        (d : ZonedBlockDevice B) (level : nat) (idle : Z) (bucket : gset nat) :
  level_index d (effective_lifetime d file_lifetime file_id) = Some level ->
  level_active_io_zones_ d !! level = Some idle ->
  level_zones d !! level = Some bucket ->
  let lifetime := effective_lifetime d file_lifetime file_id in
  let charged :=
    set_active (set_open d (open_io_zones_ d + 1)) (active_io_zones_ d + 1) in
  (0 < idle ->
     match find_idle_zone d bucket with
     | Some a =>
         exists z,
           io_zones d !! a = Some z /\ a ∈ bucket /\
           useinlevelzone_ z = false /\
           AllocateIOZone_level file_lifetime file_id d =
             Returned (OK, Some a)
               (store_io_zone
                  (set_level_active d
                     (<[level := idle - 1]> (level_active_io_zones_ d)))
                  a (set_useinlevelzone z true))
     | None => AllocateIOZone_level file_lifetime file_id d = Undefined
     end) /\
  (idle <= 0 -> max_nr_open_io_zones_ d <= open_io_zones_ d ->
     AllocateIOZone_level file_lifetime file_id d = Blocked d) /\
  (idle <= 0 -> open_io_zones_ d < max_nr_open_io_zones_ d ->
     match first_free_empty (io_zones d) with
     | Some (a, za) =>
         AllocateIOZone_level file_lifetime file_id d =
           Returned (OK, Some a)
             (set_level_zones
                (store_io_zone charged a
                   (set_useinlevelzone
                      (set_lifetime (set_busy za true) lifetime) true))
                (<[level := {[a]} ∪ bucket]> (level_zones d)))
     | None =>
         AllocateIOZone_level file_lifetime file_id d = Retrying charged
     end) /\
  (forall s r d',
     AllocateIOZone_level file_lifetime file_id d = Returned (s, r) d' ->
     s = OK /\ exists a, r = Some a).
Proof.
  intros Hlevel Hidle Hbucket lifetime charged.
  assert (AllocateIOZone_level file_lifetime file_id d =
          if (0 <? idle) || (open_io_zones_ d <? max_nr_open_io_zones_ d)
          then AllocateIOZone_take lifetime level d
          else Blocked d) as Hwait.
  { unfold AllocateIOZone_level. rewrite Hlevel, Hidle. cbn [cv_wait].
    unfold AllocateIOZone_pred. rewrite Hidle. fold lifetime.
    destruct ((0 <? idle) || _); reflexivity. }
  assert (0 < idle ->
          AllocateIOZone_take lifetime level d =
          match find_idle_zone d bucket with
          | Some a =>
              match io_zones d !! a with
              | Some z =>
                  Returned (OK, Some a)
                    (store_io_zone
                       (set_level_active d
                          (<[level := idle - 1]> (level_active_io_zones_ d)))
                       a (set_useinlevelzone z true))
              | None => Undefined
              end
          | None => Undefined
          end) as Hreuse.
  { intros Hpos. unfold AllocateIOZone_take. rewrite Hidle, Hbucket.
    destruct (Z.ltb_spec 0 idle); [|lia]. reflexivity. }
  assert (idle <= 0 ->
          AllocateIOZone_take lifetime level d =
          match first_free_empty (io_zones d) with
          | Some (a, za) =>
              Returned (OK, Some a)
                (set_level_zones
                   (store_io_zone charged a
                      (set_useinlevelzone
                         (set_lifetime (set_busy za true) lifetime) true))
                   (<[level := {[a]} ∪ bucket]> (level_zones d)))
          | None => Retrying charged
          end) as Hnew.
  { intros Hnone. unfold AllocateIOZone_take. rewrite Hidle, Hbucket.
    destruct (Z.ltb_spec 0 idle); [lia|].
    rewrite AllocateEmptyZone_spec. cbn [io_zones set_active set_open].
    destruct (first_free_empty (io_zones d)) as [[a za]|] eqn:Hfind;
      [|reflexivity].
    apply first_free_empty_Some in Hfind as (Hza & _).
    assert (a < length (io_zones d))%nat as Hla by (eapply lookup_lt_Some; eauto).
    cbn [ok negb]. unfold store_io_zone.
    cbn [io_zones set_io_zones set_active set_open level_zones
         set_level_zones].
    rewrite list_lookup_insert_eq by exact Hla. rewrite Hbucket.
    rewrite list_lookup_insert_eq by (rewrite length_insert; exact Hla).
    rewrite !list_insert_insert_eq. reflexivity. }
  split; [|split; [|split]].
  - intros Hpos. rewrite Hwait, (Hreuse Hpos).
    destruct (Z.ltb_spec 0 idle); [|lia]. cbn [orb].
    destruct (find_idle_zone d bucket) as [a|] eqn:Hfind; [|reflexivity].
    apply find_idle_zone_Some in Hfind as (Hin & z & Hz & Hflag).
    exists z. rewrite Hz. auto.
  - intros Hnone Hcap. rewrite Hwait.
    destruct (Z.ltb_spec 0 idle); [lia|].
    destruct (Z.ltb_spec (open_io_zones_ d) (max_nr_open_io_zones_ d));
      [lia|reflexivity].
  - intros Hnone Hcap. rewrite Hwait, (Hnew Hnone).
    destruct (Z.ltb_spec 0 idle); [lia|].
    destruct (Z.ltb_spec (open_io_zones_ d) (max_nr_open_io_zones_ d));
      [|lia].
    cbn [orb]. destruct (first_free_empty (io_zones d)) as [[a za]|];
      reflexivity.
  - intros s r d' Hrun. rewrite Hwait in Hrun.
    destruct ((0 <? idle) || _); [|discriminate].
    destruct (Z.ltb_spec 0 idle) as [Hpos|Hnone].
    + rewrite (Hreuse Hpos) in Hrun.
      destruct (find_idle_zone d bucket) as [a|]; [|discriminate].
      destruct (io_zones d !! a) as [z|]; [|discriminate].
      injection Hrun as <- <- _. eauto.
    + rewrite (Hnew Hnone) in Hrun.
      destruct (first_free_empty (io_zones d)) as [[a za]|]; [|discriminate].
      injection Hrun as <- <- _. eauto.
Qed.

End OutcomeFacts.

Lemma AllocateIOZone_level_outcomes_witness :
  (exists d',
     AllocateIOZone_level WLTH_MEDIUM 7 seeded_device =
       Returned (OK, Some 0%nat) d') /\
  AllocateIOZone_level WLTH_MEDIUM 7
    (set_level_active (set_open seeded_device 8) (replicate 6 0)) =
    Blocked (set_level_active (set_open seeded_device 8) (replicate 6 0)).
Proof.
  assert (level_index seeded_device
            (effective_lifetime seeded_device WLTH_MEDIUM 7) = Some 0%nat)
    as Hlevel by (vm_compute; reflexivity).
  assert (level_active_io_zones_ seeded_device !! 0%nat = Some 1) as Hidle
      by (vm_compute; reflexivity).
  assert (exists bucket, level_zones seeded_device !! 0%nat = Some bucket)
    as [bucket Hbucket] by (eexists; vm_compute; reflexivity).
  destruct (AllocateIOZone_level_outcomes WLTH_MEDIUM 7 seeded_device 0 1
              bucket Hlevel Hidle Hbucket) as (_ & _ & _ & Hok).
  destruct (AllocateIOZone_level_outcomes WLTH_MEDIUM 7
              (set_level_active (set_open seeded_device 8) (replicate 6 0))
              0 0 bucket Hlevel ltac:(reflexivity) Hbucket)
    as (_ & Hblocked & _).
  split.
  - assert (exists s r d',
              AllocateIOZone_level WLTH_MEDIUM 7 seeded_device =
                Returned (s, r) d' /\ r = Some 0%nat)
      as (s & r & d' & Hrun & ->)
        by (eexists; eexists; eexists; split; vm_compute; reflexivity).
    destruct (Hok s _ d' Hrun) as [-> _]. exists d'. exact Hrun.
  - apply Hblocked; [lia|]. vm_compute. discriminate.
Defined.

(** ** A lifetime zone is emitted after its reset *)

Section EmitAfterReset.
Context {B : Type} `{!ZonedBlockDeviceBackend B}.
Variable IsLevelZone : ZonedBlockDevice B -> nat -> bool.

(** The lifetime [Zone::Reset] leaves is below the first class. *)
Lemma level_index_NOT_SET (d : ZonedBlockDevice B) :
  0 < lifetime_begin_ d -> level_index d WLTH_NOT_SET = None.
Proof.
  intros Hbegin. unfold level_index, WLTH_NOT_SET.
  destruct (Z.leb_spec 0 (0 - lifetime_begin_ d)); [lia|reflexivity].
Qed.

(** X27. [ResetUnusedIOZones] emits a lifetime zone after it has reset
    it, and [Zone::Reset] has set the lifetime of the zone to [NOT_SET]:
    with classes that start above [NOT_SET] the bucket index that
    [EmitLevelZone] computes is out of range. So for a free zone that is
    written, not full and without live data, that the device resets and
    that [IsLevelZone] takes for a lifetime zone, the visit of the zone
    has no defined outcome, and neither has the pass from that zone on. *)
Theorem ResetUnusedIOZones_emits_reset_zone (i : nat)
        (d : ZonedBlockDevice B) (z : Zone) (b' : B) (offline : bool)
        (max_capacity : Z) :
  0 < lifetime_begin_ d ->
  io_zones d !! i = Some z ->
  busy_ z = false -> IsEmpty z = false -> IsUsed z = false ->
  IsFull z = false ->
  be_Reset (zbd_be_ d) (start_ z) = (b', (OK, offline, max_capacity)) ->
  let reset :=
    mkZone false (start_ z)
           (if offline then max_capacity_ z else max_capacity)
           (start_ z) WLTH_NOT_SET (used_capacity_ z)
           (if offline then 0 else max_capacity) (useinlevelzone_ z) in
  let d1 := store_io_zone (set_be d b') i reset in
  IsLevelZone d1 i = true ->
  EmitLevelZone i d1 = Undefined /\
  ResetUnusedIOZones_visit IsLevelZone i d = Undefined /\
  (forall rest,
     ResetUnusedIOZones_loop IsLevelZone (i :: rest) d = Undefined) /\
  (i = 0%nat -> ResetUnusedIOZones IsLevelZone d = Undefined).
Proof.
  intros Hbegin Hz Hfree Hwritten Hunused Hroom Hreset reset d1 Hlevel.
  assert (i < length (io_zones d))%nat as Hi
      by (eapply lookup_lt_Some; eauto).
  assert (EmitLevelZone i d1 = Undefined) as Hemit.
  { unfold EmitLevelZone, d1. cbn [io_zones store_io_zone set_io_zones set_be].
    rewrite list_lookup_insert_eq by exact Hi.
    unfold reset. cbn [lifetime_].
    rewrite level_index_NOT_SET by exact Hbegin. reflexivity. }
  assert (ResetUnusedIOZones_visit IsLevelZone i d = Undefined) as Hvisit.
  { unfold ResetUnusedIOZones_visit. rewrite Hz.
    rewrite (Acquire_free _ Hfree).
    assert (IsEmpty (set_busy z true) = false) as -> by exact Hwritten.
    assert (IsUsed (set_busy z true) = false) as -> by exact Hunused.
    assert (IsFull (set_busy z true) = false) as -> by exact Hroom.
    cbn [negb andb].
    unfold Zone_Reset. cbn [start_ set_busy]. rewrite Hreset. cbn [ok negb].
    assert (CheckRelease
              (set_lifetime
                 (set_wp
                    (if offline then set_capacity (set_busy z true) 0
                     else set_max_capacity
                            (set_capacity (set_busy z true) max_capacity)
                            max_capacity)
                    (start_
                       (if offline then set_capacity (set_busy z true) 0
                        else set_max_capacity
                               (set_capacity (set_busy z true) max_capacity)
                               max_capacity)))
                 WLTH_NOT_SET) = (OK, reset)) as ->
        by (destruct offline; reflexivity).
    cbn [ok negb]. fold d1. rewrite Hlevel, Hemit. reflexivity. }
  split; [exact Hemit|]. split; [exact Hvisit|]. split.
  - intros rest. cbn [ResetUnusedIOZones_loop]. rewrite Hvisit. reflexivity.
  - intros ->. unfold ResetUnusedIOZones.
    destruct (io_zones d) as [|z0 zs]; [simpl in Hi; lia|].
    cbn [length seq ResetUnusedIOZones_loop]. rewrite Hvisit. reflexivity.
Qed.

End EmitAfterReset.

Lemma ResetUnusedIOZones_emits_reset_zone_witness :
  0 < lifetime_begin_ invalidated_device /\
  IsLevelZone_bucket invalidated_device 0 = true /\
  ResetUnusedIOZones IsLevelZone_bucket invalidated_device = Undefined /\
  AllocateIOZone IsLevelZone_bucket WLTH_MEDIUM kFlush 7 invalidated_device =
    Undefined.
Proof.
  assert (0 < lifetime_begin_ invalidated_device) as Hbegin
      by (vm_compute; reflexivity).
  assert (io_zones invalidated_device !! 0%nat =
          Some (mkZone false 12288 4096 (12288 + 512) 3 0 3584 false)) as Hz
      by (vm_compute; reflexivity).
  assert (be_Reset (zbd_be_ invalidated_device) 12288 =
            (plain_backend, (OK, false, 4096))) as Hreset
      by (vm_compute; reflexivity).
  assert (IsLevelZone_bucket
            (store_io_zone (set_be invalidated_device plain_backend) 0
               (mkZone false 12288 4096 12288 WLTH_NOT_SET 0 4096 false))
            0 = true) as Hlevel by (vm_compute; reflexivity).
  split; [exact Hbegin|]. split; [vm_compute; reflexivity|].
  split; [|vm_compute; reflexivity].
  destruct (ResetUnusedIOZones_emits_reset_zone IsLevelZone_bucket 0
              invalidated_device _ plain_backend false 4096 Hbegin Hz
              eq_refl eq_refl eq_refl eq_refl Hreset Hlevel)
    as (_ & _ & _ & Hpass).
  exact (Hpass eq_refl).
Defined.
